(** * frontegg-oauth-client: a shallow embedding of [src/frontegg-oauth-client.ts]

    The TypeScript class [FronteggOAuthClient] is embedded as follows.

    - JavaScript values: strings are [string] (read as the UTF-8 bytes of
      the JavaScript string), numbers that hold millisecond time stamps and
      second counts are [Z], [T | null] is [option T], and the values the
      code treats as [unknown] (response payloads) are the inductive [JSON].
    - Truthiness is written out: [null], [0] and the empty string are falsy.
    - An [async] function is a tree [Async A] of the steps it takes: reads
      and assignments of the instance and its environment, the [fetch]
      calls at which it suspends, and the pauses (a timer, a promise
      reaction) after which it resumes.
    - The platform (clock, [localStorage], [Math.random], the network and
      the order in which suspended functions are resumed) is an explicit
      environment: [World] and the events of [System].  Two primitives of
      the platform, the SHA-256 digest and the URL parser behind
      [new URL], are parameters of the methods that call them. *)

From stdpp Require Import base option list gmap strings.
From Stdlib Require Import ZArith Lia Ascii DecimalString.

#[local] Set Warnings "-register-all".

Local Open Scope Z_scope.

(** ** JavaScript primitives *)

(** [!!s] for [s : string | null | undefined]. *)
Definition truthy_string (s : option string) : bool :=
  match s with
  | Some (String _ _) => true
  | _ => false
  end.

(** [!!n] for [n : number | null | undefined] ([NaN] is not represented). *)
Definition truthy_number (n : option Z) : bool :=
  match n with
  | Some n => negb (n =? 0)
  | None => false
  end.

(** [a || b] on strings. *)
Definition or_string (a b : string) : string :=
  match a with
  | EmptyString => b
  | _ => a
  end.

(** A property that is [string | null | undefined]. *)
Inductive Nullish (A : Type) : Type :=
| undefined
| null
| defined (a : A).
Arguments undefined {A}.
Arguments null {A}.
Arguments defined {A} a.

(** [haystack.includes(needle)]. *)
Fixpoint includes (haystack needle : string) : bool :=
  String.prefix needle haystack
  || match haystack with
     | EmptyString => false
     | String _ rest => includes rest needle
     end.

(** ** Token expiration *)

(** [calculateTokenExpirationTime]; [now] is the value of [Date.now()]. *)
Definition calculateTokenExpirationTime (now expiresInSeconds : Z) : Z :=
  now + expiresInSeconds * 1000.

(** [isTokenExpired]; [now] is the value of [Date.now()]. *)
Definition isTokenExpired (now : Z) (tokenExpirationTime : option Z) : bool :=
  if negb (truthy_number tokenExpirationTime) then true
  else
    match tokenExpirationTime with
    | Some t => t - 60 * 60 * 1000 <? now
    | None => true
    end.

(** ** The user profile and the instance *)

Module UserData.
Record t : Type := mk {
  externalUserId : string;
  accessToken : string;
  name : string;
  email : string;
  profilePictureUrl : Nullish string;
  externalWorkspaceId : string;
}.
End UserData.
Abbreviation FronteggUserData := UserData.t.

(** Identity of a promise object: the order in which it was created. *)
Definition PromiseId := nat.

(** The fields of a [FronteggOAuthClient] instance. *)
Record FronteggOAuthClient : Type := mkClient {
  userData : option FronteggUserData;
  accessToken : option string;
  refreshToken : option string;
  tokenExpirationTime : option Z;
  baseUrl : string;
  clientId : string;
  redirectUri : string;
  logoutRedirectUri : string;
  userDataPromise : option PromiseId;
}.

Definition set_userData (v : option FronteggUserData) (c : FronteggOAuthClient) :=
  mkClient v (accessToken c) (refreshToken c) (tokenExpirationTime c)
    (baseUrl c) (clientId c) (redirectUri c) (logoutRedirectUri c) (userDataPromise c).
Definition set_accessToken (v : option string) (c : FronteggOAuthClient) :=
  mkClient (userData c) v (refreshToken c) (tokenExpirationTime c)
    (baseUrl c) (clientId c) (redirectUri c) (logoutRedirectUri c) (userDataPromise c).
Definition set_refreshToken (v : option string) (c : FronteggOAuthClient) :=
  mkClient (userData c) (accessToken c) v (tokenExpirationTime c)
    (baseUrl c) (clientId c) (redirectUri c) (logoutRedirectUri c) (userDataPromise c).
Definition set_tokenExpirationTime (v : option Z) (c : FronteggOAuthClient) :=
  mkClient (userData c) (accessToken c) (refreshToken c) v
    (baseUrl c) (clientId c) (redirectUri c) (logoutRedirectUri c) (userDataPromise c).
Definition set_userDataPromise (v : option PromiseId) (c : FronteggOAuthClient) :=
  mkClient (userData c) (accessToken c) (refreshToken c) (tokenExpirationTime c)
    (baseUrl c) (clientId c) (redirectUri c) (logoutRedirectUri c) v.

(** The constructor's [config] argument; an absent optional property is [None]. *)
Module Config.
Record t : Type := mk {
  baseUrl : string;
  clientId : string;
  redirectUri : string;
  logoutRedirectUri : string;
  userData : option FronteggUserData;
  refreshToken : option string;
  tokenExpirationTime : option Z;
}.
End Config.

(** The class's field initialisers followed by the body of [constructor]. *)
Definition constructor (config : Config.t) : FronteggOAuthClient :=
  let this :=
    mkClient None None None None
      (Config.baseUrl config) (Config.clientId config)
      (Config.redirectUri config) (Config.logoutRedirectUri config) None in
  let this :=
    match Config.userData config with
    | Some ud => set_accessToken (Some (UserData.accessToken ud)) (set_userData (Some ud) this)
    | None => this
    end in
  let this :=
    if truthy_string (Config.refreshToken config)
    then set_refreshToken (Config.refreshToken config) this
    else this in
  if truthy_number (Config.tokenExpirationTime config)
  then set_tokenExpirationTime (Config.tokenExpirationTime config) this
  else this.

(** ** Payloads: JSON values, [JSON.stringify] and the two schemas *)

(** A value produced by [response.json()].  Numbers are the integers; the
    fields of an object are listed in property order and are distinct. *)
Inductive JSON : Type :=
| JNull
| JBool (b : bool)
| JNumber (n : Z)
| JString (s : string)
| JArray (items : list JSON)
| JObject (fields : list (string * JSON)).

Definition char (n : nat) : string := String (Ascii.ascii_of_nat n) EmptyString.

Definition hex_digit (n : nat) : string :=
  char (if Nat.ltb n 10 then 48 + n else 87 + n)%nat.

(** The escape [JSON.stringify] writes for one character of a string. *)
Definition escape_char (c : Ascii.ascii) : string :=
  let n := Ascii.nat_of_ascii c in
  if Nat.eqb n 34 then char 92 +:+ char 34
  else if Nat.eqb n 92 then char 92 +:+ char 92
  else if Nat.eqb n 8 then char 92 +:+ "b"
  else if Nat.eqb n 9 then char 92 +:+ "t"
  else if Nat.eqb n 10 then char 92 +:+ "n"
  else if Nat.eqb n 12 then char 92 +:+ "f"
  else if Nat.eqb n 13 then char 92 +:+ "r"
  else if Nat.ltb n 32 then char 92 +:+ "u00" +:+ hex_digit (n / 16) +:+ hex_digit (n mod 16)
  else String c EmptyString.

Fixpoint escape (s : string) : string :=
  match s with
  | EmptyString => EmptyString
  | String c rest => escape_char c +:+ escape rest
  end.

Definition quote (s : string) : string := char 34 +:+ escape s +:+ char 34.

Definition number_to_string (n : Z) : string :=
  DecimalString.NilZero.string_of_int (Z.to_int n).

(** [JSON.stringify(j)] with no indentation. *)
Fixpoint JSON_stringify (j : JSON) : string :=
  match j with
  | JNull => "null"
  | JBool true => "true"
  | JBool false => "false"
  | JNumber n => number_to_string n
  | JString s => quote s
  | JArray items =>
      "[" +:+
      (fix elements (l : list JSON) : string :=
         match l with
         | [] => EmptyString
         | x :: rest =>
             JSON_stringify x +:+
             match rest with [] => EmptyString | _ => "," +:+ elements rest end
         end) items
      +:+ "]"
  | JObject fields =>
      "{" +:+
      (fix members (l : list (string * JSON)) : string :=
         match l with
         | [] => EmptyString
         | (k, v) :: rest =>
             quote k +:+ ":" +:+ JSON_stringify v +:+
             match rest with [] => EmptyString | _ => "," +:+ members rest end
         end) fields
      +:+ "}"
  end.

(** [obj[key]]: [None] is [undefined]. *)
Fixpoint property (key : string) (fields : list (string * JSON)) : option JSON :=
  match fields with
  | [] => None
  | (k, v) :: rest => if String.eqb k key then Some v else property key rest
  end.

(** One issue of a [ZodError]; every issue these schemas raise has the code
    [invalid_type]. *)
Record ZodIssue : Type := mkIssue {
  issue_path : list string;
  issue_expected : string;
  issue_received : string;
}.

(** zod's name for the type of a value ([None] is [undefined]). *)
Definition parsed_type (v : option JSON) : string :=
  match v with
  | None => "undefined"
  | Some JNull => "null"
  | Some (JBool _) => "boolean"
  | Some (JNumber _) => "number"
  | Some (JString _) => "string"
  | Some (JArray _) => "array"
  | Some (JObject _) => "object"
  end.

Definition invalid_type (path : list string) (expected : string) (v : option JSON) :=
  mkIssue path expected (parsed_type v).

(** [z.string()] at property [key]. *)
Definition z_string (key : string) (v : option JSON) : string + list ZodIssue :=
  match v with
  | Some (JString s) => inl s
  | _ => inr [invalid_type [key] "string" v]
  end.

(** [z.number()] at property [key]. *)
Definition z_number (key : string) (v : option JSON) : Z + list ZodIssue :=
  match v with
  | Some (JNumber n) => inl n
  | _ => inr [invalid_type [key] "number" v]
  end.

(** [z.string().nullable().optional()] at property [key]. *)
Definition z_string_nullable_optional (key : string) (v : option JSON)
  : Nullish string + list ZodIssue :=
  match v with
  | None => inl undefined
  | Some JNull => inl null
  | Some (JString s) => inl (defined s)
  | _ => inr [invalid_type [key] "string" v]
  end.

Definition issues_of {A} (r : A + list ZodIssue) : list ZodIssue :=
  match r with
  | inl _ => []
  | inr l => l
  end.

Module TokenResponse.
Record t : Type := mk {
  token_type : string;
  access_token : string;
  id_token : string;
  refresh_token : string;
  expires_in : Z;
}.
End TokenResponse.
Abbreviation GetFronteggTokenResponse := TokenResponse.t.

(** [GET_FRONTEGG_TOKEN_RESPONSE_SCHEMA.parse]: the data, or the issues of
    the [ZodError] it throws. *)
Definition GET_FRONTEGG_TOKEN_RESPONSE_SCHEMA (json : JSON)
  : GetFronteggTokenResponse + list ZodIssue :=
  match json with
  | JObject fields =>
      let a := z_string "token_type" (property "token_type" fields) in
      let b := z_string "access_token" (property "access_token" fields) in
      let c := z_string "id_token" (property "id_token" fields) in
      let d := z_string "refresh_token" (property "refresh_token" fields) in
      let e := z_number "expires_in" (property "expires_in" fields) in
      match a, b, c, d, e with
      | inl a, inl b, inl c, inl d, inl e => inl (TokenResponse.mk a b c d e)
      | _, _, _, _, _ =>
          inr (issues_of a ++ issues_of b ++ issues_of c ++ issues_of d ++ issues_of e)
      end
  | _ => inr [invalid_type [] "object" (Some json)]
  end.

Module UserDataResponse.
Record t : Type := mk {
  id : string;
  email : string;
  name : string;
  profilePictureUrl : Nullish string;
  tenantId : string;
}.
End UserDataResponse.
Abbreviation GetFronteggUserDataResponse := UserDataResponse.t.

(** [GET_FRONTEGG_USER_DATA_RESPONSE_SCHEMA.parse]. *)
Definition GET_FRONTEGG_USER_DATA_RESPONSE_SCHEMA (json : JSON)
  : GetFronteggUserDataResponse + list ZodIssue :=
  match json with
  | JObject fields =>
      let a := z_string "id" (property "id" fields) in
      let b := z_string "email" (property "email" fields) in
      let c := z_string "name" (property "name" fields) in
      let d := z_string_nullable_optional "profilePictureUrl"
                 (property "profilePictureUrl" fields) in
      let e := z_string "tenantId" (property "tenantId" fields) in
      match a, b, c, d, e with
      | inl a, inl b, inl c, inl d, inl e => inl (UserDataResponse.mk a b c d e)
      | _, _, _, _, _ =>
          inr (issues_of a ++ issues_of b ++ issues_of c ++ issues_of d ++ issues_of e)
      end
  | _ => inr [invalid_type [] "object" (Some json)]
  end.

(** ** Errors *)

(** The [body] of a [FronteggError]: the value [fetchWithAssert] stores,
    or the object [{ response, error }] of a failed schema validation,
    whose [error] is the [ZodError] caught. *)
Inductive ErrorBody : Type :=
| BodyValue (value : JSON)
| BodyParseFailure (response : JSON) (error : list ZodIssue).

Module FronteggError.
Record t : Type := mk {
  text : string;
  status : Z;
  url : string;
  fronteggTraceId : string;
  body : ErrorBody;
}.
End FronteggError.

(** What a function of the client can throw. *)
Inductive Exn : Type :=
| FronteggError (e : FronteggError.t)
| ZodError (issues : list ZodIssue)
| SyntaxError
| TypeError (message : string).

(** ** The network: requests, responses and the outcome of [fetch] *)

(** The [options] argument of [fetch]; an absent property is [None]. *)
Module RequestInit.
Record t : Type := mk {
method : option string;
credentials : option string;
mode : option string;
headers : list (string * string);
body : option string;
}.
End RequestInit.

(** A call [fetch(url, options)]. *)
Module Request.
Record t : Type := mk {
url : string;
options : RequestInit.t;
}.
End Request.

(** The body of a response: none ([new Response(null)]), a text together
    with the value [JSON.parse] gives for it ([None] when it is not JSON),
    or a stream that fails when read. *)
Inductive Body : Type :=
| NoBody
| Payload (text : string) (json : option JSON)
| Unreadable.

Module Response.
Record t : Type := mk {
  status : Z;
  headers : gmap string string;
  body : Body;
}.

(** [response.ok] *)
Definition ok (r : t) : bool := (200 <=? status r) && (status r <=? 299).

(** [response.text()] on an unread body. *)
Definition text (r : t) : string + Exn :=
  match body r with
  | NoBody => inl EmptyString
  | Payload text _ => inl text
  | Unreadable => inr (TypeError "Failed to read the body")
  end.

(** [response.json()]; [bodyUsed] tells whether the body was read before,
    in which case the call is rejected. *)
Definition json (bodyUsed : bool) (r : t) : JSON + Exn :=
  match body r with
  | NoBody => inr SyntaxError
  | Payload _ parsed =>
      if bodyUsed then inr (TypeError "Body is unusable")
      else match parsed with
           | Some j => inl j
           | None => inr SyntaxError
           end
  | Unreadable => inr (TypeError "Failed to read the body")
  end.
End Response.

(** How a call of [fetch] ends: rejected (no response was obtained) or
    resolved with a response, of any status. *)
Inductive FetchOutcome : Type :=
| Rejected (message : string)
| Responded (response : Response.t).

(** [!!j] for a JSON value. *)
Definition truthy_json (j : JSON) : bool :=
  match j with
  | JNull | JBool false | JNumber 0 | JString EmptyString => false
  | _ => true
  end.

(** ** Asynchronous functions *)

(** What an instance's code can read and write besides the network: the
    instance itself, [localStorage], the clock behind [Date.now()], and the
    future draws of [Math.floor(Math.random() * possible.length)]. *)
Record World : Type := mkWorld {
  this : FronteggOAuthClient;
  localStorage : gmap string string;
  clock : Z;
  random : nat -> nat;
}.

Definition with_this (f : FronteggOAuthClient -> FronteggOAuthClient) (w : World) : World :=
  mkWorld (f (this w)) (localStorage w) (clock w) (random w).

Definition with_localStorage (f : gmap string string -> gmap string string) (w : World)
  : World :=
  mkWorld (this w) (f (localStorage w)) (clock w) (random w).

Definition with_clock (now : Z) (w : World) : World :=
  mkWorld (this w) (localStorage w) now (random w).

(** The reason a function is suspended without a request: a reaction of a
    promise that runs on a later turn, or [setTimeout]. *)
Inductive Delay : Type :=
| Microtask
| Timeout (ms : Z).

(** The steps of an [async] function.  [Read] and [Update] run at once;
    at [Fetch] and [Pause] the function is suspended, and whatever runs in
    between may change the world it resumes in. *)
Inductive Async (A : Type) : Type :=
| Return (a : A)
| Throw (e : Exn)
| Read (k : World -> Async A)
| Update (f : World -> World) (k : Async A)
| Fetch (request : Request.t) (k : FetchOutcome -> Async A)
| Pause (d : Delay) (k : Async A).
Arguments Return {A} a.
Arguments Throw {A} e.
Arguments Read {A} k.
Arguments Update {A} f k.
Arguments Fetch {A} request k.
Arguments Pause {A} d k.

(** [const x = await m; k x] *)
Fixpoint bind {A B} (m : Async A) (f : A -> Async B) : Async B :=
  match m with
  | Return a => f a
  | Throw e => Throw e
  | Read k => Read (fun w => bind (k w) f)
  | Update g k => Update g (bind k f)
  | Fetch request k => Fetch request (fun o => bind (k o) f)
  | Pause d k => Pause d (bind k f)
  end.

Notation "'let*' x ':=' m 'in' k" := (bind m (fun x => k))
  (at level 10, x name, m at level 100, k at level 200).

(** [try { m } catch (e) { h e }] *)
Fixpoint try_catch {A} (m : Async A) (h : Exn -> Async A) : Async A :=
  match m with
  | Return a => Return a
  | Throw e => h e
  | Read k => Read (fun w => try_catch (k w) h)
  | Update g k => Update g (try_catch k h)
  | Fetch request k => Fetch request (fun o => try_catch (k o) h)
  | Pause d k => Pause d (try_catch k h)
  end.

(** [promise.then(onFulfilled)]: the reaction runs on a later turn. *)
Definition then_ {A B} (promise : Async A) (onFulfilled : A -> Async B) : Async B :=
  bind promise (fun a => Pause Microtask (onFulfilled a)).

(** [promise.catch(onRejected)]: the reaction runs on a later turn. *)
Definition catch_ {A} (promise : Async A) (onRejected : Exn -> Async A) : Async A :=
  try_catch promise (fun e => Pause Microtask (onRejected e)).

(** The outcome of awaiting a platform promise that is already settled. *)
Definition settled {A} (r : A + Exn) : Async A :=
  match r with
  | inl a => Return a
  | inr e => Throw e
  end.

(** Runs [m] in [w] up to its next suspension or its end. *)
Fixpoint run_sync {A} (w : World) (m : Async A) : World * Async A :=
  match m with
  | Read k => run_sync w (k w)
  | Update f k => run_sync (f w) k
  | _ => (w, m)
  end.

(** Runs [m] on its own to its end: each pause elapses with nothing else
    running, and each request is answered by the next element of
    [answers], a time at which the answer arrives and the answer.  The
    run stops at a request for which no answer is left. *)
Fixpoint run_alone {A} (w : World) (m : Async A) (answers : list (Z * FetchOutcome))
  : World * Async A :=
  match m with
  | Return _ | Throw _ => (w, m)
  | Read k => run_alone w (k w) answers
  | Update f k => run_alone (f w) k answers
  | Pause _ k => run_alone w k answers
  | Fetch _ k =>
      match answers with
      | [] => (w, m)
      | (now, o) :: rest => run_alone (with_clock now w) (k o) rest
      end
  end.

(** ** The functions of the module *)

Definition possible : string :=
  "ABCDEFGHIJKLMNOPQRSTUVWXYZabcdefghijklmnopqrstuvwxyz0123456789".

(** [s.charAt(i)] *)
Definition charAt (s : string) (i : nat) : string :=
  match String.get i s with
  | Some c => String c EmptyString
  | None => EmptyString
  end.

(** The loop of [createRandomString] on the stream of draws; it returns the
    text and the draws that are left. *)
Fixpoint random_text (length : nat) (draws : nat -> nat) : string * (nat -> nat) :=
  match length with
  | O => (EmptyString, draws)
  | S n =>
      let c := charAt possible (draws O) in
      let '(rest, draws') := random_text n (fun i => draws (S i)) in
      (c +:+ rest, draws')
  end.

(** [createRandomString(length = 16)] *)
Definition createRandomString (length : nat) : Async string :=
  Read (fun w =>
    let '(text, draws') := random_text length (random w) in
    Update (fun w => mkWorld (this w) (localStorage w) (clock w) draws')
      (Return text)).

(** [getCodeVerifier] *)
Definition getCodeVerifier : Async string :=
  Read (fun w =>
    match localStorage w !! "LOGIN_VERIFIER_KEY" with
    | Some (String _ _ as localStorageVerifier) => Return localStorageVerifier
    | _ =>
        let* verifier := createRandomString 16 in
        Update (with_localStorage (insert "LOGIN_VERIFIER_KEY" verifier))
          (Pause (Timeout 200) (Return verifier))
    end).

Definition defaultMessage : string := "Error while fetching Frontegg endpoint.".

(** [fetchWithAssert] *)
Definition fetchWithAssert (url : string) (options : RequestInit.t)
  : Async Response.t :=
  Fetch (Request.mk url options) (fun outcome =>
    match outcome with
    | Rejected message => Throw (TypeError message)
    | Responded response =>
        if negb (Response.ok response) then
          let text :=
            or_string
              (match Response.text response with
               | inl text => text
               | inr _ => defaultMessage
               end) defaultMessage in
          let body :=
            match Response.json true response with
            | inl json => if truthy_json json then json else JString defaultMessage
            | inr _ => JString defaultMessage
            end in
          Throw (FronteggError
            (FronteggError.mk text (Response.status response) url
               (default "undefined" (Response.headers response !! "frontegg-trace-id"))
               (BodyValue body)))
        else Return response
    end).

(** The three assignments every token exchange ends with. *)
Definition store_tokens (data : GetFronteggTokenResponse) (w : World) : World :=
  let w := with_this (set_accessToken (Some (TokenResponse.access_token data))) w in
  let w := with_this (set_refreshToken (Some (TokenResponse.refresh_token data))) w in
  with_this
    (set_tokenExpirationTime
       (Some (calculateTokenExpirationTime (clock w) (TokenResponse.expires_in data)))) w.

Definition token_field_names : list string :=
  ["access_token"; "id_token"; "refresh_token"].

Definition redaction_notice : string := "Response body contains sensitive information.".

Definition json_headers : list (string * string) :=
  [("Content-Type", "application/json")].

(** [fetchAccessTokenByCookie].  The value returned, [this.accessToken], is
    the one assigned two statements before. *)
Definition fetchAccessTokenByCookie : Async string :=
  Read (fun w =>
    let url := baseUrl (this w) +:+ "/frontegg/oauth/authorize/silent" in
    let* response :=
      fetchWithAssert url
        (RequestInit.mk (Some "POST") (Some "include") (Some "cors")
           json_headers None) in
    let* json := settled (Response.json false response) in
    match GET_FRONTEGG_TOKEN_RESPONSE_SCHEMA json with
    | inl data =>
        Update (store_tokens data) (Return (TokenResponse.access_token data))
    | inr error =>
        let includeResponseBody :=
          negb (existsb (fun key => includes (JSON_stringify json) key)
                  token_field_names) in
        Read (fun w =>
          Throw (FronteggError
            (FronteggError.mk "Error while parsing Frontegg response." 500
               (baseUrl (this w) +:+ "/frontegg/oauth/authorize/silent")
               (default "undefined" (Response.headers response !! "frontegg-trace-id"))
               (BodyParseFailure
                  (if includeResponseBody then json else JString redaction_notice)
                  error))))
    end).

(** [fetchAccessTokenByOAuthCode] *)
Definition fetchAccessTokenByOAuthCode (oauthCode : string) : Async string :=
  Read (fun w =>
    let url := baseUrl (this w) +:+ "/frontegg/oauth/token" in
    let redirect_uri := redirectUri (this w) in
    let* code_verifier := getCodeVerifier in
    let* response :=
      fetchWithAssert url
        (RequestInit.mk (Some "POST") None None json_headers
           (Some (JSON_stringify (JObject
              [("code", JString oauthCode);
               ("redirect_uri", JString redirect_uri);
               ("code_verifier", JString code_verifier);
               ("grant_type", JString "authorization_code")])))) in
    let* json := settled (Response.json false response) in
    match GET_FRONTEGG_TOKEN_RESPONSE_SCHEMA json with
    | inl data =>
        Update (store_tokens data) (Return (TokenResponse.access_token data))
    | inr issues => Throw (ZodError issues)
    end).

(** [fetchAccessTokenByOAuthRefreshToken] *)
Definition fetchAccessTokenByOAuthRefreshToken (refreshToken : string) : Async string :=
  Read (fun w =>
    let url := baseUrl (this w) +:+ "/frontegg/oauth/token" in
    let* response :=
      fetchWithAssert url
        (RequestInit.mk (Some "POST") None None json_headers
           (Some (JSON_stringify (JObject
              [("refresh_token", JString refreshToken);
               ("grant_type", JString "refresh_token")])))) in
    let* json := settled (Response.json false response) in
    match GET_FRONTEGG_TOKEN_RESPONSE_SCHEMA json with
    | inl data =>
        Update (store_tokens data) (Return (TokenResponse.access_token data))
    | inr issues => Throw (ZodError issues)
    end).

(** [getAccessToken] *)
Definition getAccessToken (forceRefresh : bool) : Async string :=
  Read (fun w =>
    match accessToken (this w) with
    | Some (String _ _ as cached) =>
        match refreshToken (this w) with
        | Some (String _ _ as refresh) =>
            if forceRefresh
               || isTokenExpired (clock w) (tokenExpirationTime (this w))
            then fetchAccessTokenByOAuthRefreshToken refresh
            else Return cached
        | _ => Return cached
        end
    | _ => fetchAccessTokenByCookie
    end).

Definition profile_path : string := "/frontegg/identity/resources/users/v2/me".

(** [fetchUserData] *)
Definition fetchUserData (userAccessToken : string) : Async FronteggUserData :=
  Read (fun w =>
    let* response :=
      fetchWithAssert (baseUrl (this w) +:+ profile_path)
        (RequestInit.mk None (Some "include") None
           [("Authorization", "Bearer " +:+ userAccessToken);
            ("Content-Type", "application/json")] None) in
    let* json := settled (Response.json false response) in
    match GET_FRONTEGG_USER_DATA_RESPONSE_SCHEMA json with
    | inl data =>
        Return (UserData.mk (UserDataResponse.id data) userAccessToken
                  (UserDataResponse.name data) (UserDataResponse.email data)
                  (UserDataResponse.profilePictureUrl data)
                  (UserDataResponse.tenantId data))
    | inr issues => Throw (ZodError issues)
    end).

(** The promise [getUserData] stores in [this.userDataPromise]:
    [this.getAccessToken({ forceRefresh }).then(..).then(..).catch(..)]. *)
Definition userDataChain (forceRefresh : bool) : Async FronteggUserData :=
  catch_
    (then_
       (then_ (getAccessToken forceRefresh)
          (fun accessToken => fetchUserData accessToken))
       (fun userData =>
          Update (with_this (set_userData (Some userData)))
            (Update (with_this (set_userDataPromise None))
               (Return userData))))
    (fun error =>
       Update (with_this (set_userDataPromise None)) (Throw error)).

(** ** Text: characters, splitting and the query format *)

Definition is_digit (n : nat) : bool := Nat.leb 48 n && Nat.leb n 57.
Definition is_upper (n : nat) : bool := Nat.leb 65 n && Nat.leb n 90.
Definition is_lower (n : nat) : bool := Nat.leb 97 n && Nat.leb n 122.
Definition is_alphanumeric (n : nat) : bool := is_digit n || is_upper n || is_lower n.

Definition upper_hex_digit (n : nat) : string :=
  char (if Nat.ltb n 10 then 48 + n else 55 + n)%nat.

(** The value of a hexadecimal digit. *)
Definition hex_value (c : Ascii.ascii) : option nat :=
  let n := Ascii.nat_of_ascii c in
  if is_digit n then Some (n - 48)%nat
  else if Nat.leb 65 n && Nat.leb n 70 then Some (n - 55)%nat
  else if Nat.leb 97 n && Nat.leb n 102 then Some (n - 87)%nat
  else None.

(** Splits [s] at the first occurrence of [sep]: the text before it and,
    when [sep] occurs, the text after it. *)
Fixpoint split_at (sep : Ascii.ascii) (s : string) : string * option string :=
  match s with
  | EmptyString => (EmptyString, None)
  | String c rest =>
      if Ascii.eqb c sep then (EmptyString, Some rest)
      else let '(before, after) := split_at sep rest in (String c before, after)
  end.

(** [s.split(sep)] for a one-character separator. *)
Fixpoint split_all (sep : Ascii.ascii) (s : string) : list string :=
  match s with
  | EmptyString => [EmptyString]
  | String c rest =>
      if Ascii.eqb c sep then EmptyString :: split_all sep rest
      else match split_all sep rest with
           | first :: others => String c first :: others
           | [] => [String c EmptyString]
           end
  end.

(** [s.replace(/c/g, by)] for a one-character pattern. *)
Fixpoint replace_all (c : Ascii.ascii) (by_ : string) (s : string) : string :=
  match s with
  | EmptyString => EmptyString
  | String x rest =>
      (if Ascii.eqb x c then by_ else String x EmptyString) +:+ replace_all c by_ rest
  end.

(** [lo <= c <= hi] on the code of a byte. *)
Definition byte_in (lo hi : nat) (c : Ascii.ascii) : bool :=
  Nat.leb lo (Ascii.nat_of_ascii c) && Nat.leb (Ascii.nat_of_ascii c) hi.

(** The byte sequences that are well-formed UTF-8 (the Unicode standard,
    table 3-7). *)
Fixpoint utf8_valid (s : string) : bool :=
  match s with
  | EmptyString => true
  | String a rest =>
      if byte_in 0 127 a then utf8_valid rest
      else
        match rest with
        | String b rest =>
            if byte_in 194 223 a then byte_in 128 191 b && utf8_valid rest
            else
              match rest with
              | String c rest =>
                  if byte_in 224 224 a
                  then byte_in 160 191 b && byte_in 128 191 c && utf8_valid rest
                  else if byte_in 225 236 a || byte_in 238 239 a
                  then byte_in 128 191 b && byte_in 128 191 c && utf8_valid rest
                  else if byte_in 237 237 a
                  then byte_in 128 159 b && byte_in 128 191 c && utf8_valid rest
                  else
                    match rest with
                    | String d rest =>
                        if byte_in 240 240 a
                        then byte_in 144 191 b && byte_in 128 191 c
                             && byte_in 128 191 d && utf8_valid rest
                        else if byte_in 241 243 a
                        then byte_in 128 191 b && byte_in 128 191 c
                             && byte_in 128 191 d && utf8_valid rest
                        else if byte_in 244 244 a
                        then byte_in 128 143 b && byte_in 128 191 c
                             && byte_in 128 191 d && utf8_valid rest
                        else false
                    | EmptyString => false
                    end
              | EmptyString => false
              end
        | EmptyString => false
        end
  end.

(** The [application/x-www-form-urlencoded] format of the URL standard, on
    the bytes of a string. *)
Module FormUrlEncoded.
Definition serialize_byte (c : Ascii.ascii) : string :=
  let n := Ascii.nat_of_ascii c in
  if Nat.eqb n 32 then "+"
  else if is_alphanumeric n
          || Nat.eqb n 42 || Nat.eqb n 45 || Nat.eqb n 46 || Nat.eqb n 95
  then String c EmptyString
  else "%" +:+ upper_hex_digit (n / 16) +:+ upper_hex_digit (n mod 16).

Fixpoint serialize_bytes (s : string) : string :=
  match s with
  | EmptyString => EmptyString
  | String c rest => serialize_byte c +:+ serialize_bytes rest
  end.

Fixpoint serialize (params : list (string * string)) : string :=
  match params with
  | [] => EmptyString
  | (name, value) :: rest =>
      serialize_bytes name +:+ "=" +:+ serialize_bytes value +:+
      match rest with
      | [] => EmptyString
      | _ => "&" +:+ serialize rest
      end
  end.

Fixpoint percent_decode (s : string) : string :=
  match s with
  | EmptyString => EmptyString
  | String c rest =>
      match Ascii.nat_of_ascii c, rest with
      | 37%nat, String h (String l rest') =>
          match hex_value h, hex_value l with
          | Some h, Some l =>
              String (Ascii.ascii_of_nat (16 * h + l)) (percent_decode rest')
          | _, _ => String c (percent_decode rest)
          end
      | _, _ => String c (percent_decode rest)
      end
  end.

(** The decoding of a name or a value: [+] stands for a space, the
    escapes are resolved, and the bytes are read as UTF-8.  Where the
    standard puts U+FFFD for bytes that are not UTF-8, the result is
    [None]: such a text is outside this model. *)
Definition decode (s : string) : option string :=
  let bytes := percent_decode (replace_all "+"%char " " s) in
  if utf8_valid bytes then Some bytes else None.

(** The pairs of the sequences of a query; empty sequences are skipped. *)
Fixpoint parse_sequences (sequences : list string) : option (list (string * string)) :=
  match sequences with
  | [] => Some []
  | EmptyString :: rest => parse_sequences rest
  | sequence :: rest =>
      let '(name, value) := split_at "="%char sequence in
      match decode name, decode (default EmptyString value), parse_sequences rest with
      | Some name, Some value, Some pairs => Some ((name, value) :: pairs)
      | _, _, _ => None
      end
  end.

(** The parser of the format, as [new URLSearchParams(query)] runs it;
    [None] when a name or a value is not UTF-8. *)
Definition parse (query : string) : option (list (string * string)) :=
  parse_sequences (split_all "&"%char query).
End FormUrlEncoded.

(** [URLSearchParams.prototype.set] on the list of pairs: the first pair
    named [name] takes [value] and the other pairs of that name are
    removed; when there is none, the pair is appended. *)
Fixpoint searchParams_set (name value : string) (params : list (string * string))
  : list (string * string) :=
  match params with
  | [] => [(name, value)]
  | (n, v) :: rest =>
      if String.eqb n name
      then (name, value) :: filter (fun p => negb (String.eqb (fst p) name)) rest
      else (n, v) :: searchParams_set name value rest
  end.

(** [URLSearchParams.prototype.get] *)
Fixpoint searchParams_get (name : string) (params : list (string * string))
  : option string :=
  match params with
  | [] => None
  | (n, v) :: rest => if String.eqb n name then Some v else searchParams_get name rest
  end.

(** ** URL objects *)

Module URL.
(** A URL object: the serialised scheme, host, port and path (the [href]
    up to the query), the query ([None] is [null]), the list of pairs of
    its [searchParams] object, and the fragment. *)
Record t : Type := mk {
  origin_and_path : string;
  query : option string;
  searchParams : list (string * string);
  fragment : option string;
}.

(** [url.searchParams.set(name, value)]: the list is updated and the
    query becomes its serialisation ([null] for the empty list). *)
Definition set (name value : string) (url : t) : t :=
  let params := searchParams_set name value (searchParams url) in
  mk (origin_and_path url)
     (match params with
      | [] => None
      | _ => Some (FormUrlEncoded.serialize params)
      end)
     params (fragment url).

(** [url.toString()], the same as [url.href]. *)
Definition toString (url : t) : string :=
  origin_and_path url
  +:+ match query url with
      | Some q => "?" +:+ q
      | None => EmptyString
      end
  +:+ match fragment url with
      | Some f => "#" +:+ f
      | None => EmptyString
      end.
End URL.

(** ** URLs that the parser takes over as written

    The parser of the URL standard on the inputs that it does not
    rewrite: [parse_plain] gives the URL object for them and [None] for
    every other input, which says nothing about what the parser does
    there (it may throw, or rewrite the input: case, default ports, dot
    segments, escapes, hosts that are numbers).  It is the parser of the
    examples; the builders below do not depend on it. *)

Fixpoint string_forallb (f : Ascii.ascii -> bool) (s : string) : bool :=
  match s with
  | EmptyString => true
  | String c rest => f c && string_forallb f rest
  end.

(** The characters that neither the query state nor the fragment state
    of the parser escapes: the printable ASCII characters but
    the double and the single quote, [#], [<], [>] and the backquote. *)
Definition plain_url_char (c : Ascii.ascii) : bool :=
  let n := Ascii.nat_of_ascii c in
  Nat.leb 33 n && Nat.leb n 126
  && negb (Nat.eqb n 34 || Nat.eqb n 35 || Nat.eqb n 39 || Nat.eqb n 60
           || Nat.eqb n 62 || Nat.eqb n 96).

(** Characters of a path that the path state keeps: letters, digits,
    [-], [.], [_], [~] and the slash. *)
Definition path_char (c : Ascii.ascii) : bool :=
  let n := Ascii.nat_of_ascii c in
  is_alphanumeric n || Nat.eqb n 47 || Nat.eqb n 45 || Nat.eqb n 46
  || Nat.eqb n 95 || Nat.eqb n 126.

(** A path without the segments [.] and [..], which the parser resolves. *)
Definition plain_path (path : string) : bool :=
  string_forallb path_char path
  && forallb (fun segment =>
                negb (String.eqb segment "." || String.eqb segment ".."))
       (split_all "/"%char path).

(** A label of a host name: lower-case letters and digits, in runs joined
    by single hyphens ([after_alnum]: the character before was a letter
    or a digit). *)
Fixpoint plain_label (after_alnum : bool) (s : string) : bool :=
  match s with
  | EmptyString => after_alnum
  | String c rest =>
      let n := Ascii.nat_of_ascii c in
      if is_lower n || is_digit n then plain_label true rest
      else if Nat.eqb n 45 then after_alnum && plain_label false rest
      else false
  end.

(** The labels that make the parser read a host as an IPv4 address: a
    decimal number, or [0x] followed by hexadecimal digits. *)
Definition numeric_label (s : string) : bool :=
  string_forallb (fun c => is_digit (Ascii.nat_of_ascii c)) s
  || match s with
     | String "0" (String "x" digits) =>
         string_forallb (fun c => bool_decide (is_Some (hex_value c))) digits
     | _ => false
     end.

(** The value of a decimal numeral that is written without a leading
    zero. *)
Fixpoint decimal_from (value : N) (s : string) : option N :=
  match s with
  | EmptyString => Some value
  | String c rest =>
      let n := Ascii.nat_of_ascii c in
      if is_digit n then decimal_from (10 * value + N.of_nat (n - 48)) rest
      else None
  end.

Definition decimal (s : string) : option N :=
  match s with
  | EmptyString => None
  | String "0" (String _ _) => None
  | _ => decimal_from 0 s
  end.

(** A domain name of plain labels whose last label is not a number. *)
Definition plain_domain (host : string) : bool :=
  let labels := split_all "."%char host in
  forallb (plain_label false) labels
  && negb (numeric_label (List.last labels EmptyString)).

(** An IPv4 address as the parser serialises it: four decimal parts of at
    most 255. *)
Definition dotted_quad (host : string) : bool :=
  match split_all "."%char host with
  | [a; b; c; d] =>
      forallb (fun part =>
                 match decimal part with
                 | Some n => N.leb n 255
                 | None => false
                 end) [a; b; c; d]
  | _ => false
  end.

(** A port that is serialised as written: a decimal number of at most
    65535 that is not the default port of the scheme. *)
Definition plain_port (default_port : N) (port : string) : bool :=
  match decimal port with
  | Some n => N.leb n 65535 && negb (N.eqb n default_port)
  | None => false
  end.

(** [s] without its prefix [p], when it starts with [p]. *)
Fixpoint strip_prefix (p s : string) : option string :=
  match p, s with
  | EmptyString, _ => Some s
  | String a p, String b s => if Ascii.eqb a b then strip_prefix p s else None
  | String _ _, EmptyString => None
  end.

(** The default port of the scheme of an [http] or [https] URL, and the
    text after [://]. *)
Definition after_scheme (s : string) : option (N * string) :=
  match strip_prefix "http://" s with
  | Some rest => Some (80%N, rest)
  | None =>
      match strip_prefix "https://" s with
      | Some rest => Some (443%N, rest)
      | None => None
      end
  end.

(** The serialisation of the address [scheme://host[:port][/path]]: the
    address itself, with the path [/] when it has none. *)
Definition plain_address (address : string) : option string :=
  match after_scheme address with
  | Some (default_port, rest) =>
      let '(authority, path) := split_at "/"%char rest in
      let '(host, port) := split_at ":"%char authority in
      if (plain_domain host || dotted_quad host)
         && from_option (plain_port default_port) true port
         && from_option plain_path true path
      then Some (match path with
                 | Some _ => address
                 | None => address +:+ "/"
                 end)
      else None
  | None => None
  end.

(** The URL object of an address as above, followed by an optional query
    and an optional fragment of [plain_url_char]s. *)
Definition parse_plain (input : string) : option URL.t :=
  let '(before, fragment) := split_at "#"%char input in
  let '(address, query) := split_at "?"%char before in
  if string_forallb plain_url_char (default EmptyString query)
     && string_forallb plain_url_char (default EmptyString fragment)
  then
    match plain_address address,
          FormUrlEncoded.parse (default EmptyString query) with
    | Some origin_and_path, Some params =>
        Some (URL.mk origin_and_path query params fragment)
    | _, _ => None
    end
  else None.

(** ** Base64 *)

Definition base64_alphabet : string :=
  "ABCDEFGHIJKLMNOPQRSTUVWXYZabcdefghijklmnopqrstuvwxyz0123456789+/".

Definition base64_digit (n : nat) : string := charAt base64_alphabet n.

(** [btoa] on a string of bytes. *)
Fixpoint btoa (s : string) : string :=
  match s with
  | EmptyString => EmptyString
  | String a EmptyString =>
      let a := Ascii.nat_of_ascii a in
      base64_digit (a / 4) +:+ base64_digit (a mod 4 * 16) +:+ "=="
  | String a (String b EmptyString) =>
      let a := Ascii.nat_of_ascii a in
      let b := Ascii.nat_of_ascii b in
      base64_digit (a / 4) +:+ base64_digit (a mod 4 * 16 + b / 16)
      +:+ base64_digit (b mod 16 * 4) +:+ "="
  | String a (String b (String c rest)) =>
      let a := Ascii.nat_of_ascii a in
      let b := Ascii.nat_of_ascii b in
      let c := Ascii.nat_of_ascii c in
      base64_digit (a / 4) +:+ base64_digit (a mod 4 * 16 + b / 16)
      +:+ base64_digit (b mod 16 * 4 + c / 64) +:+ base64_digit (c mod 64)
      +:+ btoa rest
  end%nat.

(** ** The URL builders

    [new URL(input)] is a primitive of the platform: the parser of the URL
    standard.  The methods that call it are embedded over any function
    [new_URL] that gives, for an input, the URL object the constructor
    returns or the [TypeError] it throws; what is proved of them holds
    for the parser of the platform, whatever URL is configured. *)

Section Builders.

(** [crypto.subtle.digest('SHA-256', new TextEncoder().encode(text))] as
    the string of its 32 bytes: a primitive of the platform. *)
Variable SHA256 : string -> string.

(** [new URL(input)]: the URL object, or the [TypeError] thrown. *)
Variable new_URL : string -> URL.t + Exn.

(** [getOAuthLogoutUrl]: the string returned, or the error thrown by
    [new URL]. *)
Definition getOAuthLogoutUrl (this : FronteggOAuthClient) : string + Exn :=
  match new_URL (baseUrl this +:+ "/frontegg/oauth/logout") with
  | inl url =>
      let url := URL.set "post_logout_redirect_uri" (logoutRedirectUri this) url in
      inl (URL.toString url)
  | inr error => inr error
  end.

(** The code challenge computed by [getOAuthLoginUrl]. *)
Definition hashedVerifier (codeVerifier : string) : string :=
  let digest := SHA256 codeVerifier in
  replace_all "/"%char "_"
    (replace_all "+"%char "-"
       (replace_all "="%char EmptyString (btoa digest))).

(** [getOAuthLoginUrl] *)
Definition getOAuthLoginUrl : Async URL.t :=
  let* codeVerifier := getCodeVerifier in
  let hashedVerifier := hashedVerifier codeVerifier in
  let* nonce := createRandomString 16 in
  Read (fun w =>
    match new_URL (baseUrl (this w) +:+ "/frontegg/oauth/authorize") with
    | inl loginUrl =>
        let loginUrl := URL.set "client_id" (clientId (this w)) loginUrl in
        let loginUrl := URL.set "redirect_uri" (redirectUri (this w)) loginUrl in
        let loginUrl := URL.set "response_type" "code" loginUrl in
        let loginUrl := URL.set "scope" "openid profile email" loginUrl in
        let loginUrl := URL.set "code_challenge" hashedVerifier loginUrl in
        let loginUrl := URL.set "code_challenge_method" "S256" loginUrl in
        let loginUrl := URL.set "nonce" nonce loginUrl in
        Return loginUrl
    | inr error => Throw error
    end).

End Builders.

(** ** Instances at work: pending promises and the events that move them *)

(** What a call of [getUserData] hands to its caller: a promise fulfilled
    with the cached profile, or a promise that follows the promise stored
    in [this.userDataPromise]. *)
Inductive UserDataResult : Type :=
| Resolved (userData : FronteggUserData)
| Shared (promise : PromiseId).

(** An instance in its environment: the world, the promises created by
    [getUserData] that are not settled, each with what is left of its
    chain, the calls of the two public token exchanges that are not
    settled, and the next promise identity. *)
Record System : Type := mkSystem {
  world : World;
  pending : gmap PromiseId (Async FronteggUserData);
  exchanges : gmap PromiseId (Async string);
  next : PromiseId;
}.

(** The body of [if (!this.userDataPromise) { ... }]: the chain runs up
    to its first suspension, and the promise made of it, a new object, is
    assigned to [this.userDataPromise]. *)
Definition startUserDataPromise (forceRefresh : bool) (s : System) : System * PromiseId :=
  let promise := next s in
  let '(w, chain) := run_sync (world s) (userDataChain forceRefresh) in
  (mkSystem (with_this (set_userDataPromise (Some promise)) w)
     (<[promise := chain]> (pending s)) (exchanges s) (S promise),
   promise).

(** [getUserData({ forceRefresh })]: the new state and the value returned. *)
Definition getUserData (forceRefresh : bool) (s : System) : System * UserDataResult :=
  let w := world s in
  let cached :=
    match userData (this w) with
    | Some userData =>
        if negb (isTokenExpired (clock w) (tokenExpirationTime (this w)))
           && negb forceRefresh
        then Some userData
        else None
    | None => None
    end in
  match cached with
  | Some userData => (s, Resolved userData)
  | None =>
      match userDataPromise (this w) with
      | Some promise => (s, Shared promise)
      | None =>
          let '(s, promise) := startUserDataPromise forceRefresh s in
          (s, Shared promise)
      end
  end.

(** What resumes a suspended function: the outcome of its request, or the
    end of its pause. *)
Inductive Wake : Type :=
| Answer (outcome : FetchOutcome)
| Elapsed.

Definition resume {A} (w : World) (task : Async A) (wake : Wake)
  : option (World * Async A) :=
  match task, wake with
  | Fetch _ k, Answer outcome => Some (run_sync w (k outcome))
  | Pause _ k, Elapsed => Some (run_sync w k)
  | _, _ => None
  end.

Definition finished {A} (task : Async A) : bool :=
  match task with
  | Return _ | Throw _ => true
  | _ => false
  end.

(** A task after a step: dropped when it has ended, kept otherwise. *)
Definition keep {A} (p : PromiseId) (task : Async A) (tasks : gmap PromiseId (Async A))
  : gmap PromiseId (Async A) :=
  if finished task then delete p tasks else <[p := task]> tasks.

(** A call of one of the public token exchanges. *)
Definition startExchange (call : Async string) (s : System) : System :=
  let promise := next s in
  let '(w, task) := run_sync (world s) call in
  mkSystem w (pending s) (keep promise task (exchanges s)) (S promise).

(** What can happen to an instance: a call of one of its asynchronous
    functions that touch its fields, the resumption of a suspended
    function, the passing of time, or other code of the page (among it
    [getOAuthLoginUrl], which touches no field of the instance) writing
    to [localStorage] and drawing random numbers. *)
Inductive Event : Type :=
| Call_getUserData (forceRefresh : bool)
| Call_fetchAccessTokenByOAuthCode (oauthCode : string)
| Call_fetchAccessTokenByOAuthRefreshToken (refreshToken : string)
| Resume (promise : PromiseId) (wake : Wake)
| Tick (now : Z)
| Environment (storage : gmap string string) (draws : nat -> nat).

Definition step (s : System) (e : Event) : System :=
  match e with
  | Call_getUserData forceRefresh => fst (getUserData forceRefresh s)
  | Call_fetchAccessTokenByOAuthCode oauthCode =>
      startExchange (fetchAccessTokenByOAuthCode oauthCode) s
  | Call_fetchAccessTokenByOAuthRefreshToken refreshToken =>
      startExchange (fetchAccessTokenByOAuthRefreshToken refreshToken) s
  | Resume p wake =>
      match pending s !! p with
      | Some task =>
          match resume (world s) task wake with
          | Some (w, task) =>
              mkSystem w (keep p task (pending s)) (exchanges s) (next s)
          | None => s
          end
      | None =>
          match exchanges s !! p with
          | Some task =>
              match resume (world s) task wake with
              | Some (w, task) =>
                  mkSystem w (pending s) (keep p task (exchanges s)) (next s)
              | None => s
              end
          | None => s
          end
      end
  | Tick now => mkSystem (with_clock now (world s)) (pending s) (exchanges s) (next s)
  | Environment storage draws =>
      mkSystem (mkWorld (this (world s)) storage (clock (world s)) draws)
        (pending s) (exchanges s) (next s)
  end.

Definition run (s : System) (events : list Event) : System :=
  foldl step s events.

(** A new instance in its environment. *)
Definition start (config : Config.t) (storage : gmap string string) (now : Z)
    (draws : nat -> nat) : System :=
  mkSystem (mkWorld (constructor config) storage now draws) ∅ ∅ O.

(** ** Notions the statements below are written with *)

(** The token state of an instance. *)
Definition tokens (c : FronteggOAuthClient) : option string * option string * option Z :=
  (accessToken c, refreshToken c, tokenExpirationTime c).

(** The URL of the request a task is suspended on. *)
Definition in_flight_url {A} (task : Async A) : option string :=
  match task with
  | Fetch request _ => Some (Request.url request)
  | _ => None
  end.

(** A task that is suspended on the request of a profile fetch. *)
Definition awaits_profile {A} (w : World) (task : Async A) : Prop :=
  in_flight_url task = Some (baseUrl (this w) +:+ profile_path).

(** Promise [p] of [s] is suspended on the request of a profile fetch. *)
Definition profile_fetch_in_flight (s : System) (p : PromiseId) : Prop :=
  (exists task, pending s !! p = Some task /\ awaits_profile (world s) task)
  \/ (exists task, exchanges s !! p = Some task /\ awaits_profile (world s) task).

Section Discipline.

Context {A : Type}.

(** [step w0 w] relates the world [w0] in which a function is resumed to
    the world [w] in which it suspends again, [final w0 w] to the one in
    which it ends, and [allowed] holds of the requests it may make. *)
Variables step final : World -> World -> Prop.
Variable allowed : Request.t -> Prop.

(** [m], started in [w] by a run that began in [w0], keeps to [step],
    [final] and [allowed] in whatever worlds it is resumed later. *)
Fixpoint obeys (w0 : World) (m : Async A) (w : World) : Prop :=
  match m with
  | Return _ | Throw _ => final w0 w
  | Read k => obeys w0 (k w) w
  | Update f k => obeys w0 k (f w)
  | Fetch request k =>
      step w0 w /\ allowed request /\ forall o w1, obeys w1 (k o) w1
  | Pause _ k => step w0 w /\ forall w1, obeys w1 k w1
  end.

(** A suspended task keeps to them however it is resumed. *)
Definition resumable (task : Async A) : Prop :=
  match task with
  | Fetch request k => allowed request /\ forall o w, obeys w (k o) w
  | Pause _ k => forall w, obeys w k w
  | _ => False
  end.

End Discipline.

(** The guard [this.userDataPromise] is in [w] what it was in [w0]. *)
Definition same_guard (w0 w : World) : Prop :=
  userDataPromise (this w) = userDataPromise (this w0).

(** The guard is [null] in [w]. *)
Definition guard_cleared (w0 w : World) : Prop :=
  userDataPromise (this w) = None.

(** No restriction on the requests. *)
Definition any_request (request : Request.t) : Prop := True.

(** A request of the token endpoint. *)
Definition token_request (request : Request.t) : Prop :=
  exists base, Request.url request = base +:+ "/frontegg/oauth/token".

(** The chain of a [getUserData] promise leaves the guard alone until it
    ends, and clears it when it ends. *)
Definition chain_ok (task : Async FronteggUserData) : Prop :=
  resumable same_guard guard_cleared any_request task.

(** A public token exchange never touches the guard and only requests the
    token endpoint. *)
Definition exchange_ok (task : Async string) : Prop :=
  resumable same_guard same_guard token_request task.

(** The guard and the pending promises agree: the promise in
    [this.userDataPromise] is the one suspended [getUserData] chain, it was
    created before, and there is none when the guard is [null]. *)
Definition consistent (s : System) : Prop :=
  match userDataPromise (this (world s)) with
  | Some p => (p < next s)%nat /\ exists task, pending s = {[p := task]} /\ chain_ok task
  | None => pending s = ∅
  end
  /\ forall p task, exchanges s !! p = Some task -> exchange_ok task.

Definition base64url_alphabet : string :=
  "ABCDEFGHIJKLMNOPQRSTUVWXYZabcdefghijklmnopqrstuvwxyz0123456789-_".

Definition base64url_digit (n : nat) : string := charAt base64url_alphabet n.

(** The base64url encoding with no padding, as the specification words
    it: the encoding of RFC 4648 with [-] and [_] for [+] and [/] and
    without the [=] that pad the last group. *)
Fixpoint base64url (s : string) : string :=
  match s with
  | EmptyString => EmptyString
  | String a EmptyString =>
      let a := Ascii.nat_of_ascii a in
      base64url_digit (a / 4) +:+ base64url_digit (a mod 4 * 16)
  | String a (String b EmptyString) =>
      let a := Ascii.nat_of_ascii a in
      let b := Ascii.nat_of_ascii b in
      base64url_digit (a / 4) +:+ base64url_digit (a mod 4 * 16 + b / 16)
      +:+ base64url_digit (b mod 16 * 4)
  | String a (String b (String c rest)) =>
      let a := Ascii.nat_of_ascii a in
      let b := Ascii.nat_of_ascii b in
      let c := Ascii.nat_of_ascii c in
      base64url_digit (a / 4) +:+ base64url_digit (a mod 4 * 16 + b / 16)
      +:+ base64url_digit (b mod 16 * 4 + c / 64) +:+ base64url_digit (c mod 64)
      +:+ base64url rest
  end%nat.

(** The seven query parameters of the login URL. *)
Definition login_parameters (this : FronteggOAuthClient) (code_challenge nonce : string)
  : list (string * string) :=
  [("client_id", clientId this);
   ("redirect_uri", redirectUri this);
   ("response_type", "code");
   ("scope", "openid profile email");
   ("code_challenge", code_challenge);
   ("code_challenge_method", "S256");
   ("nonce", nonce)].

(** What a token exchange answered at time [now] with the payload [data]
    leaves behind: the access token as its result, and the three token
    fields. *)
Definition exchanged (now : Z) (data : GetFronteggTokenResponse)
    (result : World * Async string) : Prop :=
  snd result = Return (TokenResponse.access_token data)
  /\ tokens (this (fst result))
     = (Some (TokenResponse.access_token data),
        Some (TokenResponse.refresh_token data),
        Some (now + TokenResponse.expires_in data * 1000)).

(** The steps both public exchanges share once the request is written. *)
Definition exchange_tail (url : string) (options : RequestInit.t) : Async string :=
  let* response := fetchWithAssert url options in
  let* json := settled (Response.json false response) in
  match GET_FRONTEGG_TOKEN_RESPONSE_SCHEMA json with
  | inl data =>
      Update (store_tokens data) (Return (TokenResponse.access_token data))
  | inr issues => Throw (ZodError issues)
  end.

(** The three replacements of [getOAuthLoginUrl]. *)
Definition url_safe (s : string) : string :=
  replace_all "/" "_" (replace_all "+" "-" (replace_all "=" EmptyString s)).

(** [x] is not the character [c]. *)
Definition differs (c x : ascii) : bool := negb (Ascii.eqb x c).

(** How the guard may move in one event [e] from [s] to [s']: a guard
    that holds the promise [p] keeps it, with [p] still pending, or it is
    cleared by the resumption of [p] that settles [p]. *)
Definition guard_transition (s s' : System) (e : Event) : Prop :=
  forall p, userDataPromise (this (world s)) = Some p ->
    (userDataPromise (this (world s')) = Some p /\ is_Some (pending s' !! p))
    \/ (userDataPromise (this (world s')) = None /\ pending s' = ∅
        /\ exists wake, e = Resume p wake).

(** The last character of a string. *)
Fixpoint last_char (s : string) : option ascii :=
  match s with
  | EmptyString => None
  | String c EmptyString => Some c
  | String _ rest => last_char rest
  end.

(** Where the promise in the guard of [s'] comes from, one event after
    [s]: it was in the guard already, or it is the promise just created. *)
Definition guard_origin (s s' : System) : Prop :=
  (next s <= next s')%nat
  /\ forall q, userDataPromise (this (world s')) = Some q ->
       userDataPromise (this (world s)) = Some q \/ q = next s.

(** ** The values of the repository's tests *)

Definition clientConfig : Config.t :=
  Config.mk "http://frontegg-test-instance.local" "test-client-id"
    "http://localhost:3000/oauth/callback" "http://localhost:3000" None None None.

Definition FRONTEGG_RESPONSE : JSON :=
  JObject [("token_type", JString "Bearer");
           ("access_token", JString "test-access-token");
           ("id_token", JString "test-id-token");
           ("refresh_token", JString "test-refresh-token");
           ("expires_in", JNumber 3600)].

Definition FRONTEGG_USER_DATA : JSON :=
  JObject [("id", JString "test-user-id");
           ("email", JString "test@lokalise.com");
           ("name", JString "dummy username");
           ("profilePictureUrl",
            JString "https://www.gravatar.com/avatar/00000000000000000000000000000000");
           ("tenantId", JString "test-tenant-id")].

Definition USER_DATA : FronteggUserData :=
  UserData.mk "test-user-id" "test-access-token" "dummy username" "test@lokalise.com"
    (defined "https://www.gravatar.com/avatar/00000000000000000000000000000000")
    "test-tenant-id".

(** [HttpResponse.json(value)] *)
Definition HttpResponse_json (value : JSON) : Response.t :=
  Response.mk 200 ∅ (Payload (JSON_stringify value) (Some value)).

(** [EmptyResponse(code)] *)
Definition EmptyResponse (code : Z) : Response.t := Response.mk code ∅ NoBody.

Definition no_draws : nat -> nat := fun _ => O.

(** The URL parser of the examples: the parser of the platform on the
    inputs that it takes over as written.  Every other input is rejected
    as an invalid URL, which the platform need not do; the examples use
    inputs of the first kind only. *)
Definition plain_URL (input : string) : URL.t + Exn :=
  match parse_plain input with
  | Some url => inl url
  | None => inr (TypeError "Invalid URL")
  end.

(** A session restored from storage whose access token expired long ago. *)
Definition STALE_USER_DATA : FronteggUserData :=
  UserData.mk "test-user-id" "stale-access-token" "dummy username" "test@lokalise.com"
    null "test-tenant-id".

Definition restoredConfig : Config.t :=
  Config.mk "http://frontegg-test-instance.local" "test-client-id"
    "http://localhost:3000/oauth/callback" "http://localhost:3000"
    (Some STALE_USER_DATA) (Some "stale-refresh-token") (Some 1600000000000).

(** A token payload that is valid for a day. *)
Definition DAY_RESPONSE : JSON :=
  JObject [("token_type", JString "Bearer");
           ("access_token", JString "test-access-token");
           ("id_token", JString "test-id-token");
           ("refresh_token", JString "test-refresh-token");
           ("expires_in", JNumber 86400)].

(** ** Further notions *)

(** The request a task is suspended on. *)
Definition in_flight_request {A} (task : Async A) : option Request.t :=
  match task with
  | Fetch request _ => Some request
  | _ => None
  end.

(** The request of the silent-cookie exchange. *)
Definition cookie_request (base : string) : Request.t :=
  Request.mk (base +:+ "/frontegg/oauth/authorize/silent")
    (RequestInit.mk (Some "POST") (Some "include") (Some "cors") json_headers None).

(** The request of the refresh-token exchange. *)
Definition refresh_request (base refreshToken : string) : Request.t :=
  Request.mk (base +:+ "/frontegg/oauth/token")
    (RequestInit.mk (Some "POST") None None json_headers
       (Some (JSON_stringify (JObject
          [("refresh_token", JString refreshToken);
           ("grant_type", JString "refresh_token")])))).

(** The request of the authorization-code exchange. *)
Definition code_request (base redirect_uri oauthCode code_verifier : string) : Request.t :=
  Request.mk (base +:+ "/frontegg/oauth/token")
    (RequestInit.mk (Some "POST") None None json_headers
       (Some (JSON_stringify (JObject
          [("code", JString oauthCode);
           ("redirect_uri", JString redirect_uri);
           ("code_verifier", JString code_verifier);
           ("grant_type", JString "authorization_code")])))).

(** The request of the profile fetch. *)
Definition profile_request (base userAccessToken : string) : Request.t :=
  Request.mk (base +:+ profile_path)
    (RequestInit.mk None (Some "include") None
       [("Authorization", "Bearer " +:+ userAccessToken);
        ("Content-Type", "application/json")] None).

(** Every character of [s] is a letter or a digit. *)
Definition alphanumeric (s : string) : bool :=
  string_forallb (fun c => is_alphanumeric (Ascii.nat_of_ascii c)) s.

(** The characters of the base64url alphabet. *)
Definition is_base64url_char (c : ascii) : bool :=
  let n := Ascii.nat_of_ascii c in
  is_alphanumeric n || Nat.eqb n 45 || Nat.eqb n 95.

(** The number of characters that encode [n] bytes in unpadded base64. *)
Fixpoint base64url_length (n : nat) : nat :=
  match n with
  | O => 0
  | 1 => 2
  | 2 => 3
  | S (S (S m)) => 4 + base64url_length m
  end%nat.

(** The number of pairs of [params] that are named [name]. *)
Definition occurrences (name : string) (params : list (string * string)) : nat :=
  length (filter (fun p => String.eqb (fst p) name = true) params).

(** What [getOAuthLoginUrl] makes of the instance, a verifier and a
    nonce: the URL, or the error thrown by [new URL]. *)
Definition login_url (SHA256 : string -> string) (new_URL : string -> URL.t + Exn)
    (this : FronteggOAuthClient) (codeVerifier nonce : string) : URL.t + Exn :=
  match new_URL (baseUrl this +:+ "/frontegg/oauth/authorize") with
  | inl loginUrl =>
      let loginUrl := URL.set "client_id" (clientId this) loginUrl in
      let loginUrl := URL.set "redirect_uri" (redirectUri this) loginUrl in
      let loginUrl := URL.set "response_type" "code" loginUrl in
      let loginUrl := URL.set "scope" "openid profile email" loginUrl in
      let loginUrl :=
        URL.set "code_challenge" (hashedVerifier SHA256 codeVerifier) loginUrl in
      let loginUrl := URL.set "code_challenge_method" "S256" loginUrl in
      let loginUrl := URL.set "nonce" nonce loginUrl in
      inl loginUrl
  | inr error => inr error
  end.

(** The draws of [Math.floor(Math.random() * possible.length)] are below
    the length of [possible]. *)
Definition draws_in_range (draws : nat -> nat) : Prop :=
  forall i, (draws i < 62)%nat.

(** The characters of a serialised parameter name or value: characters
    that a query keeps as they are, and none of the separators. *)
Definition encoded_char (x : ascii) : bool :=
  plain_url_char x && differs "&" x && differs "=" x.

(** Every byte of [s] is an ASCII character. *)
Definition ascii_text (s : string) : bool := string_forallb (byte_in 0 127) s.

(** The text that follows a fragment in an [href]. *)
Definition fragment_text (url : URL.t) : string :=
  match URL.fragment url with
  | Some f => "#" +:+ f
  | None => EmptyString
  end.

(** * The repository's tests, run on the model *)

(** The clock of the test runs, and a network that answers at once. *)
Definition test_start : System := start clientConfig ∅ 1700000000000 no_draws.

(** "returns user data based on auth token" *)
Example test_returns_user_data :
  let s :=
    run test_start
      [Call_getUserData false;
       Resume 0%nat (Answer (Responded (HttpResponse_json FRONTEGG_RESPONSE)));
       Resume 0%nat Elapsed;
       Resume 0%nat (Answer (Responded (HttpResponse_json FRONTEGG_USER_DATA)));
       Resume 0%nat Elapsed] in
  userData (this (world s)) = Some USER_DATA
  /\ userDataPromise (this (world s)) = None
  /\ pending s = ∅.
Proof. vm_compute. repeat split. Qed.

(** "allows to fetch user data only once at a time" *)
Example test_fetches_once_at_a_time :
  let '(s1, userDataPromise1) := getUserData false test_start in
  let '(s2, userDataPromise2) := getUserData false s1 in
  userDataPromise1 = Shared 0%nat
  /\ userDataPromise2 = Shared 0%nat
  /\ in_flight_url <$> pending s2 !! 0%nat
     = Some (Some "http://frontegg-test-instance.local/frontegg/oauth/authorize/silent")
  /\ size (pending s2) = 1%nat.
Proof. vm_compute. repeat split. Qed.

(** "returns user data based on refresh token": the token of the first
    answer expires at once, and the second call uses the token endpoint. *)
Example test_refreshes_expired_token :
  let expired :=
    JObject [("token_type", JString "Bearer");
             ("access_token", JString "test-access-token");
             ("id_token", JString "test-id-token");
             ("refresh_token", JString "test-refresh-token");
             ("expires_in", JNumber 0)] in
  let refreshed :=
    JObject [("token_type", JString "Bearer");
             ("access_token", JString "test-refreshed-access-token");
             ("id_token", JString "test-id-token");
             ("refresh_token", JString "test-refresh-token");
             ("expires_in", JNumber 3600)] in
  let s1 :=
    run test_start
      [Call_getUserData false;
       Resume 0%nat (Answer (Responded (HttpResponse_json expired)));
       Resume 0%nat Elapsed;
       Resume 0%nat (Answer (Responded (HttpResponse_json FRONTEGG_USER_DATA)));
       Resume 0%nat Elapsed] in
  let '(s2, userDataRefreshed) := getUserData false s1 in
  let s3 :=
    run s2
      [Resume 1%nat (Answer (Responded (HttpResponse_json refreshed)));
       Resume 1%nat Elapsed;
       Resume 1%nat (Answer (Responded (HttpResponse_json FRONTEGG_USER_DATA)));
       Resume 1%nat Elapsed] in
  userData (this (world s1)) = Some USER_DATA
  /\ userDataRefreshed = Shared 1%nat
  /\ in_flight_url <$> pending s2 !! 1%nat
     = Some (Some "http://frontegg-test-instance.local/frontegg/oauth/token")
  /\ UserData.accessToken <$> userData (this (world s3))
     = Some "test-refreshed-access-token".
Proof. vm_compute. repeat split. Qed.

(** "throws an error when unable to fetch user data" *)
Example test_network_failure :
  snd (run_alone (world test_start) (userDataChain false)
         [(1700000000000, Rejected "Failed to fetch")])
  = Throw (TypeError "Failed to fetch").
Proof. reflexivity. Qed.

(** "returns the OAuth login URL", with a stored verifier and any digest. *)
Example test_login_url :
  let w := mkWorld (constructor clientConfig) {["LOGIN_VERIFIER_KEY" := "verifier"]}
             1700000000000 no_draws in
  match snd (run_alone w (getOAuthLoginUrl (fun _ => "digest") plain_URL) []) with
  | Return loginUrl =>
      URL.origin_and_path loginUrl
      = "http://frontegg-test-instance.local/frontegg/oauth/authorize"
      /\ searchParams_get "client_id" (URL.searchParams loginUrl) = Some "test-client-id"
      /\ searchParams_get "redirect_uri" (URL.searchParams loginUrl)
         = Some "http://localhost:3000/oauth/callback"
      /\ searchParams_get "scope" (URL.searchParams loginUrl)
         = Some "openid profile email"
  | _ => False
  end.
Proof. vm_compute. repeat split. Qed.

(** "returns the OAuth logout URL" *)
Example test_logout_url :
  getOAuthLogoutUrl plain_URL (constructor clientConfig)
  = inl "http://frontegg-test-instance.local/frontegg/oauth/logout?post_logout_redirect_uri=http%3A%2F%2Flocalhost%3A3000".
Proof. reflexivity. Qed.

(** The logout URL of base URLs with a port, digits in the host, an IPv4
    host, and a path. *)
Example test_logout_url_hosts :
  let logout baseUrl :=
    getOAuthLogoutUrl plain_URL
      (constructor (Config.mk baseUrl "test-client-id"
                      "http://localhost:3000/oauth/callback" "http://localhost:3000/a b"
                      None None None)) in
  logout "http://localhost:8080"
  = inl "http://localhost:8080/frontegg/oauth/logout?post_logout_redirect_uri=http%3A%2F%2Flocalhost%3A3000%2Fa+b"
  /\ logout "https://auth0.example.com"
     = inl "https://auth0.example.com/frontegg/oauth/logout?post_logout_redirect_uri=http%3A%2F%2Flocalhost%3A3000%2Fa+b"
  /\ logout "https://app-x4gr8g28fxr5.frontegg.com"
     = inl "https://app-x4gr8g28fxr5.frontegg.com/frontegg/oauth/logout?post_logout_redirect_uri=http%3A%2F%2Flocalhost%3A3000%2Fa+b"
  /\ logout "http://127.0.0.1:3000/auth/v1.2"
     = inl "http://127.0.0.1:3000/auth/v1.2/frontegg/oauth/logout?post_logout_redirect_uri=http%3A%2F%2Flocalhost%3A3000%2Fa+b".
Proof. vm_compute. repeat split. Qed.

(** * Theorems *)

(** ** Token expiration and the constructor *)

(** C4, as the specification states it, fails one hour before the
    recorded expiration time: with the expiration time 3600001 and the
    clock at 1 the rule [now >= expirationTime - 1 hour] holds, and
    [isTokenExpired] answers that the token is not expired. *)
Lemma isTokenExpired_boundary_counterexample :
  isTokenExpired 1 (Some 3600001) = false /\ (1 >=? 3600001 - 3600000) = true.
Proof. split; reflexivity. Qed.

(** C4, amended: a token is considered expired exactly when its recorded
    expiration time is 0 or the clock is strictly after the expiration
    time minus 3600000 milliseconds; with no recorded expiration time it
    is always considered expired; and at the instant [t - 3600000] itself
    a token with a recorded time [t] other than 0 is not expired yet. *)
Theorem isTokenExpired_spec (now t : Z) :
  (isTokenExpired now (Some t) = true <-> t = 0 \/ t - 3600000 < now)
  /\ isTokenExpired now None = true
  /\ isTokenExpired (t - 3600000) (Some t) = (t =? 0).
Proof.
  unfold isTokenExpired; simpl. repeat split.
  - destruct (Z.eqb_spec t 0); simpl; [auto|]. rewrite Z.ltb_lt. intros; right; lia.
  - destruct (Z.eqb_spec t 0); simpl; [auto|]. rewrite Z.ltb_lt. intros [?|?]; [done|lia].
  - destruct (Z.eqb_spec t 0); simpl; [done|]. apply Z.ltb_irrefl.
Qed.

(** C10: the constructor takes the initial access token from
    [config.userData.accessToken]; a [tokenExpirationTime] of 0 and an
    empty [refreshToken] leave the fields [null]; and an instance restored
    with [tokenExpirationTime] 0 has an expired token at every time. *)
Theorem constructor_restores_session (config : Config.t) :
  (forall ud, Config.userData config = Some ud ->
     accessToken (constructor config) = Some (UserData.accessToken ud)
     /\ userData (constructor config) = Some ud)
  /\ (Config.userData config = None -> accessToken (constructor config) = None)
  /\ (Config.tokenExpirationTime config = Some 0 ->
        tokenExpirationTime (constructor config) = None
        /\ forall now, isTokenExpired now (tokenExpirationTime (constructor config)) = true)
  /\ (Config.refreshToken config = Some EmptyString ->
        refreshToken (constructor config) = None).
Proof.
  destruct config as [b c r l ud rt t]; unfold constructor; simpl.
  split; [|split; [|split]].
  - intros ud' ->. destruct (truthy_string rt), (truthy_number t); split; reflexivity.
  - intros ->. destruct (truthy_string rt), (truthy_number t); reflexivity.
  - intros ->. simpl. destruct ud, (truthy_string rt); split; reflexivity.
  - intros ->. simpl. destruct ud, (truthy_number t); reflexivity.
Qed.

(** The session of the tests restored with an expiration time of 0. *)
Example constructor_restored_expired :
  let c := constructor
             (Config.mk "http://frontegg-test-instance.local" "test-client-id"
                "http://localhost:3000/oauth/callback" "http://localhost:3000"
                (Some USER_DATA) (Some EmptyString) (Some 0)) in
  tokens c = (Some "test-access-token", None, None)
  /\ isTokenExpired 1700000000000 (tokenExpirationTime c) = true.
Proof. split; reflexivity. Qed.

(** ** [getAccessToken] and the cached profile *)

(** C3, as the specification states it, fails: an instance that holds
    the access token ["stale"], no refresh token and no expiration time
    (so the token counts as expired) resolves its access token to
    ["stale"] at once, without any request. *)
Lemma getAccessToken_expired_no_refresh_counterexample :
  let c := set_accessToken (Some "stale") (constructor clientConfig) in
  let w := mkWorld c ∅ 1700000000000 no_draws in
  isTokenExpired (clock w) (tokenExpirationTime (this w)) = true
  /\ refreshToken (this w) = None
  /\ run_sync w (getAccessToken false) = (w, Return "stale")
  /\ run_alone w (getAccessToken false)
       [(1700000000001, Responded (HttpResponse_json FRONTEGG_RESPONSE))]
     = (w, Return "stale").
Proof. repeat split; reflexivity. Qed.

(** C3, amended: in the state EXPIRED_NO_REFRESH (a cached access token,
    considered expired, and no refresh token) [getAccessToken] returns the
    cached token at once: it makes no request and changes nothing. *)
Theorem getAccessToken_expired_no_refresh (w : World) (forceRefresh : bool)
    (cached : string) :
  accessToken (this w) = Some cached ->
  truthy_string (accessToken (this w)) = true ->
  truthy_string (refreshToken (this w)) = false ->
  isTokenExpired (clock w) (tokenExpirationTime (this w)) = true ->
  run_sync w (getAccessToken forceRefresh) = (w, Return cached).
Proof.
  intros Hcached Htruthy Hrefresh _. simpl.
  rewrite Hcached in Htruthy |- *.
  destruct cached as [|c cached]; [done|].
  destruct (refreshToken (this w)) as [[|r refresh]|]; done.
Qed.

Lemma getAccessToken_expired_no_refresh_witness :
  let c := set_accessToken (Some "stale") (constructor clientConfig) in
  let w := mkWorld c ∅ 1700000000000 no_draws in
  run_sync w (getAccessToken true) = (w, Return "stale").
Proof.
  intros c w.
  apply (getAccessToken_expired_no_refresh w true "stale"); reflexivity.
Defined.

Lemma getUserData_cache_hit (s : System) (cached : FronteggUserData) :
  userData (this (world s)) = Some cached ->
  isTokenExpired (clock (world s)) (tokenExpirationTime (this (world s))) = false ->
  getUserData false s = (s, Resolved cached).
Proof.
  intros Hcached Hfresh. unfold getUserData.
  rewrite Hcached, Hfresh. reflexivity.
Qed.

(** C5: when a profile is cached, the token is not expired and
    [forceRefresh] is false, [getUserData] returns the cached profile and
    leaves the instance, its pending promises and its environment as they
    were: no request is made. *)
Theorem getUserData_cached (s : System) (cached : FronteggUserData) :
  userData (this (world s)) = Some cached ->
  isTokenExpired (clock (world s)) (tokenExpirationTime (this (world s))) = false ->
  getUserData false s = (s, Resolved cached)
  /\ world (fst (getUserData false s)) = world s
  /\ pending (fst (getUserData false s)) = pending s
  /\ exchanges (fst (getUserData false s)) = exchanges s.
Proof.
  intros Hcached Hfresh. rewrite (getUserData_cache_hit s cached Hcached Hfresh).
  repeat split.
Qed.

Lemma getUserData_cached_witness :
  let c := constructor
             (Config.mk "http://frontegg-test-instance.local" "test-client-id"
                "http://localhost:3000/oauth/callback" "http://localhost:3000"
                (Some USER_DATA) (Some "test-refresh-token") (Some 1700003600000)) in
  let s := mkSystem (mkWorld c ∅ 1700000000000 no_draws) ∅ ∅ O in
  getUserData false s = (s, Resolved USER_DATA).
Proof.
  intros c s. apply (getUserData_cached s USER_DATA); reflexivity.
Defined.

(** ** The public token exchanges *)

#[local] Opaque random_text.

Lemma ok_of_status_200 (r : Response.t) : Response.status r = 200 -> Response.ok r = true.
Proof. unfold Response.ok. intros ->. reflexivity. Qed.

(** Run on its own, [getCodeVerifier] only touches [localStorage] and the
    random draws; the verifier it returns is the one the store holds
    afterwards, and the one it held before when that was not empty. *)
Lemma run_alone_code_verifier {A} (w : World) (k : string -> Async A)
    (answers : list (Z * FetchOutcome)) :
  exists w' verifier,
    this w' = this w /\ clock w' = clock w
    /\ localStorage w' !! "LOGIN_VERIFIER_KEY" = Some verifier
    /\ (forall c v, localStorage w !! "LOGIN_VERIFIER_KEY" = Some (String c v) ->
                    verifier = String c v /\ w' = w)
    /\ run_alone w (bind getCodeVerifier k) answers = run_alone w' (k verifier) answers.
Proof.
  simpl. destruct (localStorage w !! "LOGIN_VERIFIER_KEY") as [[|c v]|] eqn:E; simpl.
  - destruct (random_text 16 (random w)) as [text draws] eqn:R. simpl.
    exists (with_localStorage (insert "LOGIN_VERIFIER_KEY" text)
              (mkWorld (this w) (localStorage w) (clock w) draws)), text.
    repeat (split; [reflexivity|]).
    split; [apply lookup_insert_eq|]. split; [done|reflexivity].
  - exists w, (String c v). repeat (split; [done|]).
    split; [|done]. by intros ? ? [= -> ->].
  - destruct (random_text 16 (random w)) as [text draws] eqn:R. simpl.
    exists (with_localStorage (insert "LOGIN_VERIFIER_KEY" text)
              (mkWorld (this w) (localStorage w) (clock w) draws)), text.
    repeat (split; [reflexivity|]).
    split; [apply lookup_insert_eq|]. split; [done|reflexivity].
Qed.

Lemma fetchAccessTokenByOAuthCode_tail (w : World) (oauthCode : string)
    (answers : list (Z * FetchOutcome)) :
  exists w' options,
    this w' = this w /\ clock w' = clock w
    /\ run_alone w (fetchAccessTokenByOAuthCode oauthCode) answers
       = run_alone w'
           (exchange_tail (baseUrl (this w) +:+ "/frontegg/oauth/token") options)
           answers.
Proof.
  unfold fetchAccessTokenByOAuthCode. cbn [run_alone].
  destruct (run_alone_code_verifier w
    (fun code_verifier =>
       exchange_tail (baseUrl (this w) +:+ "/frontegg/oauth/token")
         (RequestInit.mk (Some "POST") None None json_headers
            (Some (JSON_stringify (JObject
               [("code", JString oauthCode);
                ("redirect_uri", JString (redirectUri (this w)));
                ("code_verifier", JString code_verifier);
                ("grant_type", JString "authorization_code")])))))
    answers) as (w' & verifier & Hthis & Hclock & _ & _ & Hrun).
  unfold exchange_tail in Hrun |- *. rewrite Hrun.
  exists w'. eexists. split; [exact Hthis|]. split; [exact Hclock|].
  reflexivity.
Qed.

Lemma run_alone_exchange_ok (w : World) (url : string) (options : RequestInit.t)
    (now : Z) (r : Response.t) (json : JSON) (data : GetFronteggTokenResponse) :
  Response.status r = 200 ->
  Response.json false r = inl json ->
  GET_FRONTEGG_TOKEN_RESPONSE_SCHEMA json = inl data ->
  exchanged now data (run_alone w (exchange_tail url options) [(now, Responded r)]).
Proof.
  intros Hstatus Hjson Hdata. unfold exchange_tail. simpl.
  rewrite (ok_of_status_200 r Hstatus). simpl. rewrite Hjson. simpl.
  rewrite Hdata. simpl. split; reflexivity.
Qed.

Lemma run_alone_exchange_401 (w : World) (url : string) (options : RequestInit.t)
    (now : Z) (headers : gmap string string) :
  run_alone w (exchange_tail url options)
    [(now, Responded (Response.mk 401 headers NoBody))]
  = (with_clock now w,
     Throw (FronteggError
       (FronteggError.mk "Error while fetching Frontegg endpoint." 401 url
          (default "undefined" (headers !! "frontegg-trace-id"))
          (BodyValue (JString "Error while fetching Frontegg endpoint."))))).
Proof. reflexivity. Qed.

(** C6: answered with status 200 and a payload that the token schema
    accepts, [fetchAccessTokenByOAuthCode] and
    [fetchAccessTokenByOAuthRefreshToken] return the payload's
    [access_token] and store the access token, the refresh token and the
    expiration time computed from the clock; answered with an empty 401
    response, each throws the [FronteggError] of status 401 whose text is
    the default message, and leaves the instance as it was. *)
Theorem token_exchanges_contract (w : World) (oauthCode refreshToken : string) (now : Z)
    (r : Response.t) (json : JSON) (data : GetFronteggTokenResponse) :
  Response.status r = 200 ->
  Response.json false r = inl json ->
  GET_FRONTEGG_TOKEN_RESPONSE_SCHEMA json = inl data ->
  let by_code answer :=
    run_alone w (fetchAccessTokenByOAuthCode oauthCode) [(now, answer)] in
  let by_refresh_token answer :=
    run_alone w (fetchAccessTokenByOAuthRefreshToken refreshToken) [(now, answer)] in
  let unauthorized headers :=
    FronteggError
      (FronteggError.mk "Error while fetching Frontegg endpoint." 401
         (baseUrl (this w) +:+ "/frontegg/oauth/token")
         (default "undefined" (headers !! "frontegg-trace-id"))
         (BodyValue (JString "Error while fetching Frontegg endpoint."))) in
  exchanged now data (by_code (Responded r))
  /\ exchanged now data (by_refresh_token (Responded r))
  /\ forall headers,
       let empty_401 := Responded (Response.mk 401 headers NoBody) in
       snd (by_code empty_401) = Throw (unauthorized headers)
       /\ this (fst (by_code empty_401)) = this w
       /\ snd (by_refresh_token empty_401) = Throw (unauthorized headers)
       /\ this (fst (by_refresh_token empty_401)) = this w.
Proof.
  intros Hstatus Hjson Hdata by_code by_refresh_token unauthorized.
  subst by_code by_refresh_token unauthorized.
  split; [|split].
  - destruct (fetchAccessTokenByOAuthCode_tail w oauthCode [(now, Responded r)])
      as (w' & options & Hthis & Hclock & ->).
    apply (run_alone_exchange_ok _ _ _ now r json data); assumption.
  - change (fetchAccessTokenByOAuthRefreshToken refreshToken)
      with (Read (fun w => exchange_tail (baseUrl (this w) +:+ "/frontegg/oauth/token")
              (RequestInit.mk (Some "POST") None None json_headers
                 (Some (JSON_stringify (JObject
                    [("refresh_token", JString refreshToken);
                     ("grant_type", JString "refresh_token")])))))).
    cbn [run_alone]. apply (run_alone_exchange_ok _ _ _ now r json data); assumption.
  - intros headers empty_401. subst empty_401.
    destruct (fetchAccessTokenByOAuthCode_tail w oauthCode
                [(now, Responded (Response.mk 401 headers NoBody))])
      as (w' & options & Hthis & Hclock & ->).
    rewrite run_alone_exchange_401. simpl. auto.
Qed.

Lemma token_exchanges_contract_witness :
  let w := mkWorld (constructor clientConfig) ∅ 1700000000000 no_draws in
  let result :=
    run_alone w (fetchAccessTokenByOAuthCode "test-oauth-code")
      [(1700000000500, Responded (HttpResponse_json FRONTEGG_RESPONSE))] in
  snd result = Return "test-access-token"
  /\ tokens (this (fst result))
     = (Some "test-access-token", Some "test-refresh-token", Some 1700003600500).
Proof.
  intros w result.
  exact (proj1 (token_exchanges_contract w "test-oauth-code" "test-refresh-token"
                  1700000000500 (HttpResponse_json FRONTEGG_RESPONSE) FRONTEGG_RESPONSE
                  (TokenResponse.mk "Bearer" "test-access-token" "test-id-token"
                     "test-refresh-token" 3600)
                  eq_refl eq_refl eq_refl)).
Defined.

(** ** The silent-cookie exchange *)

Lemma redaction_notice_names_no_token :
  existsb (fun key => includes (JSON_stringify (JString redaction_notice)) key)
    token_field_names = false.
Proof. reflexivity. Qed.

Lemma existsb_false_iff {A} (f : A -> bool) (l : list A) :
  existsb f l = false <-> forall x, In x l -> f x = false.
Proof.
  induction l as [|a l IH]; simpl.
  - split; [intros _ x []|done].
  - rewrite orb_false_iff, IH. split.
    + intros [Ha Hl] x [<-|Hx]; auto.
    + intros H. split; [apply H; auto|]. intros x Hx. apply H; auto.
Qed.

(** C8: when the silent-cookie exchange receives a successful response
    whose JSON body the token schema rejects, it throws a [FronteggError]
    of status 500 whose body holds the schema's issues and, as response,
    the raw payload if and only if the serialised payload contains none of
    the token field names; a payload that contains one of them is
    replaced by the redaction notice.  The instance is left as it was. *)
Theorem fetchAccessTokenByCookie_redacts (w : World) (now : Z) (r : Response.t)
    (json : JSON) (issues : list ZodIssue) :
  Response.ok r = true ->
  Response.json false r = inl json ->
  GET_FRONTEGG_TOKEN_RESPONSE_SCHEMA json = inr issues ->
  let result := run_alone w fetchAccessTokenByCookie [(now, Responded r)] in
  exists shown,
    snd result
    = Throw (FronteggError
        (FronteggError.mk "Error while parsing Frontegg response." 500
           (baseUrl (this w) +:+ "/frontegg/oauth/authorize/silent")
           (default "undefined" (Response.headers r !! "frontegg-trace-id"))
           (BodyParseFailure shown issues)))
    /\ (shown = json <->
        forall key, In key token_field_names ->
                    includes (JSON_stringify json) key = false)
    /\ ((exists key, In key token_field_names
                     /\ includes (JSON_stringify json) key = true) ->
        shown = JString redaction_notice /\ shown <> json)
    /\ this (fst result) = this w.
Proof.
  intros Hok Hjson Hschema result. subst result.
  unfold fetchAccessTokenByCookie. simpl.
  rewrite Hok. simpl. rewrite Hjson. simpl. rewrite Hschema. simpl.
  set (leaks := includes (JSON_stringify json) "access_token"
                || (includes (JSON_stringify json) "id_token"
                    || (includes (JSON_stringify json) "refresh_token" || false))).
  assert (Hleaks : leaks = existsb (fun key => includes (JSON_stringify json) key)
                             token_field_names) by reflexivity.
  assert (Hnotice : leaks = true -> JString redaction_notice <> json).
  { intros Htrue <-. rewrite Hleaks, redaction_notice_names_no_token in Htrue. done. }
  assert (Hall : leaks = false <->
                 forall key, In key token_field_names ->
                             includes (JSON_stringify json) key = false).
  { rewrite Hleaks. apply existsb_false_iff. }
  eexists. split; [reflexivity|].
  destruct leaks; simpl.
  - split; [|split; [|reflexivity]].
    + split.
      * intros <-. exfalso. by apply Hnotice.
      * intros H. apply Hall in H. done.
    + intros _. split; [reflexivity|]. by apply Hnotice.
  - split; [|split; [|reflexivity]].
    + split; [intros _; by apply Hall|done].
    + intros (key & Hin & Hkey). exfalso.
      rewrite (proj1 Hall eq_refl key Hin) in Hkey. done.
Qed.

Lemma fetchAccessTokenByCookie_redacts_witness :
  let w := mkWorld (constructor clientConfig) ∅ 1700000000000 no_draws in
  let payload := JObject [("access_token", JString "secret"); ("expires_in", JNull)] in
  exists shown,
    snd (run_alone w fetchAccessTokenByCookie
           [(1700000000500, Responded (HttpResponse_json payload))])
    = Throw (FronteggError
        (FronteggError.mk "Error while parsing Frontegg response." 500
           "http://frontegg-test-instance.local/frontegg/oauth/authorize/silent"
           "undefined"
           (BodyParseFailure shown
              [invalid_type ["token_type"] "string" None;
               invalid_type ["id_token"] "string" None;
               invalid_type ["refresh_token"] "string" None;
               invalid_type ["expires_in"] "number" (Some JNull)])))
    /\ shown = JString redaction_notice.
Proof.
  intros w payload.
  destruct (fetchAccessTokenByCookie_redacts w 1700000000500
              (HttpResponse_json payload) payload
              [invalid_type ["token_type"] "string" None;
               invalid_type ["id_token"] "string" None;
               invalid_type ["refresh_token"] "string" None;
               invalid_type ["expires_in"] "number" (Some JNull)]
              eq_refl eq_refl eq_refl) as (shown & Hthrown & _ & Hredacted & _).
  exists shown. split; [exact Hthrown|].
  apply Hredacted. exists "access_token". split; [left; reflexivity|reflexivity].
Defined.

(** ** URLs *)

Lemma append_cons (x : ascii) (a b : string) : String x a +:+ b = String x (a +:+ b).
Proof. reflexivity. Qed.

Lemma append_nil_l (a : string) : EmptyString +:+ a = a.
Proof. reflexivity. Qed.

Lemma append_assoc (a b c : string) : (a +:+ b) +:+ c = a +:+ b +:+ c.
Proof.
  induction a as [|x a IH]; [done|]. by rewrite !append_cons, IH.
Qed.

Lemma append_nil_r (a : string) : a +:+ EmptyString = a.
Proof.
  induction a as [|x a IH]; [done|]. by rewrite append_cons, IH.
Qed.

Lemma string_forallb_app (f : ascii -> bool) (a b : string) :
  string_forallb f (a +:+ b) = string_forallb f a && string_forallb f b.
Proof.
  induction a as [|x a IH]; [done|].
  rewrite append_cons. simpl. rewrite IH. by rewrite andb_assoc.
Qed.

Lemma split_at_absent (c : ascii) (s : string) :
  string_forallb (differs c) s = true -> split_at c s = (s, None).
Proof.
  induction s as [|x s IH]; simpl; [done|].
  unfold differs at 1. intros [Hx Hs]%andb_true_iff.
  apply negb_true_iff in Hx. rewrite Hx, (IH Hs). done.
Qed.

(** C7, as the specification states it, fails on the configuration of the
    repository's test: the logout URL has the path [/frontegg/oauth/logout],
    not [/oauth/logout].  With that path, the literal form still fails for
    a base URL that the parser does not take over as written: the query of
    the base URL [http://h/?x=1] swallows the path. *)
Lemma getOAuthLogoutUrl_path_counterexample :
  let client := constructor clientConfig in
  let queried :=
    constructor
      (Config.mk "http://h/?x=1" "test-client-id"
         "http://localhost:3000/oauth/callback" "http://localhost:3000"
         None None None) in
  plain_URL (baseUrl client +:+ "/frontegg/oauth/logout")
  = inl (URL.mk "http://frontegg-test-instance.local/frontegg/oauth/logout"
           None [] None)
  /\ getOAuthLogoutUrl plain_URL client
     = inl ("http://frontegg-test-instance.local/frontegg/oauth/logout"
            +:+ "?post_logout_redirect_uri=http%3A%2F%2Flocalhost%3A3000")
  /\ FormUrlEncoded.serialize_bytes (logoutRedirectUri client)
     = "http%3A%2F%2Flocalhost%3A3000"
  /\ getOAuthLogoutUrl plain_URL client
     <> inl (baseUrl client +:+ "/oauth/logout?post_logout_redirect_uri="
             +:+ FormUrlEncoded.serialize_bytes (logoutRedirectUri client))
  /\ plain_URL (baseUrl queried +:+ "/frontegg/oauth/logout")
     = inl (URL.mk "http://h/" (Some "x=1/frontegg/oauth/logout")
              [("x", "1/frontegg/oauth/logout")] None)
  /\ getOAuthLogoutUrl plain_URL queried
     = inl ("http://h/?x=1%2Ffrontegg%2Foauth%2Flogout"
            +:+ "&post_logout_redirect_uri=http%3A%2F%2Flocalhost%3A3000")
  /\ getOAuthLogoutUrl plain_URL queried
     <> inl (baseUrl queried +:+ "/frontegg/oauth/logout?post_logout_redirect_uri="
             +:+ FormUrlEncoded.serialize_bytes (logoutRedirectUri queried)).
Proof.
  split; [reflexivity|]. split; [reflexivity|]. split; [reflexivity|].
  split; [vm_compute; congruence|].
  split; [reflexivity|]. split; [reflexivity|].
  vm_compute. congruence.
Qed.

(** C7, amended: [getOAuthLogoutUrl] is a function of two fields of the
    instance, [baseUrl] and [logoutRedirectUri] (it makes no request and
    writes nothing), and whenever [new URL] takes
    [{baseUrl}/frontegg/oauth/logout] over as written (the URL object has
    this text as its [href] up to the query, no query and no fragment) it
    returns exactly
    [{baseUrl}/frontegg/oauth/logout?post_logout_redirect_uri=] followed by
    the URL-encoded logout redirect.  This holds for every URL parser:
    with the parser of the platform it covers base URLs such as
    [http://localhost:8080] and [https://auth0.example.com]. *)
Theorem getOAuthLogoutUrl_spec (new_URL : string -> URL.t + Exn)
    (client : FronteggOAuthClient) :
  new_URL (baseUrl client +:+ "/frontegg/oauth/logout")
  = inl (URL.mk (baseUrl client +:+ "/frontegg/oauth/logout") None [] None) ->
  getOAuthLogoutUrl new_URL client
  = inl (baseUrl client +:+ "/frontegg/oauth/logout?post_logout_redirect_uri="
         +:+ FormUrlEncoded.serialize_bytes (logoutRedirectUri client))
  /\ forall other,
       baseUrl other = baseUrl client ->
       logoutRedirectUri other = logoutRedirectUri client ->
       getOAuthLogoutUrl new_URL other = getOAuthLogoutUrl new_URL client.
Proof.
  intros Hwritten. split.
  - unfold getOAuthLogoutUrl. rewrite Hwritten.
    unfold URL.toString, URL.set. cbn [searchParams_set URL.searchParams URL.query
      URL.fragment URL.origin_and_path FormUrlEncoded.serialize].
    rewrite !append_nil_r, !append_assoc. reflexivity.
  - intros other Hbase Hredirect. unfold getOAuthLogoutUrl.
    rewrite Hbase, Hredirect. reflexivity.
Qed.

Lemma getOAuthLogoutUrl_spec_witness :
  getOAuthLogoutUrl plain_URL
    (constructor
       (Config.mk "http://localhost:8080" "test-client-id"
          "http://localhost:3000/oauth/callback" "http://localhost:3000"
          None None None))
  = inl ("http://localhost:8080"
         +:+ "/frontegg/oauth/logout?post_logout_redirect_uri="
         +:+ FormUrlEncoded.serialize_bytes "http://localhost:3000").
Proof.
  exact (proj1 (getOAuthLogoutUrl_spec plain_URL
                  (constructor
                     (Config.mk "http://localhost:8080" "test-client-id"
                        "http://localhost:3000/oauth/callback" "http://localhost:3000"
                        None None None))
                  eq_refl)).
Defined.

(** ** The login URL *)

Lemma replace_all_app (c : ascii) (by_ a b : string) :
  replace_all c by_ (a +:+ b) = replace_all c by_ a +:+ replace_all c by_ b.
Proof.
  induction a as [|x a IH]; [done|].
  rewrite append_cons. simpl. by rewrite IH, append_assoc.
Qed.

Lemma url_safe_app (a b : string) : url_safe (a +:+ b) = url_safe a +:+ url_safe b.
Proof. unfold url_safe. by rewrite !replace_all_app. Qed.

Lemma url_safe_digit (n : nat) : url_safe (base64_digit n) = base64url_digit n.
Proof.
  unfold base64_digit, base64url_digit, charAt.
  do 64 (destruct n as [|n]; [reflexivity|]). reflexivity.
Qed.

Lemma btoa_three (a b c : ascii) (rest : string) :
  btoa (String a (String b (String c rest)))
  = base64_digit (nat_of_ascii a / 4)
    +:+ base64_digit (nat_of_ascii a mod 4 * 16 + nat_of_ascii b / 16)
    +:+ base64_digit (nat_of_ascii b mod 16 * 4 + nat_of_ascii c / 64)
    +:+ base64_digit (nat_of_ascii c mod 64) +:+ btoa rest.
Proof. reflexivity. Qed.

(** [btoa] followed by the three replacements is the base64url encoding
    without padding. *)
Lemma url_safe_btoa (s : string) : url_safe (btoa s) = base64url s.
Proof.
  assert (H : url_safe (btoa s) = base64url s
              /\ (forall a, url_safe (btoa (String a s)) = base64url (String a s))
              /\ (forall a b, url_safe (btoa (String a (String b s)))
                              = base64url (String a (String b s)))).
  { induction s as [|c s (IH0 & IH1 & IH2)].
    - split; [reflexivity|]. split.
      + intros a. cbn [btoa base64url].
        rewrite !url_safe_app, !url_safe_digit. by rewrite append_nil_r.
      + intros a b. cbn [btoa base64url].
        rewrite !url_safe_app, !url_safe_digit. by rewrite append_nil_r.
    - split; [apply IH1|]. split; [intros a; apply IH2|].
      intros a b. rewrite btoa_three. cbn [base64url].
      rewrite !url_safe_app, !url_safe_digit, IH0. reflexivity. }
  apply H.
Qed.

Lemma hashedVerifier_base64url (SHA256 : string -> string) (codeVerifier : string) :
  hashedVerifier SHA256 codeVerifier = base64url (SHA256 codeVerifier).
Proof. apply url_safe_btoa. Qed.

(** C9, as the specification states it, fails for a base URL that carries
    a query of its own: the login URL built from the base URL
    [http://h/?foo=bar] has the parameter [foo] besides the seven, whatever
    the digest is. *)
Lemma getOAuthLoginUrl_counterexample :
  let config :=
    Config.mk "http://h/?foo=bar" "test-client-id"
      "http://localhost:3000/oauth/callback" "http://localhost:3000" None None None in
  let w := mkWorld (constructor config) {["LOGIN_VERIFIER_KEY" := "verifier"]}
             1700000000000 no_draws in
  plain_URL "http://h/?foo=bar/frontegg/oauth/authorize"
  = inl (URL.mk "http://h/" (Some "foo=bar/frontegg/oauth/authorize")
           [("foo", "bar/frontegg/oauth/authorize")] None)
  /\ forall SHA256,
       run_alone w (getOAuthLoginUrl SHA256 plain_URL) []
       = (mkWorld (this w) (localStorage w) (clock w) (fun i => no_draws (16 + i)%nat),
          Return
            (URL.mk "http://h/"
               (Some (FormUrlEncoded.serialize
                  (("foo", "bar/frontegg/oauth/authorize")
                   :: login_parameters (this w) (hashedVerifier SHA256 "verifier")
                        "AAAAAAAAAAAAAAAA")))
               (("foo", "bar/frontegg/oauth/authorize")
                :: login_parameters (this w) (hashedVerifier SHA256 "verifier")
                     "AAAAAAAAAAAAAAAA")
               None)).
Proof. split; [reflexivity|]. intros SHA256. reflexivity. Qed.

(** C9, amended: for every configuration whose base URL carries no query
    parameter of its own (the URL that [new URL] makes of
    [{baseUrl}/frontegg/oauth/authorize] has an empty parameter list), the
    URL returned by [getOAuthLoginUrl] carries exactly the seven query
    parameters [client_id], [redirect_uri], [response_type=code],
    [scope=openid profile email], [code_challenge],
    [code_challenge_method=S256] and [nonce], in this order, where
    [code_challenge] is the unpadded base64url encoding of the SHA-256
    digest of the verifier obtained from the store: the verifier the
    store held, and otherwise the one created and stored by the call.
    This holds for every URL parser and every digest function. *)
Theorem getOAuthLoginUrl_parameters (SHA256 : string -> string)
    (new_URL : string -> URL.t + Exn) (w : World) (address : URL.t) :
  new_URL (baseUrl (this w) +:+ "/frontegg/oauth/authorize") = inl address ->
  URL.searchParams address = [] ->
  exists w' url verifier nonce,
    run_alone w (getOAuthLoginUrl SHA256 new_URL) [] = (w', Return url)
    /\ this w' = this w
    /\ localStorage w' !! "LOGIN_VERIFIER_KEY" = Some verifier
    /\ (forall c v, localStorage w !! "LOGIN_VERIFIER_KEY" = Some (String c v) ->
                    verifier = String c v)
    /\ URL.origin_and_path url = URL.origin_and_path address
    /\ URL.searchParams url
       = login_parameters (this w) (base64url (SHA256 verifier)) nonce
    /\ URL.query url
       = Some (FormUrlEncoded.serialize
                 (login_parameters (this w) (base64url (SHA256 verifier)) nonce)).
Proof.
  intros Hnew Hparams.
  destruct address as [origin_and_path query params fragment].
  simpl in Hparams. subst params.
  assert (Hcreated : forall (draws : nat -> nat),
    exists w' url verifier nonce,
      run_alone
        (mkWorld (this w) (localStorage w) (clock w) draws)
        (let* verifier := createRandomString 16 in
         let* codeVerifier :=
           Update (with_localStorage (insert "LOGIN_VERIFIER_KEY" verifier))
             (Pause (Timeout 200) (Return verifier)) in
         let hashedVerifier := hashedVerifier SHA256 codeVerifier in
         let* nonce := createRandomString 16 in
         Read (fun w =>
           match new_URL (baseUrl (this w) +:+ "/frontegg/oauth/authorize") with
           | inl loginUrl =>
               let loginUrl := URL.set "client_id" (clientId (this w)) loginUrl in
               let loginUrl := URL.set "redirect_uri" (redirectUri (this w)) loginUrl in
               let loginUrl := URL.set "response_type" "code" loginUrl in
               let loginUrl := URL.set "scope" "openid profile email" loginUrl in
               let loginUrl := URL.set "code_challenge" hashedVerifier loginUrl in
               let loginUrl := URL.set "code_challenge_method" "S256" loginUrl in
               let loginUrl := URL.set "nonce" nonce loginUrl in
               Return loginUrl
           | inr error => Throw error
           end)) [] = (w', Return url)
      /\ this w' = this w
      /\ localStorage w' !! "LOGIN_VERIFIER_KEY" = Some verifier
      /\ URL.origin_and_path url = origin_and_path
      /\ URL.searchParams url
         = login_parameters (this w) (base64url (SHA256 verifier)) nonce
      /\ URL.query url
         = Some (FormUrlEncoded.serialize
                   (login_parameters (this w) (base64url (SHA256 verifier)) nonce))).
  { intros draws. simpl.
    destruct (random_text 16 draws) as [verifier draws1] eqn:Hverifier. simpl.
    destruct (random_text 16 draws1) as [nonce draws2] eqn:Hnonce. simpl.
    rewrite Hnew, hashedVerifier_base64url.
    eexists _, _, verifier, nonce. split; [reflexivity|].
    split; [reflexivity|]. split; [apply lookup_insert_eq|].
    repeat split. }
  unfold getOAuthLoginUrl, getCodeVerifier. cbn [bind run_alone].
  destruct (localStorage w !! "LOGIN_VERIFIER_KEY") as [[|c v]|] eqn:Hstore.
  - destruct (Hcreated (random w))
      as (w' & url & verifier & nonce & H1 & H2 & H3 & H4 & H5 & H6).
    exists w', url, verifier, nonce. destruct w; simpl in *.
    repeat (split; [assumption || congruence|]). assumption.
  - simpl. destruct (random_text 16 (random w)) as [nonce draws] eqn:Hnonce. simpl.
    rewrite Hnew, hashedVerifier_base64url.
    eexists _, _, (String c v), nonce. split; [reflexivity|].
    split; [reflexivity|]. split; [exact Hstore|].
    split; [by intros ? ? [= -> ->]|]. repeat split.
  - destruct (Hcreated (random w))
      as (w' & url & verifier & nonce & H1 & H2 & H3 & H4 & H5 & H6).
    exists w', url, verifier, nonce. destruct w; simpl in *.
    repeat (split; [assumption || congruence|]). assumption.
Qed.

Lemma getOAuthLoginUrl_parameters_witness :
  let config :=
    Config.mk "http://localhost:8080" "test-client-id"
      "http://localhost:3000/oauth/callback" "http://localhost:3000" None None None in
  let w := mkWorld (constructor config) {["LOGIN_VERIFIER_KEY" := "verifier"]}
             1700000000000 no_draws in
  exists w' url verifier nonce,
    run_alone w (getOAuthLoginUrl (fun _ => "digest") plain_URL) [] = (w', Return url)
    /\ this w' = this w
    /\ localStorage w' !! "LOGIN_VERIFIER_KEY" = Some verifier
    /\ (forall c v, localStorage w !! "LOGIN_VERIFIER_KEY" = Some (String c v) ->
                    verifier = String c v)
    /\ URL.origin_and_path url = "http://localhost:8080/frontegg/oauth/authorize"
    /\ URL.searchParams url = login_parameters (this w) (base64url "digest") nonce
    /\ URL.query url
       = Some (FormUrlEncoded.serialize
                 (login_parameters (this w) (base64url "digest") nonce)).
Proof.
  intros config w.
  exact (getOAuthLoginUrl_parameters (fun _ => "digest") plain_URL w
           (URL.mk "http://localhost:8080/frontegg/oauth/authorize" None [] None)
           eq_refl eq_refl).
Defined.

(** ** Discipline of suspended functions *)

Section DisciplineFacts.

Context {A : Type}.
Variables step final : World -> World -> Prop.
Variable allowed : Request.t -> Prop.

(** What [obeys] promises about the first run of a function. *)
Lemma obeys_run_sync (m : Async A) (w0 w : World) :
  obeys step final allowed w0 m w ->
  (finished (snd (run_sync w m)) = true -> final w0 (fst (run_sync w m)))
  /\ (finished (snd (run_sync w m)) = false ->
      step w0 (fst (run_sync w m))
      /\ resumable step final allowed (snd (run_sync w m))).
Proof.
  revert w. induction m as [a|e|k IH|f k IH|request k IH|d k IH]; intros w; simpl.
  - intros H. split; [auto|discriminate].
  - intros H. split; [auto|discriminate].
  - apply IH.
  - apply IH.
  - intros (Hstep & Hallowed & Hk). split; [discriminate|]. auto.
  - intros (Hstep & Hk). split; [discriminate|]. auto.
Qed.

(** What [resumable] promises about a resumption. *)
Lemma resumable_resume (task task' : Async A) (wake : Wake) (w w' : World) :
  resumable step final allowed task ->
  resume w task wake = Some (w', task') ->
  (finished task' = true -> final w w')
  /\ (finished task' = false -> step w w' /\ resumable step final allowed task').
Proof.
  intros Htask Hresume.
  destruct task as [a|e|k|f k|request k|d k], wake as [o|];
    simpl in Htask, Hresume; try done.
  - destruct Htask as [_ Hk]. injection Hresume as Hrun.
    pose proof (obeys_run_sync (k o) w w (Hk o w)) as H.
    rewrite Hrun in H. exact H.
  - injection Hresume as Hrun.
    pose proof (obeys_run_sync k w w (Htask w)) as H.
    rewrite Hrun in H. exact H.
Qed.

End DisciplineFacts.

(** Case analysis on whatever the next step of a function depends on. *)
Ltac next_case :=
  match goal with
  | |- context [match ?x with _ => _ end] => destruct x eqn:?
  end.

Ltac discipline :=
  repeat first
    [ progress (cbn -[String.append JSON_stringify GET_FRONTEGG_TOKEN_RESPONSE_SCHEMA
                      GET_FRONTEGG_USER_DATA_RESPONSE_SCHEMA insert lookup])
    | progress intros
    | progress unfold settled
    | reflexivity
    | exact I
    | match goal with
      | |- _ /\ _ => split
      | |- token_request _ => eexists; reflexivity
      end
    | next_case ].

Lemma fetchAccessTokenByOAuthRefreshToken_obeys (refreshToken : string) (w : World) :
  obeys same_guard same_guard token_request w
    (fetchAccessTokenByOAuthRefreshToken refreshToken) w.
Proof.
  unfold fetchAccessTokenByOAuthRefreshToken, fetchWithAssert, same_guard.
  discipline.
Qed.

Lemma fetchAccessTokenByOAuthCode_obeys (oauthCode : string) (w : World) :
  obeys same_guard same_guard token_request w
    (fetchAccessTokenByOAuthCode oauthCode) w.
Proof.
  unfold fetchAccessTokenByOAuthCode, getCodeVerifier, createRandomString,
    fetchWithAssert, same_guard.
  discipline.
Qed.

Lemma userDataChain_obeys (forceRefresh : bool) (w : World) :
  obeys same_guard guard_cleared any_request w (userDataChain forceRefresh) w.
Proof.
  unfold userDataChain, catch_, then_, getAccessToken, fetchUserData,
    fetchAccessTokenByCookie, fetchAccessTokenByOAuthRefreshToken, fetchWithAssert,
    same_guard, guard_cleared, any_request.
  discipline.
Qed.

(** ** The guard and the pending promises *)

Lemma constructor_guard (config : Config.t) :
  userDataPromise (constructor config) = None.
Proof.
  unfold constructor.
  destruct (Config.userData config), (truthy_string (Config.refreshToken config)),
    (truthy_number (Config.tokenExpirationTime config)); reflexivity.
Qed.

Lemma consistent_start (config : Config.t) (storage : gmap string string) (now : Z)
    (draws : nat -> nat) :
  consistent (start config storage now draws).
Proof.
  split.
  - simpl. rewrite constructor_guard. reflexivity.
  - intros p task H. simpl in H. by rewrite lookup_empty in H.
Qed.

(** The chain of [getUserData] is suspended after its first run: a
    request or a promise reaction comes before any of its handlers. *)
Lemma userDataChain_suspends (forceRefresh : bool) (w : World) :
  finished (snd (run_sync w (userDataChain forceRefresh))) = false.
Proof.
  unfold userDataChain, catch_, then_, getAccessToken, fetchAccessTokenByCookie,
    fetchAccessTokenByOAuthRefreshToken, fetchWithAssert.
  simpl. repeat (next_case; simpl); reflexivity.
Qed.

Lemma keep_exchange_ok (p0 : PromiseId) (task0 : Async string)
    (tasks : gmap PromiseId (Async string)) :
  (finished task0 = false -> exchange_ok task0) ->
  (forall p task, tasks !! p = Some task -> exchange_ok task) ->
  forall p task, keep p0 task0 tasks !! p = Some task -> exchange_ok task.
Proof.
  intros Hnew Hold p task. unfold keep.
  destruct (finished task0) eqn:Hfinished.
  - rewrite lookup_delete_Some. intros [_ H]. eauto.
  - rewrite lookup_insert_Some. intros [[_ <-]|[_ H]]; eauto.
Qed.

Lemma startExchange_consistent (call : Async string) (s : System) :
  (forall w, obeys same_guard same_guard token_request w call w) ->
  consistent s ->
  consistent (startExchange call s)
  /\ userDataPromise (this (world (startExchange call s)))
     = userDataPromise (this (world s))
  /\ pending (startExchange call s) = pending s
  /\ next (startExchange call s) = S (next s).
Proof.
  intros Hcall [Hguard Hexchanges]. unfold startExchange.
  pose proof (obeys_run_sync _ _ _ call (world s) (world s) (Hcall (world s)))
    as [Hfinal Hstep].
  destruct (run_sync (world s) call) as [w task] eqn:Hrun. simpl in *.
  assert (Hsame : same_guard (world s) w).
  { destruct (finished task); [by apply Hfinal|by apply Hstep]. }
  unfold same_guard in Hsame. split; [|by split].
  split; simpl.
  - rewrite Hsame. destruct (userDataPromise (this (world s))); [|exact Hguard].
    destruct Hguard as [Hbound Htask]. split; [lia|exact Htask].
  - apply keep_exchange_ok; [|exact Hexchanges]. intros H. by apply Hstep.
Qed.

(** Every event keeps the guard and the pending promises consistent, and
    moves the guard as [guard_transition] and [guard_origin] say. *)
Lemma step_consistent (s : System) (e : Event) :
  consistent s ->
  consistent (step s e) /\ guard_transition s (step s e) e /\ guard_origin s (step s e).
Proof.
  intros Hs.
  assert (Hidle : guard_transition s s e).
  { intros p Hp. left. split; [exact Hp|].
    destruct Hs as [Hguard _]. rewrite Hp in Hguard.
    destruct Hguard as (_ & task & -> & _). rewrite lookup_singleton_eq. eauto. }
  assert (Hsame_origin : guard_origin s s).
  { split; [lia|]. auto. }
  assert (Hquiet : forall s', consistent s' ->
            userDataPromise (this (world s')) = userDataPromise (this (world s)) ->
            pending s' = pending s ->
            (next s <= next s')%nat ->
            consistent s' /\ guard_transition s s' e /\ guard_origin s s').
  { intros s' Hs' Hguard Hpending Hnext. split; [exact Hs'|]. split.
    - intros p Hp. destruct (Hidle p Hp) as [[_ H]|(H & _)]; [|congruence].
      left. rewrite Hguard, Hpending. auto.
    - split; [exact Hnext|]. intros q Hq. left. congruence. }
  destruct e as [forceRefresh|oauthCode|refreshToken|p wake|now|storage draws]; simpl.
  - (* getUserData *)
    unfold getUserData.
    destruct (match userData (this (world s)) with
              | Some userData =>
                  if negb (isTokenExpired (clock (world s))
                             (tokenExpirationTime (this (world s))))
                     && negb forceRefresh
                  then Some userData else None
              | None => None
              end); [by split|].
    destruct (userDataPromise (this (world s))) as [promise|] eqn:Hguard; [by split|].
    unfold startUserDataPromise.
    pose proof (obeys_run_sync _ _ _ _ (world s) (world s)
                  (userDataChain_obeys forceRefresh (world s))) as [_ Hstep].
    pose proof (userDataChain_suspends forceRefresh (world s)) as Hsuspended.
    destruct (run_sync (world s) (userDataChain forceRefresh)) as [w chain] eqn:Hrun.
    simpl in *. destruct (Hstep Hsuspended) as [_ Hchain].
    destruct Hs as [Hpending Hexchanges]. rewrite Hguard in Hpending.
    split; [|split].
    + split; simpl; [|exact Hexchanges].
      split; [lia|]. exists chain. rewrite Hpending, insert_empty. by split.
    + intros p Hp; congruence.
    + split; simpl; [lia|]. intros q [= <-]. by right.
  - (* fetchAccessTokenByOAuthCode *)
    destruct (startExchange_consistent (fetchAccessTokenByOAuthCode oauthCode) s
                (fetchAccessTokenByOAuthCode_obeys oauthCode) Hs)
      as (H1 & H2 & H3 & H4).
    apply Hquiet; [done..|lia].
  - (* fetchAccessTokenByOAuthRefreshToken *)
    destruct (startExchange_consistent
                (fetchAccessTokenByOAuthRefreshToken refreshToken) s
                (fetchAccessTokenByOAuthRefreshToken_obeys refreshToken) Hs)
      as (H1 & H2 & H3 & H4).
    apply Hquiet; [done..|lia].
  - (* a resumption *)
    destruct Hs as [Hguard Hexchanges].
    destruct (pending s !! p) as [task|] eqn:Hp.
    + (* of the chain *)
      destruct (userDataPromise (this (world s))) as [p0|] eqn:Hslot;
        [|by rewrite Hguard, lookup_empty in Hp].
      destruct Hguard as (Hbound & task0 & Hpending & Hchain).
      rewrite Hpending in Hp. apply lookup_singleton_Some in Hp as [<- <-].
      destruct (resume (world s) task0 wake) as [[w task]|] eqn:Hresume.
      2:{ split; [|split; [exact Hidle|exact Hsame_origin]].
          split; [|exact Hexchanges]. rewrite Hslot. eauto. }
      destruct (resumable_resume _ _ _ _ _ _ _ _ Hchain Hresume) as [Hfinal Hstep].
      unfold keep. destruct (finished task) eqn:Hfinished.
      * specialize (Hfinal eq_refl). unfold guard_cleared in Hfinal.
        split; [|split].
        -- split; simpl; [|exact Hexchanges].
           rewrite Hfinal, Hpending. apply delete_singleton_eq.
        -- intros p Hp'. rewrite Hslot in Hp'. injection Hp' as <-.
           right. simpl. rewrite Hpending, delete_singleton_eq. eauto.
        -- split; simpl; [lia|]. intros q Hq. congruence.
      * destruct (Hstep eq_refl) as [Hsame Htask]. unfold same_guard in Hsame.
        split; [|split].
        -- split; simpl; [|exact Hexchanges].
           rewrite Hsame, Hslot, Hpending. split; [exact Hbound|]. exists task.
           split; [apply insert_singleton_eq|exact Htask].
        -- intros p Hp'. rewrite Hslot in Hp'. injection Hp' as <-.
           left. simpl. rewrite Hsame, Hslot. split; [reflexivity|].
           rewrite lookup_insert_eq. eauto.
        -- split; simpl; [lia|]. intros q Hq. left. congruence.
    + (* of a public exchange *)
      destruct (exchanges s !! p) as [task|] eqn:Hp';
        [|split; [by split|split; [exact Hidle|exact Hsame_origin]]].
      destruct (resume (world s) task wake) as [[w task']|] eqn:Hresume;
        [|split; [by split|split; [exact Hidle|exact Hsame_origin]]].
      destruct (resumable_resume _ _ _ _ _ _ _ _ (Hexchanges p task Hp') Hresume)
        as [Hfinal Hstep].
      assert (Hsame : same_guard (world s) w).
      { destruct (finished task'); [by apply Hfinal|by apply Hstep]. }
      unfold same_guard in Hsame.
      apply Hquiet; [|exact Hsame|reflexivity|simpl; lia].
      split; simpl.
      * rewrite Hsame. exact Hguard.
      * apply keep_exchange_ok; [|exact Hexchanges]. intros H. by apply Hstep.
  - (* time passes *)
    apply Hquiet; [|reflexivity|reflexivity|simpl; lia].
    destruct Hs as [Hguard Hexchanges]. split; [exact Hguard|exact Hexchanges].
  - (* the environment changes *)
    apply Hquiet; [|reflexivity|reflexivity|simpl; lia].
    destruct Hs as [Hguard Hexchanges]. split; [exact Hguard|exact Hexchanges].
Qed.

Lemma run_consistent (s : System) (events : list Event) :
  consistent s -> consistent (run s events).
Proof.
  revert s. induction events as [|e events IH]; intros s Hs; [exact Hs|].
  simpl. apply IH. by apply step_consistent.
Qed.

(** A promise created earlier that is not in the guard never enters it. *)
Lemma guard_never_again (s : System) (events : list Event) (p : PromiseId) :
  consistent s -> (p < next s)%nat ->
  userDataPromise (this (world s)) <> Some p ->
  userDataPromise (this (world (run s events))) <> Some p.
Proof.
  revert s. induction events as [|e events IH]; intros s Hs Hbound Hp; [exact Hp|].
  simpl. destruct (step_consistent s e Hs) as (Hs' & _ & Hnext & Horigin).
  apply IH; [exact Hs'|lia|].
  intros Hq. destruct (Horigin p Hq) as [?|?]; [done|lia].
Qed.

Lemma last_char_app (s : string) (c : ascii) (t : string) :
  last_char (s +:+ String c t) = last_char (String c t).
Proof.
  induction s as [|x s IH]; [reflexivity|].
  rewrite append_cons. cbn [last_char]. rewrite IH.
  destruct s; reflexivity.
Qed.

(** A request of the token endpoint is not a request of the profile. *)
Lemma token_request_not_profile (w : World) (request : Request.t) :
  token_request request ->
  Request.url request = baseUrl (this w) +:+ profile_path -> False.
Proof.
  intros [base ->] H. apply (f_equal last_char) in H.
  change "/frontegg/oauth/token" with (String "/" "frontegg/oauth/token") in H.
  change profile_path
    with (String "/" "frontegg/identity/resources/users/v2/me") in H.
  rewrite !last_char_app in H. discriminate H.
Qed.

(** ** Single flight *)

(** C1, as the specification states it, fails for a call that the cache
    answers.  A restored session with an expired token calls
    [getUserData]; the refresh exchange succeeds and the profile fetch is
    in flight.  A further call of [getUserData()] is then not given the
    pending promise 0: the stored token is fresh again, so it is answered
    with the cached profile of the old token. *)
Lemma getUserData_while_pending_counterexample :
  let s :=
    run (start restoredConfig ∅ 1700000000000 no_draws)
      [Call_getUserData false;
       Resume 0%nat (Answer (Responded (HttpResponse_json DAY_RESPONSE)));
       Resume 0%nat Elapsed] in
  userDataPromise (this (world s)) = Some 0%nat
  /\ profile_fetch_in_flight s 0%nat
  /\ accessToken (this (world s)) = Some "test-access-token"
  /\ getUserData false s = (s, Resolved STALE_USER_DATA).
Proof.
  intros s.
  assert (Hurl : in_flight_url <$> pending s !! 0%nat
                 = Some (Some (baseUrl (this (world s)) +:+ profile_path)))
    by (vm_compute; reflexivity).
  split; [vm_compute; reflexivity|]. split; [|split].
  - left. destruct (pending s !! 0%nat) as [task|] eqn:Htask; [|discriminate Hurl].
    exists task. split; [exact Htask|]. injection Hurl as Hurl. exact Hurl.
  - vm_compute; reflexivity.
  - apply getUserData_cache_hit; vm_compute; reflexivity.
Qed.

(** C1, amended: in every state an instance can reach, while the promise
    [p] of a user-data fetch is pending (the guard holds [p]), [p] is the
    only pending [getUserData] promise; a further call of [getUserData],
    with any options, changes nothing and starts nothing, and it returns a
    promise that follows [p] unless the cache answers it (a profile is
    cached, the token is not expired and [forceRefresh] is false), in which
    case it returns the cached profile; every event either leaves [p] in
    the guard and pending, or is the resumption that settles [p] and
    clears the guard, after which the guard never holds [p] again; when
    the guard is clear no [getUserData] promise is pending; and at most
    one profile fetch is in flight. *)
Theorem single_flight (config : Config.t) (storage : gmap string string) (now : Z)
    (draws : nat -> nat) (events : list Event) :
  let s := run (start config storage now draws) events in
  (forall p, userDataPromise (this (world s)) = Some p ->
     (exists task, pending s = {[p := task]})
     /\ (forall forceRefresh,
           fst (getUserData forceRefresh s) = s
           /\ (userData (this (world s)) = None
               \/ isTokenExpired (clock (world s))
                    (tokenExpirationTime (this (world s))) = true
               \/ forceRefresh = true ->
               snd (getUserData forceRefresh s) = Shared p)
           /\ (forall cached,
                 userData (this (world s)) = Some cached ->
                 isTokenExpired (clock (world s))
                   (tokenExpirationTime (this (world s))) = false ->
                 forceRefresh = false ->
                 snd (getUserData forceRefresh s) = Resolved cached))
     /\ (forall e,
           (userDataPromise (this (world (step s e))) = Some p
            /\ is_Some (pending (step s e) !! p))
           \/ (userDataPromise (this (world (step s e))) = None
               /\ pending (step s e) = ∅
               /\ (exists wake, e = Resume p wake)
               /\ forall later,
                    userDataPromise (this (world (run (step s e) later))) <> Some p)))
  /\ (userDataPromise (this (world s)) = None -> pending s = ∅)
  /\ (forall p1 p2,
        profile_fetch_in_flight s p1 -> profile_fetch_in_flight s p2 -> p1 = p2).
Proof.
  intros s.
  assert (Hs : consistent s).
  { apply run_consistent, consistent_start. }
  split; [|split].
  - intros p Hp. split; [|split].
    + destruct Hs as [Hguard _]. rewrite Hp in Hguard.
      destruct Hguard as (_ & task & ? & _). eauto.
    + intros forceRefresh. unfold getUserData. rewrite Hp.
      destruct (userData (this (world s))) as [cached|];
        [destruct (isTokenExpired (clock (world s))
                     (tokenExpirationTime (this (world s)))), forceRefresh|];
        simpl; (split; [reflexivity|]); split;
        solve [ intros; reflexivity
              | intros [?|[?|?]]; congruence
              | intros ? ? ? ?; congruence
              | intros ? ?; congruence ].
    + intros e. destruct (step_consistent s e Hs) as (Hs' & Hmove & Hnext & _).
      destruct (Hmove p Hp) as [?|(Hclear & Hnone & Hwake)]; [by left|right].
      repeat (split; [assumption|]). intros later.
      apply guard_never_again; [exact Hs'| |congruence].
      destruct Hs as [Hguard _]. rewrite Hp in Hguard. lia.
  - intros Hp. destruct Hs as [Hguard _]. by rewrite Hp in Hguard.
  - assert (Hexchange : forall p task,
              exchanges s !! p = Some task -> awaits_profile (world s) task -> False).
    { intros p task Hp Hawaits. destruct Hs as [_ Hexchanges].
      specialize (Hexchanges p task Hp). destruct task; try done.
      destruct Hexchanges as [Hrequest _]. injection Hawaits as Hawaits.
      exact (token_request_not_profile _ _ Hrequest Hawaits). }
    assert (Hpending : forall p1 p2 task1 task2,
              pending s !! p1 = Some task1 -> pending s !! p2 = Some task2 -> p1 = p2).
    { intros p1 p2 task1 task2 H1 H2. destruct Hs as [Hguard _].
      destruct (userDataPromise (this (world s))) as [p|].
      - destruct Hguard as (_ & task & Hp & _). rewrite Hp in H1, H2.
        apply lookup_singleton_Some in H1 as [<- _].
        apply lookup_singleton_Some in H2 as [<- _]. reflexivity.
      - rewrite Hguard in H1. by rewrite lookup_empty in H1. }
    intros p1 p2 [(t1 & H1 & A1)|(t1 & H1 & A1)] [(t2 & H2 & A2)|(t2 & H2 & A2)];
      try (exfalso; eauto; fail).
    eauto.
Qed.

(** ** Failure of a user-data fetch *)

(** C2, as the specification states it, fails when the token exchange
    succeeds and the profile fetch raises: a new instance calls
    [getUserData], the silent-cookie exchange is answered with tokens and
    the profile request with an empty 401 response.  The operation throws
    the [FronteggError] of the profile request, the guard is cleared, and
    the three token fields, [null] before the call, hold the exchanged
    tokens. *)
Lemma getUserData_failure_counterexample :
  let w := mkWorld (constructor clientConfig) ∅ 1700000000000 no_draws in
  let result :=
    run_alone w (userDataChain false)
      [(1700000000100, Responded (HttpResponse_json FRONTEGG_RESPONSE));
       (1700000000200, Responded (EmptyResponse 401))] in
  snd result
  = Throw (FronteggError
      (FronteggError.mk "Error while fetching Frontegg endpoint." 401
         "http://frontegg-test-instance.local/frontegg/identity/resources/users/v2/me"
         "undefined" (BodyValue (JString "Error while fetching Frontegg endpoint."))))
  /\ tokens (this w) = (None, None, None)
  /\ tokens (this (fst result))
     = (Some "test-access-token", Some "test-refresh-token", Some 1700003600100)
  /\ userDataPromise (this (fst result)) = None
  /\ this (world (run (start clientConfig ∅ 1700000000000 no_draws)
                   [Call_getUserData false;
                    Tick 1700000000100;
                    Resume 0%nat (Answer (Responded (HttpResponse_json FRONTEGG_RESPONSE)));
                    Resume 0%nat Elapsed;
                    Tick 1700000000200;
                    Resume 0%nat (Answer (Responded (EmptyResponse 401)));
                    Resume 0%nat Elapsed]))
     = this (fst result).
Proof. repeat split; vm_compute; reflexivity. Qed.

Ltac run_case H :=
  match type of H with
  | context [match ?x with _ => _ end] => destruct x eqn:?
  end;
  cbn -[String.append JSON_stringify GET_FRONTEGG_TOKEN_RESPONSE_SCHEMA
        GET_FRONTEGG_USER_DATA_RESPONSE_SCHEMA insert lookup] in H |- *.

(** With a clear guard, a call of [getUserData] that the cache does not
    answer starts a new operation. *)
Lemma getUserData_starts (s : System) (forceRefresh : bool) :
  userDataPromise (this (world s)) = None ->
  userData (this (world s)) = None
  \/ isTokenExpired (clock (world s)) (tokenExpirationTime (this (world s))) = true
  \/ forceRefresh = true ->
  snd (getUserData forceRefresh s) = Shared (next s)
  /\ is_Some (pending (fst (getUserData forceRefresh s)) !! next s).
Proof.
  intros Hguard Hmiss. unfold getUserData. rewrite Hguard.
  assert (Hstart : snd (let '(s', promise) := startUserDataPromise forceRefresh s in
                        (s', Shared promise)) = Shared (next s)
                   /\ is_Some (pending (fst (let '(s', promise) :=
                                 startUserDataPromise forceRefresh s in
                               (s', Shared promise))) !! next s)).
  { unfold startUserDataPromise.
    destruct (run_sync (world s) (userDataChain forceRefresh)) as [w chain].
    simpl. split; [reflexivity|]. rewrite lookup_insert_eq. eauto. }
  destruct (userData (this (world s))) as [cached|]; [|exact Hstart].
  destruct (isTokenExpired (clock (world s)) (tokenExpirationTime (this (world s)))),
    forceRefresh; simpl; try exact Hstart.
  destruct Hmiss as [?|[?|?]]; congruence.
Qed.

(** C2, amended: when a [getUserData] operation fails, the cached profile
    is the one from before the call and the guard is cleared, so that a
    later call which the cache does not answer starts a new operation; the
    token fields are the ones the resolution of the access token left,
    which are those from before the call when that resolution itself
    raised.  (When a token exchange succeeded and the profile fetch
    raised, the exchanged tokens stay.) *)
Theorem userDataChain_failure (w w' : World) (forceRefresh : bool)
    (answers : list (Z * FetchOutcome)) (e : Exn) :
  run_alone w (userDataChain forceRefresh) answers = (w', Throw e) ->
  let resolved := run_alone w (getAccessToken forceRefresh) answers in
  userData (this w') = userData (this w)
  /\ userDataPromise (this w') = None
  /\ tokens (this w') = tokens (this (fst resolved))
  /\ (forall e1, snd resolved = Throw e1 -> e1 = e /\ tokens (this w') = tokens (this w))
  /\ (forall s retry,
        world s = w' ->
        userData (this w') = None
        \/ isTokenExpired (clock w') (tokenExpirationTime (this w')) = true
        \/ retry = true ->
        snd (getUserData retry s) = Shared (next s)
        /\ is_Some (pending (fst (getUserData retry s)) !! next s)).
Proof.
  intros H resolved. subst resolved.
  assert (Hmain :
    userData (this w') = userData (this w)
    /\ userDataPromise (this w') = None
    /\ tokens (this w')
       = tokens (this (fst (run_alone w (getAccessToken forceRefresh) answers)))
    /\ (forall e1,
          snd (run_alone w (getAccessToken forceRefresh) answers) = Throw e1 ->
          e1 = e /\ tokens (this w') = tokens (this w))).
  { revert H.
    unfold userDataChain, catch_, then_, getAccessToken, fetchUserData,
      fetchAccessTokenByCookie, fetchAccessTokenByOAuthRefreshToken, fetchWithAssert,
      settled.
    cbn -[String.append JSON_stringify GET_FRONTEGG_TOKEN_RESPONSE_SCHEMA
          GET_FRONTEGG_USER_DATA_RESPONSE_SCHEMA insert lookup].
    intros H.
    repeat run_case H;
      try discriminate H;
      injection H as <- <-;
      repeat split; try reflexivity; intros; congruence. }
  destruct Hmain as (H1 & H2 & H3 & H4).
  repeat (split; [assumption|]).
  intros s retry <- Hmiss. by apply getUserData_starts.
Qed.

Lemma userDataChain_failure_witness :
  let w := mkWorld (constructor clientConfig) ∅ 1700000000000 no_draws in
  let w' := with_this (set_userDataPromise None) (with_clock 1700000000100 w) in
  userData (this w') = userData (this w)
  /\ userDataPromise (this w') = None
  /\ tokens (this w') = tokens (this w).
Proof.
  intros w w'.
  pose proof (userDataChain_failure w w' false
                [(1700000000100, Rejected "Failed to fetch")]
                (TypeError "Failed to fetch") eq_refl) as (H1 & H2 & _ & H4 & _).
  split; [exact H1|]. split; [exact H2|].
  exact (proj2 (H4 (TypeError "Failed to fetch") eq_refl)).
Defined.

(** * Further properties of the code *)

(** ** Expiration of a stored token *)

(** X2: a token stored at a time [now] after the epoch with a lifetime of
    [expires_in] seconds: when the lifetime is an hour or less it counts
    as expired at every later instant, and when it is longer it counts
    as fresh up to [expires_in - 3600] seconds after [now]. *)
Theorem stored_token_freshness (now expires_in : Z) :
  0 < now -> 0 <= expires_in ->
  let stored := Some (calculateTokenExpirationTime now expires_in) in
  (expires_in <= 3600 -> forall later, now < later -> isTokenExpired later stored = true)
  /\ (3600 < expires_in ->
      forall later, later <= now + (expires_in - 3600) * 1000 ->
                    isTokenExpired later stored = false)
  /\ (isTokenExpired now stored = true <-> expires_in < 3600).
Proof.
  intros Hnow Hexpires stored. subst stored.
  unfold isTokenExpired, calculateTokenExpirationTime. simpl.
  destruct (Z.eqb_spec (now + expires_in * 1000) 0) as [H0|H0]; [lia|]. simpl.
  split; [|split].
  - intros H later Hlater. apply Z.ltb_lt. lia.
  - intros H later Hlater. apply Z.ltb_ge. lia.
  - rewrite Z.ltb_lt. lia.
Qed.

Lemma stored_token_freshness_witness :
  isTokenExpired 1700000000001
    (Some (calculateTokenExpirationTime 1700000000000 3600)) = true.
Proof.
  exact (proj1 (stored_token_freshness 1700000000000 3600 eq_refl
                  ltac:(discriminate)) ltac:(discriminate) 1700000000001 eq_refl).
Defined.

(** X3: expiration is permanent: a token that counts as expired at one
    time counts as expired at every later time. *)
Theorem isTokenExpired_monotone (now later : Z) (tokenExpirationTime : option Z) :
  now <= later ->
  isTokenExpired now tokenExpirationTime = true ->
  isTokenExpired later tokenExpirationTime = true.
Proof.
  intros Hlater. unfold isTokenExpired.
  destruct tokenExpirationTime as [t|]; simpl; [|done].
  destruct (t =? 0); simpl; [done|].
  rewrite !Z.ltb_lt. lia.
Qed.

Lemma isTokenExpired_monotone_witness :
  isTokenExpired 1700000000001 (Some 1700000000000) = true.
Proof.
  exact (isTokenExpired_monotone 1700000000000 1700000000001 (Some 1700000000000)
           ltac:(discriminate) eq_refl).
Defined.

(** ** [fetchWithAssert] *)

(** X1: [fetchWithAssert] makes the request it is given; a rejected fetch
    is thrown on as the same [TypeError]; a response with an [ok] status
    is returned as it is; and for any other response it throws a
    [FronteggError] with the status of the response, the URL of the
    request, the [frontegg-trace-id] header or ["undefined"], a text that
    is never empty (the text of the response, or the default message), and
    as body always the default message, since the body was read for the
    text before it is read as JSON. *)
Theorem fetchWithAssert_outcomes (w : World) (url : string) (options : RequestInit.t)
    (now : Z) :
  let call answer := run_alone w (fetchWithAssert url options) [(now, answer)] in
  in_flight_request (snd (run_sync w (fetchWithAssert url options)))
  = Some (Request.mk url options)
  /\ (forall message,
        call (Rejected message) = (with_clock now w, Throw (TypeError message)))
  /\ (forall response,
        Response.ok response = true ->
        call (Responded response) = (with_clock now w, Return response))
  /\ (forall response,
        Response.ok response = false ->
        exists text,
          call (Responded response)
          = (with_clock now w,
             Throw (FronteggError
               (FronteggError.mk text (Response.status response) url
                  (default "undefined"
                     (Response.headers response !! "frontegg-trace-id"))
                  (BodyValue (JString defaultMessage)))))
          /\ text <> EmptyString
          /\ (text = defaultMessage \/ Response.text response = inl text)).
Proof.
  intros call. subst call. split; [reflexivity|]. split; [reflexivity|]. split.
  - intros response Hok. simpl. rewrite Hok. reflexivity.
  - intros response Hok. simpl. rewrite Hok. simpl.
    assert (Hbody : match Response.json true response with
                    | inl json => if truthy_json json then json else JString defaultMessage
                    | inr _ => JString defaultMessage
                    end = JString defaultMessage).
    { unfold Response.json. destruct (Response.body response); reflexivity. }
    rewrite Hbody. eexists. split; [reflexivity|].
    destruct (Response.text response) as [[|c text]|e]; simpl.
    + split; [done|]. by left.
    + split; [done|]. by right.
    + split; [done|]. by left.
Qed.

(** ** The resolution of the access token *)

(** X4: what [getAccessToken] does in each state.  Without an access token
    (none, or the empty string) it makes the request of the silent-cookie
    exchange, whether a refresh token is held or not.  With an access token
    and a refresh token it makes the request of the refresh exchange, with
    that refresh token, when the refresh is forced or the token is
    expired.  In every other state, in particular when a refresh is
    forced and no refresh token is held, it returns the cached token
    without a request.  It changes nothing before its request. *)
Theorem getAccessToken_decision (w : World) (forceRefresh : bool) :
  let base := baseUrl (this w) in
  let expired := isTokenExpired (clock w) (tokenExpirationTime (this w)) in
  let first := run_sync w (getAccessToken forceRefresh) in
  fst first = w
  /\ (truthy_string (accessToken (this w)) = false ->
      in_flight_request (snd first) = Some (cookie_request base))
  /\ (forall cached refresh,
        accessToken (this w) = Some cached -> cached <> EmptyString ->
        refreshToken (this w) = Some refresh -> refresh <> EmptyString ->
        forceRefresh = true \/ expired = true ->
        in_flight_request (snd first) = Some (refresh_request base refresh))
  /\ (forall cached,
        accessToken (this w) = Some cached -> cached <> EmptyString ->
        truthy_string (refreshToken (this w)) = false
        \/ (forceRefresh = false /\ expired = false) ->
        snd first = Return cached).
Proof.
  intros base expired first. subst base expired first. simpl.
  destruct (accessToken (this w)) as [[|c cached]|] eqn:Haccess;
    destruct (refreshToken (this w)) as [[|r refresh]|] eqn:Hrefresh;
    destruct forceRefresh;
    destruct (isTokenExpired (clock w) (tokenExpirationTime (this w))) eqn:Hexpired;
    simpl;
    (split; [reflexivity|]); (split; [try reflexivity; discriminate|]);
    (split; [intros ? ? [= <-] ? [= <-] ? ?; try reflexivity; try done;
             intuition discriminate
            |intros ? [= <-] ? ?; try reflexivity; try done;
             intuition discriminate]).
Qed.

(** ** Outcomes of a user-data fetch *)

(** X5: when a [getUserData] operation succeeds, the profile it returns
    is the cached profile afterwards, its access token is the access
    token of the instance, the guard is cleared, and the token fields are
    the ones the resolution of the access token left.  From then on, as
    long as the instance is not changed and its token is not expired, a
    call of [getUserData()] is answered with this profile from the cache,
    with no request. *)
Theorem userDataChain_success (w w' : World) (forceRefresh : bool)
    (answers : list (Z * FetchOutcome)) (profile : FronteggUserData) :
  run_alone w (userDataChain forceRefresh) answers = (w', Return profile) ->
  userData (this w') = Some profile
  /\ accessToken (this w') = Some (UserData.accessToken profile)
  /\ userDataPromise (this w') = None
  /\ tokens (this w')
     = tokens (this (fst (run_alone w (getAccessToken forceRefresh) answers)))
  /\ forall s : System,
       this (world s) = this w' ->
       isTokenExpired (clock (world s)) (tokenExpirationTime (this (world s))) = false ->
       getUserData false s = (s, Resolved profile).
Proof.
  intros Hrun.
  assert (Hfacts :
    userData (this w') = Some profile
    /\ accessToken (this w') = Some (UserData.accessToken profile)
    /\ userDataPromise (this w') = None
    /\ tokens (this w')
       = tokens (this (fst (run_alone w (getAccessToken forceRefresh) answers)))).
  { revert Hrun.
    unfold userDataChain, catch_, then_, getAccessToken, fetchUserData,
      fetchAccessTokenByCookie, fetchAccessTokenByOAuthRefreshToken, fetchWithAssert,
      settled.
    cbn -[String.append JSON_stringify GET_FRONTEGG_TOKEN_RESPONSE_SCHEMA
          GET_FRONTEGG_USER_DATA_RESPONSE_SCHEMA insert lookup].
    intros H.
    repeat run_case H;
      try discriminate H;
      injection H as <- <-;
      repeat split; try reflexivity; try congruence; simpl; assumption. }
  destruct Hfacts as (H1 & H2 & H3 & H4).
  repeat (split; [assumption|]).
  intros s Hthis Hfresh.
  apply getUserData_cache_hit; [by rewrite Hthis|exact Hfresh].
Qed.

Lemma userDataChain_success_witness :
  let w := mkWorld (constructor clientConfig) ∅ 1700000000000 no_draws in
  let w' :=
    with_this (set_userDataPromise None)
      (with_this (set_userData (Some USER_DATA))
         (with_clock 1700000000200
            (store_tokens
               (TokenResponse.mk "Bearer" "test-access-token" "test-id-token"
                  "test-refresh-token" 86400)
               (with_clock 1700000000100 w)))) in
  userData (this w') = Some USER_DATA
  /\ accessToken (this w') = Some (UserData.accessToken USER_DATA)
  /\ getUserData false (mkSystem (with_clock 1700000000300 w') ∅ ∅ 1%nat)
     = (mkSystem (with_clock 1700000000300 w') ∅ ∅ 1%nat, Resolved USER_DATA).
Proof.
  intros w w'.
  pose proof (userDataChain_success w w' false
                [(1700000000100, Responded (HttpResponse_json DAY_RESPONSE));
                 (1700000000200, Responded (HttpResponse_json FRONTEGG_USER_DATA))]
                USER_DATA eq_refl) as (H1 & H2 & _ & _ & Hcached).
  split; [exact H1|]. split; [exact H2|].
  apply Hcached; reflexivity.
Defined.

(** X6: a [getUserData] operation makes at most two requests and is never
    retried: whatever the first two answers are, it has ended after them.
    The resolution of the access token and the two public exchanges make
    at most one request each. *)
Theorem at_most_two_requests (w : World) (forceRefresh : bool)
    (oauthCode refreshToken : string) (first second : Z * FetchOutcome)
    (rest : list (Z * FetchOutcome)) :
  finished (snd (run_alone w (userDataChain forceRefresh) (first :: second :: rest)))
  = true
  /\ finished (snd (run_alone w (getAccessToken forceRefresh) (first :: rest))) = true
  /\ finished (snd (run_alone w (fetchAccessTokenByOAuthCode oauthCode)
                      (first :: rest))) = true
  /\ finished (snd (run_alone w (fetchAccessTokenByOAuthRefreshToken refreshToken)
                      (first :: rest))) = true.
Proof.
  destruct first as [now1 o1], second as [now2 o2].
  unfold userDataChain, catch_, then_, getAccessToken, fetchUserData,
    fetchAccessTokenByCookie, fetchAccessTokenByOAuthCode, getCodeVerifier,
    createRandomString,
    fetchAccessTokenByOAuthRefreshToken, fetchWithAssert, settled.
  repeat split;
    cbn -[String.append JSON_stringify GET_FRONTEGG_TOKEN_RESPONSE_SCHEMA
          GET_FRONTEGG_USER_DATA_RESPONSE_SCHEMA insert lookup];
    repeat (next_case;
            cbn -[String.append JSON_stringify GET_FRONTEGG_TOKEN_RESPONSE_SCHEMA
                  GET_FRONTEGG_USER_DATA_RESPONSE_SCHEMA insert lookup]);
    reflexivity.
Qed.

(** X8: when the first request of a [getUserData] operation is rejected
    (no response is obtained), in whatever state the instance is, the
    operation throws the [TypeError] of the rejection, not a
    [FronteggError], and leaves the instance as it was, the guard
    cleared. *)
Theorem userDataChain_network_failure (w : World) (forceRefresh : bool) (now : Z)
    (message : string) (rest : list (Z * FetchOutcome)) :
  let result := run_alone w (userDataChain forceRefresh) ((now, Rejected message) :: rest) in
  snd result = Throw (TypeError message)
  /\ this (fst result) = set_userDataPromise None (this w).
Proof.
  unfold userDataChain, catch_, then_, getAccessToken, fetchUserData,
    fetchAccessTokenByCookie, fetchAccessTokenByOAuthRefreshToken, fetchWithAssert,
    settled.
  cbn -[String.append JSON_stringify GET_FRONTEGG_TOKEN_RESPONSE_SCHEMA
        GET_FRONTEGG_USER_DATA_RESPONSE_SCHEMA insert lookup].
  repeat (next_case;
          cbn -[String.append JSON_stringify GET_FRONTEGG_TOKEN_RESPONSE_SCHEMA
                GET_FRONTEGG_USER_DATA_RESPONSE_SCHEMA insert lookup]);
    split; reflexivity.
Qed.

(** ** Failures of the public token exchanges *)

Lemma exchange_tail_failure (w w' : World) (url : string) (options : RequestInit.t)
    (now : Z) (answer : FetchOutcome) (e : Exn) :
  run_alone w (exchange_tail url options) [(now, answer)] = (w', Throw e) ->
  this w' = this w
  /\ match answer with
     | Rejected message => e = TypeError message
     | Responded response =>
         if Response.ok response then
           match Response.json false response with
           | inl json =>
               exists issues,
                 GET_FRONTEGG_TOKEN_RESPONSE_SCHEMA json = inr issues
                 /\ e = ZodError issues
           | inr e' => e = e'
           end
         else
           exists error,
             e = FronteggError error
             /\ FronteggError.status error = Response.status response
     end.
Proof.
  unfold exchange_tail, fetchWithAssert, settled.
  cbn -[String.append JSON_stringify GET_FRONTEGG_TOKEN_RESPONSE_SCHEMA insert lookup].
  destruct answer as [message|response].
  - intros [= <- <-]. by split.
  - destruct (Response.ok response);
      cbn -[String.append JSON_stringify GET_FRONTEGG_TOKEN_RESPONSE_SCHEMA
            insert lookup].
    + destruct (Response.json false response) as [json|e'];
        cbn -[String.append JSON_stringify GET_FRONTEGG_TOKEN_RESPONSE_SCHEMA
              insert lookup].
      * destruct (GET_FRONTEGG_TOKEN_RESPONSE_SCHEMA json) as [data|issues];
          cbn -[String.append JSON_stringify insert lookup]; [discriminate|].
        intros [= <- <-]. split; [reflexivity|]. eauto.
      * intros [= <- <-]. by split.
    + intros [= <- <-]. split; [reflexivity|]. eexists. split; reflexivity.
Qed.

(** X7: when one of the two public exchanges throws, the instance is as it
    was before the call, and what is thrown tells the cause apart: the
    [TypeError] of a rejected fetch; a [FronteggError] with the status of
    a response that is not [ok]; the error of reading a body that is not
    JSON; and, for a JSON body that the token schema rejects, the bare
    [ZodError] with the schema's issues, which is not a [FronteggError]. *)
Theorem token_exchange_failures (w w' : World) (oauthCode refreshToken : string)
    (now : Z) (answer : FetchOutcome) (e : Exn) :
  run_alone w (fetchAccessTokenByOAuthCode oauthCode) [(now, answer)] = (w', Throw e)
  \/ run_alone w (fetchAccessTokenByOAuthRefreshToken refreshToken) [(now, answer)]
     = (w', Throw e) ->
  this w' = this w
  /\ match answer with
     | Rejected message => e = TypeError message
     | Responded response =>
         if Response.ok response then
           match Response.json false response with
           | inl json =>
               exists issues,
                 GET_FRONTEGG_TOKEN_RESPONSE_SCHEMA json = inr issues
                 /\ e = ZodError issues
           | inr e' => e = e'
           end
         else
           exists error,
             e = FronteggError error
             /\ FronteggError.status error = Response.status response
     end.
Proof.
  intros [H|H].
  - destruct (fetchAccessTokenByOAuthCode_tail w oauthCode [(now, answer)])
      as (w1 & options & Hthis & _ & Hrun).
    rewrite Hrun in H. apply exchange_tail_failure in H as [H1 H2].
    split; [congruence|exact H2].
  - change (fetchAccessTokenByOAuthRefreshToken refreshToken)
      with (Read (fun w => exchange_tail (baseUrl (this w) +:+ "/frontegg/oauth/token")
              (RequestInit.mk (Some "POST") None None json_headers
                 (Some (JSON_stringify (JObject
                    [("refresh_token", JString refreshToken);
                     ("grant_type", JString "refresh_token")])))))) in H.
    cbn [run_alone] in H. by apply exchange_tail_failure in H.
Qed.

Lemma token_exchange_failures_witness :
  let w := mkWorld (constructor clientConfig) ∅ 1700000000000 no_draws in
  let payload := JObject [("access_token", JNumber 1)] in
  exists issues,
    GET_FRONTEGG_TOKEN_RESPONSE_SCHEMA payload = inr issues
    /\ ZodError
         [invalid_type ["token_type"] "string" None;
          invalid_type ["access_token"] "string" (Some (JNumber 1));
          invalid_type ["id_token"] "string" None;
          invalid_type ["refresh_token"] "string" None;
          invalid_type ["expires_in"] "number" None]
       = ZodError issues.
Proof.
  intros w payload.
  exact (proj2 (token_exchange_failures w (with_clock 1700000000100 w)
                  "test-oauth-code" "test-refresh-token" 1700000000100
                  (Responded (HttpResponse_json payload))
                  (ZodError
                     [invalid_type ["token_type"] "string" None;
                      invalid_type ["access_token"] "string" (Some (JNumber 1));
                      invalid_type ["id_token"] "string" None;
                      invalid_type ["refresh_token"] "string" None;
                      invalid_type ["expires_in"] "number" None])
                  (or_intror eq_refl))).
Defined.

(** ** The schemas *)

Lemma z_string_issues (key : string) (v : option JSON) (l : list ZodIssue) :
  z_string key v = inr l -> l <> [].
Proof. unfold z_string. destruct v as [[]|]; intros [= <-]; discriminate. Qed.

Lemma z_number_issues (key : string) (v : option JSON) (l : list ZodIssue) :
  z_number key v = inr l -> l <> [].
Proof. unfold z_number. destruct v as [[]|]; intros [= <-]; discriminate. Qed.

Lemma z_string_nullable_optional_issues (key : string) (v : option JSON)
    (l : list ZodIssue) :
  z_string_nullable_optional key v = inr l -> l <> [].
Proof.
  unfold z_string_nullable_optional.
  destruct v as [[]|]; intros [= <-]; discriminate.
Qed.

Lemma z_string_inl (key : string) (v : option JSON) (s : string) :
  z_string key v = inl s <-> v = Some (JString s).
Proof.
  unfold z_string. split.
  - destruct v as [[]|]; intros [=]; congruence.
  - by intros ->.
Qed.

Lemma z_number_inl (key : string) (v : option JSON) (n : Z) :
  z_number key v = inl n <-> v = Some (JNumber n).
Proof.
  unfold z_number. split.
  - destruct v as [[]|]; intros [=]; congruence.
  - by intros ->.
Qed.

Ltac no_issues :=
  let Hnil := fresh "Hnil" in
  intros [= <-]; simpl; intros Hnil;
  repeat match type of Hnil with
    | _ ++ _ = [] => let H := fresh in apply app_eq_nil in Hnil as [H Hnil]
    end;
  subst;
  solve [ eapply z_string_issues; eauto
        | eapply z_number_issues; eauto
        | eapply z_string_nullable_optional_issues; eauto ].

(** X18: the token schema accepts a payload exactly when it is an object
    whose five properties [token_type], [access_token], [id_token],
    [refresh_token] (strings) and [expires_in] (a number) are present with
    their types, whatever other properties it has, and the data it gives
    are the values of these properties; when it rejects a payload it
    reports at least one issue. *)
Theorem token_schema_accepts (json : JSON) (data : GetFronteggTokenResponse) :
  (GET_FRONTEGG_TOKEN_RESPONSE_SCHEMA json = inl data <->
   exists fields,
     json = JObject fields
     /\ property "token_type" fields = Some (JString (TokenResponse.token_type data))
     /\ property "access_token" fields = Some (JString (TokenResponse.access_token data))
     /\ property "id_token" fields = Some (JString (TokenResponse.id_token data))
     /\ property "refresh_token" fields
        = Some (JString (TokenResponse.refresh_token data))
     /\ property "expires_in" fields = Some (JNumber (TokenResponse.expires_in data)))
  /\ (forall issues,
        GET_FRONTEGG_TOKEN_RESPONSE_SCHEMA json = inr issues -> issues <> []).
Proof.
  split; [split|].
  - destruct json as [| | | | |fields]; try discriminate. simpl.
    intros H. exists fields. split; [reflexivity|].
    destruct (z_string "token_type" _) as [a|] eqn:Ha; [|by repeat case_match].
    destruct (z_string "access_token" _) as [b|] eqn:Hb; [|by repeat case_match].
    destruct (z_string "id_token" _) as [c|] eqn:Hc; [|by repeat case_match].
    destruct (z_string "refresh_token" _) as [d|] eqn:Hd; [|by repeat case_match].
    destruct (z_number "expires_in" _) as [e|] eqn:He; [|by repeat case_match].
    injection H as <-. simpl.
    apply z_string_inl in Ha, Hb, Hc, Hd. apply z_number_inl in He. done.
  - intros (fields & -> & H1 & H2 & H3 & H4 & H5). simpl.
    rewrite H1, H2, H3, H4, H5. by destruct data.
  - intros issues. destruct json as [| | | | |fields]; simpl;
      try (intros [= <-]; discriminate).
    destruct (z_string "token_type" _) as [a|a] eqn:Ha; [|no_issues].
    destruct (z_string "access_token" _) as [b|b] eqn:Hb; [|no_issues].
    destruct (z_string "id_token" _) as [c|c] eqn:Hc; [|no_issues].
    destruct (z_string "refresh_token" _) as [d|d] eqn:Hd; [|no_issues].
    destruct (z_number "expires_in" _) as [e|e] eqn:He; [discriminate|no_issues].
Qed.

(** X19: the profile schema accepts a payload exactly when it is an object
    whose properties [id], [email], [name] and [tenantId] are strings and
    whose [profilePictureUrl] is a string, [null] or absent; a picture
    URL of any other type makes it reject the payload, and a rejection
    reports at least one issue. *)
Theorem user_data_schema_accepts (json : JSON) :
  ((exists data, GET_FRONTEGG_USER_DATA_RESPONSE_SCHEMA json = inl data) <->
   exists fields id email name tenantId,
     json = JObject fields
     /\ property "id" fields = Some (JString id)
     /\ property "email" fields = Some (JString email)
     /\ property "name" fields = Some (JString name)
     /\ property "tenantId" fields = Some (JString tenantId)
     /\ match property "profilePictureUrl" fields with
        | None | Some JNull | Some (JString _) => True
        | Some _ => False
        end)
  /\ (forall issues,
        GET_FRONTEGG_USER_DATA_RESPONSE_SCHEMA json = inr issues -> issues <> []).
Proof.
  split; [split|].
  - intros [data H]. destruct json as [| | | | |fields]; try discriminate.
    simpl in H.
    destruct (z_string "id" _) as [a|] eqn:Ha; [|by repeat case_match].
    destruct (z_string "email" _) as [b|] eqn:Hb; [|by repeat case_match].
    destruct (z_string "name" _) as [c|] eqn:Hc; [|by repeat case_match].
    destruct (z_string_nullable_optional "profilePictureUrl" _) as [d|] eqn:Hd;
      [|by repeat case_match].
    destruct (z_string "tenantId" _) as [e|] eqn:He; [|by repeat case_match].
    apply z_string_inl in Ha, Hb, Hc, He.
    exists fields, a, b, c, e. repeat (split; [done|]).
    unfold z_string_nullable_optional in Hd.
    by destruct (property "profilePictureUrl" fields) as [[]|].
  - intros (fields & id & email & name & tenantId & -> & H1 & H2 & H3 & H4 & H5).
    simpl. rewrite H1, H2, H3, H4. simpl.
    destruct (property "profilePictureUrl" fields) as [[]|]; try done; simpl; eauto.
  - intros issues. destruct json as [| | | | |fields]; simpl;
      try (intros [= <-]; discriminate).
    destruct (z_string "id" _) as [a|a] eqn:Ha; [|no_issues].
    destruct (z_string "email" _) as [b|b] eqn:Hb; [|no_issues].
    destruct (z_string "name" _) as [c|c] eqn:Hc; [|no_issues].
    destruct (z_string_nullable_optional "profilePictureUrl" _) as [d|d] eqn:Hd;
      [|no_issues].
    destruct (z_string "tenantId" _) as [e|e] eqn:He; [discriminate|no_issues].
Qed.

(** ** A restored session *)

(** X17: an instance constructed from a stored session (a profile and an
    expiration time that is more than an hour away) answers
    [getUserData()] from the cache at once: it makes no request and
    changes nothing. *)
Theorem restored_session_is_cached (config : Config.t) (profile : FronteggUserData)
    (t now : Z) (storage : gmap string string) (draws : nat -> nat) :
  Config.userData config = Some profile ->
  Config.tokenExpirationTime config = Some t ->
  t <> 0 ->
  now <= t - 3600000 ->
  getUserData false (start config storage now draws)
  = (start config storage now draws, Resolved profile).
Proof.
  intros Hprofile Ht Hzero Hfresh.
  apply getUserData_cache_hit; simpl; unfold constructor; rewrite Hprofile, Ht; simpl.
  - destruct (truthy_string (Config.refreshToken config)), (t =? 0); reflexivity.
  - destruct (Z.eqb_spec t 0) as [|_]; [done|]. simpl.
    destruct (truthy_string (Config.refreshToken config)); simpl;
      unfold isTokenExpired; simpl;
      (destruct (Z.eqb_spec t 0) as [|_]; [done|]); simpl; apply Z.ltb_ge; lia.
Qed.

Lemma restored_session_is_cached_witness :
  let config :=
    Config.mk "http://frontegg-test-instance.local" "test-client-id"
      "http://localhost:3000/oauth/callback" "http://localhost:3000"
      (Some USER_DATA) None (Some 1700007200000) in
  getUserData false (start config ∅ 1700000000000 no_draws)
  = (start config ∅ 1700000000000 no_draws, Resolved USER_DATA).
Proof.
  intros config.
  exact (restored_session_is_cached config USER_DATA 1700007200000 1700000000000
           ∅ no_draws eq_refl eq_refl ltac:(discriminate) ltac:(discriminate)).
Defined.

(** ** Redaction by property name *)

Lemma prefix_app_l (needle a b : string) :
  String.prefix needle a = true -> String.prefix needle (a +:+ b) = true.
Proof.
  revert a. induction needle as [|x needle IH]; intros a.
  - intros _. by destruct (a +:+ b).
  - destruct a as [|y a]; [discriminate|]. rewrite append_cons. simpl.
    destruct (ascii_dec x y); [apply IH|discriminate].
Qed.

Lemma prefix_refl (s : string) : String.prefix s s = true.
Proof.
  induction s as [|x s IH]; [reflexivity|]. simpl.
  by destruct (ascii_dec x x).
Qed.

Lemma includes_prefix (haystack needle : string) :
  String.prefix needle haystack = true -> includes haystack needle = true.
Proof. intros H. destruct haystack; cbn [includes]; rewrite H; reflexivity. Qed.

Lemma includes_app_l (a b needle : string) :
  includes a needle = true -> includes (a +:+ b) needle = true.
Proof.
  induction a as [|x a IH].
  - cbn [includes]. rewrite orb_false_r. intros H. apply includes_prefix.
    by apply (prefix_app_l needle EmptyString b).
  - rewrite append_cons. cbn [includes]. intros [H|H]%orb_true_iff.
    + apply (prefix_app_l _ _ b) in H. rewrite append_cons in H.
      rewrite H. reflexivity.
    + rewrite (IH H). apply orb_true_r.
Qed.

Lemma includes_app_r (a b needle : string) :
  includes b needle = true -> includes (a +:+ b) needle = true.
Proof.
  intros H. induction a as [|x a IH].
  - by rewrite append_nil_l.
  - rewrite append_cons. cbn [includes]. rewrite IH. apply orb_true_r.
Qed.

Lemma includes_quote (key : string) :
  escape key = key -> includes (quote key) key = true.
Proof.
  intros H. unfold quote. rewrite H.
  apply includes_app_r, includes_app_l, includes_prefix, prefix_refl.
Qed.

(** The serialisation of an object shows the name of each of its
    properties, when the name needs no escape. *)
Lemma JSON_stringify_shows_property (fields : list (string * JSON)) (key : string)
    (v : JSON) :
  escape key = key ->
  property key fields = Some v ->
  includes (JSON_stringify (JObject fields)) key = true.
Proof.
  intros Hescape Hproperty.
  cbn [JSON_stringify].
  apply includes_app_r, includes_app_l.
  induction fields as [|[k x] rest IH]; [discriminate|].
  simpl in Hproperty.
  destruct (String.eqb_spec k key) as [->|Hk].
  - apply includes_app_l. by apply includes_quote.
  - apply includes_app_r, includes_app_r, includes_app_r.
    destruct rest as [|field rest]; [discriminate|].
    apply includes_app_r, IH, Hproperty.
Qed.

(** X9: a payload that the token schema rejects is never shown by the error
    of the silent-cookie exchange when one of its own properties is named
    [access_token], [id_token] or [refresh_token], whatever the value of
    that property: the error then carries the redaction notice in place of
    the payload. *)
Theorem partial_token_payload_redacted (w : World) (now : Z) (r : Response.t)
    (fields : list (string * JSON)) (issues : list ZodIssue)
    (key : string) (v : JSON) :
  In key token_field_names ->
  property key fields = Some v ->
  Response.ok r = true ->
  Response.json false r = inl (JObject fields) ->
  GET_FRONTEGG_TOKEN_RESPONSE_SCHEMA (JObject fields) = inr issues ->
  snd (run_alone w fetchAccessTokenByCookie [(now, Responded r)])
  = Throw (FronteggError
      (FronteggError.mk "Error while parsing Frontegg response." 500
         (baseUrl (this w) +:+ "/frontegg/oauth/authorize/silent")
         (default "undefined" (Response.headers r !! "frontegg-trace-id"))
         (BodyParseFailure (JString redaction_notice) issues))).
Proof.
  intros Hkey Hproperty Hok Hjson Hschema.
  assert (Hshown : includes (JSON_stringify (JObject fields)) key = true).
  { apply (JSON_stringify_shows_property fields key v); [|exact Hproperty].
    destruct Hkey as [<-|[<-|[<-|[]]]]; reflexivity. }
  assert (Hleaks : existsb (fun key => includes (JSON_stringify (JObject fields)) key)
                     token_field_names = true).
  { apply existsb_exists. eauto. }
  unfold fetchAccessTokenByCookie.
  cbn -[String.append JSON_stringify GET_FRONTEGG_TOKEN_RESPONSE_SCHEMA insert lookup
        token_field_names existsb].
  rewrite Hok.
  cbn -[String.append JSON_stringify GET_FRONTEGG_TOKEN_RESPONSE_SCHEMA insert lookup
        token_field_names existsb].
  rewrite Hjson.
  cbn -[String.append JSON_stringify GET_FRONTEGG_TOKEN_RESPONSE_SCHEMA insert lookup
        token_field_names existsb].
  rewrite Hschema.
  cbn -[String.append JSON_stringify GET_FRONTEGG_TOKEN_RESPONSE_SCHEMA insert lookup
        token_field_names existsb].
  rewrite Hleaks. reflexivity.
Qed.

Lemma partial_token_payload_redacted_witness :
  let w := mkWorld (constructor clientConfig) ∅ 1700000000000 no_draws in
  let fields := [("refresh_token", JNull); ("detail", JString "expired")] in
  snd (run_alone w fetchAccessTokenByCookie
         [(1700000000100, Responded (HttpResponse_json (JObject fields)))])
  = Throw (FronteggError
      (FronteggError.mk "Error while parsing Frontegg response." 500
         "http://frontegg-test-instance.local/frontegg/oauth/authorize/silent"
         "undefined"
         (BodyParseFailure (JString redaction_notice)
            [invalid_type ["token_type"] "string" None;
             invalid_type ["access_token"] "string" None;
             invalid_type ["id_token"] "string" None;
             invalid_type ["refresh_token"] "string" (Some JNull);
             invalid_type ["expires_in"] "number" None]))).
Proof.
  intros w fields.
  exact (partial_token_payload_redacted w 1700000000100
           (HttpResponse_json (JObject fields)) fields _ "refresh_token" JNull
           ltac:(simpl; tauto) eq_refl eq_refl eq_refl eq_refl).
Defined.

(** ** Random strings and the code verifier *)

Lemma string_length_app (a b : string) :
  String.length (a +:+ b) = (String.length a + String.length b)%nat.
Proof.
  induction a as [|x a IH]; [by rewrite append_nil_l|].
  rewrite append_cons. simpl. by rewrite IH.
Qed.

Lemma charAt_possible (k : nat) :
  (k < 62)%nat ->
  exists c, charAt possible k = String c EmptyString
            /\ is_alphanumeric (nat_of_ascii c) = true.
Proof.
  intros H. do 62 (destruct k as [|k]; [eexists; split; reflexivity|]). lia.
Qed.

(** The loop of [createRandomString] makes one character of each draw. *)
Lemma random_text_spec (n : nat) (draws : nat -> nat) :
  draws_in_range draws ->
  exists text,
    random_text n draws = (text, fun i => draws (n + i)%nat)
    /\ String.length text = n
    /\ alphanumeric text = true.
Proof.
  revert draws. induction n as [|n IH]; intros draws Hrange.
  - exists EmptyString.
    with_strategy transparent [random_text] (cbn [random_text]).
    repeat split.
  - destruct (IH (fun i => draws (S i))) as (rest & Hrest & Hlen & Halnum).
    { intros i. apply Hrange. }
    destruct (charAt_possible (draws O) (Hrange O)) as (c & Hc & Hcalnum).
    exists (String c rest).
    with_strategy transparent [random_text] (cbn [random_text]).
    rewrite Hrest, Hc. split; [reflexivity|]. split.
    + simpl. by rewrite Hlen.
    + unfold alphanumeric in *. simpl. by rewrite Hcalnum, Halnum.
Qed.

Lemma no_draws_in_range : draws_in_range no_draws.
Proof. intros i. unfold no_draws. lia. Qed.

(** X11: [createRandomString(length)] returns a text of exactly [length]
    characters, each a letter or a digit, and takes exactly [length]
    draws of [Math.random()], when the draws select a position inside
    [possible]. *)
Theorem createRandomString_alphanumeric (w : World) (length : nat)
    (answers : list (Z * FetchOutcome)) :
  draws_in_range (random w) ->
  exists text,
    run_alone w (createRandomString length) answers
    = (mkWorld (this w) (localStorage w) (clock w)
         (fun i => random w (length + i)%nat),
       Return text)
    /\ String.length text = length
    /\ alphanumeric text = true.
Proof.
  intros Hrange.
  destruct (random_text_spec length (random w) Hrange) as (text & Htext & Hlen & Halnum).
  exists text. split; [|by split].
  unfold createRandomString. cbn [run_alone]. rewrite Htext. reflexivity.
Qed.

Lemma createRandomString_alphanumeric_witness :
  let w := mkWorld (constructor clientConfig) ∅ 1700000000000 no_draws in
  exists text,
    run_alone w (createRandomString 16) []
    = (mkWorld (this w) (localStorage w) (clock w) (fun i => no_draws (16 + i)%nat),
       Return text)
    /\ String.length text = 16%nat
    /\ alphanumeric text = true.
Proof.
  intros w.
  exact (createRandomString_alphanumeric w 16 [] no_draws_in_range).
Defined.

(** X12: [getCodeVerifier] returns a verifier that is not empty and that
    the store holds afterwards; a verifier found in the store is returned
    at once with nothing changed, and otherwise a new one of sixteen
    letters and digits is written to the store before the wait of 200 ms
    starts.  Every later call, in any world whose store holds this
    verifier, returns it again without waiting and without a write. *)
Theorem getCodeVerifier_stable (w : World) (answers : list (Z * FetchOutcome)) :
  draws_in_range (random w) ->
  exists w' verifier,
    run_alone w getCodeVerifier answers = (w', Return verifier)
    /\ verifier <> EmptyString
    /\ this w' = this w
    /\ localStorage w' !! "LOGIN_VERIFIER_KEY" = Some verifier
    /\ (forall later,
          localStorage later !! "LOGIN_VERIFIER_KEY" = Some verifier ->
          run_sync later getCodeVerifier = (later, Return verifier))
    /\ match localStorage w !! "LOGIN_VERIFIER_KEY" with
       | Some (String c v) => verifier = String c v /\ w' = w
       | _ =>
           String.length verifier = 16%nat
           /\ alphanumeric verifier = true
           /\ run_sync w getCodeVerifier
              = (w', Pause (Timeout 200) (Return verifier))
           /\ localStorage w'
              = <["LOGIN_VERIFIER_KEY" := verifier]> (localStorage w)
       end.
Proof.
  intros Hrange.
  destruct (random_text_spec 16 (random w) Hrange) as (text & Htext & Hlen & Halnum).
  assert (Hlater : forall verifier later,
            verifier <> EmptyString ->
            localStorage later !! "LOGIN_VERIFIER_KEY" = Some verifier ->
            run_sync later getCodeVerifier = (later, Return verifier)).
  { intros verifier later Hne Hstored. unfold getCodeVerifier. cbn [run_sync].
    rewrite Hstored. by destruct verifier. }
  assert (Htext_ne : text <> EmptyString).
  { intros ->. discriminate Hlen. }
  unfold getCodeVerifier. cbn [run_alone run_sync].
  destruct (localStorage w !! "LOGIN_VERIFIER_KEY") as [[|c v]|] eqn:Hstored.
  - unfold createRandomString. cbn [bind run_alone run_sync]. rewrite Htext.
    cbn [bind run_alone run_sync].
    eexists _, text. split; [reflexivity|]. split; [exact Htext_ne|].
    split; [reflexivity|]. split; [apply lookup_insert_eq|].
    split; [intros later; by apply Hlater|]. repeat split; assumption.
  - exists w, (String c v). split; [reflexivity|]. split; [discriminate|].
    split; [reflexivity|]. split; [exact Hstored|].
    split; [intros later; by apply Hlater|]. by split.
  - unfold createRandomString. cbn [bind run_alone run_sync]. rewrite Htext.
    cbn [bind run_alone run_sync].
    eexists _, text. split; [reflexivity|]. split; [exact Htext_ne|].
    split; [reflexivity|]. split; [apply lookup_insert_eq|].
    split; [intros later; by apply Hlater|]. repeat split; assumption.
Qed.

Lemma getCodeVerifier_stable_witness :
  let w := mkWorld (constructor clientConfig) ∅ 1700000000000 no_draws in
  exists w' verifier,
    run_alone w getCodeVerifier [] = (w', Return verifier)
    /\ localStorage w' !! "LOGIN_VERIFIER_KEY" = Some verifier
    /\ String.length verifier = 16%nat.
Proof.
  intros w.
  destruct (getCodeVerifier_stable w [] no_draws_in_range)
    as (w' & verifier & Hrun & _ & _ & Hstored & _ & Hlength & _).
  exists w', verifier. repeat split; assumption.
Defined.

(** ** The parameters of the login URL *)

Lemma searchParams_get_filter (name other : string) (params : list (string * string)) :
  name <> other ->
  searchParams_get name (filter (fun p => negb (String.eqb (fst p) other)) params)
  = searchParams_get name params.
Proof.
  intros Hne. induction params as [|[n v] rest IH]; [reflexivity|].
  rewrite filter_cons. simpl.
  destruct (String.eqb_spec n other) as [->|Hn]; simpl.
  - destruct (String.eqb_spec other name) as [->|_]; [done|exact IH].
  - by rewrite IH.
Qed.

Lemma searchParams_get_set_same (name value : string) (params : list (string * string)) :
  searchParams_get name (searchParams_set name value params) = Some value.
Proof.
  induction params as [|[n v] rest IH]; simpl.
  - by rewrite String.eqb_refl.
  - destruct (String.eqb n name) eqn:E; simpl.
    + by rewrite String.eqb_refl.
    + by rewrite E.
Qed.

Lemma searchParams_get_set_other (name other value : string)
    (params : list (string * string)) :
  name <> other ->
  searchParams_get name (searchParams_set other value params)
  = searchParams_get name params.
Proof.
  intros Hne. induction params as [|[n v] rest IH]; simpl.
  - destruct (String.eqb_spec other name) as [->|_]; done.
  - destruct (String.eqb_spec n other) as [->|Hn]; simpl.
    + destruct (String.eqb_spec other name) as [->|_]; [done|].
      by apply searchParams_get_filter.
    + by rewrite IH.
Qed.

Lemma occurrences_cons (name n v : string) (params : list (string * string)) :
  occurrences name ((n, v) :: params)
  = ((if String.eqb n name then 1 else 0) + occurrences name params)%nat.
Proof.
  unfold occurrences. rewrite filter_cons. simpl.
  destruct (String.eqb n name); reflexivity.
Qed.

Lemma occurrences_filter_same (name : string) (params : list (string * string)) :
  occurrences name (filter (fun p => negb (String.eqb (fst p) name)) params) = O.
Proof.
  induction params as [|[n v] rest IH]; [reflexivity|].
  rewrite filter_cons. simpl.
  destruct (String.eqb n name) eqn:E; simpl; [exact IH|].
  by rewrite occurrences_cons, E, IH.
Qed.

Lemma occurrences_filter_other (name other : string) (params : list (string * string)) :
  name <> other ->
  occurrences name (filter (fun p => negb (String.eqb (fst p) other)) params)
  = occurrences name params.
Proof.
  intros Hne.
  induction params as [|[n v] rest IH]; [reflexivity|].
  rewrite filter_cons, occurrences_cons. simpl.
  destruct (String.eqb_spec n other) as [->|Hn]; simpl.
  - destruct (String.eqb_spec other name) as [->|_]; [done|exact IH].
  - by rewrite occurrences_cons, IH.
Qed.

Lemma occurrences_set_same (name value : string) (params : list (string * string)) :
  occurrences name (searchParams_set name value params) = 1%nat.
Proof.
  induction params as [|[n v] rest IH]; simpl.
  - by rewrite occurrences_cons, String.eqb_refl.
  - destruct (String.eqb n name) eqn:E.
    + by rewrite occurrences_cons, String.eqb_refl, occurrences_filter_same.
    + by rewrite occurrences_cons, E, IH.
Qed.

Lemma occurrences_set_other (name other value : string)
    (params : list (string * string)) :
  name <> other ->
  occurrences name (searchParams_set other value params) = occurrences name params.
Proof.
  intros Hne. induction params as [|[n v] rest IH]; simpl.
  - rewrite occurrences_cons.
    destruct (String.eqb_spec other name) as [->|_]; done.
  - destruct (String.eqb_spec n other) as [->|Hn].
    + rewrite !occurrences_cons, occurrences_filter_other by done.
      reflexivity.
    + by rewrite !occurrences_cons, IH.
Qed.

Lemma charAt_possible_ascii (k : nat) : ascii_text (charAt possible k) = true.
Proof. do 62 (destruct k as [|k]; [reflexivity|]). reflexivity. Qed.

Lemma random_text_ascii (n : nat) (draws : nat -> nat) :
  ascii_text (fst (random_text n draws)) = true.
Proof.
  revert draws. induction n as [|n IH]; intros draws.
  - with_strategy transparent [random_text] (cbn [random_text]). reflexivity.
  - with_strategy transparent [random_text] (cbn [random_text]).
    specialize (IH (fun i => draws (S i))).
    destruct (random_text n (fun i => draws (S i))) as [rest draws'].
    cbn [fst] in *. unfold ascii_text in *.
    rewrite string_forallb_app, IH.
    pose proof (charAt_possible_ascii (draws O)) as H. unfold ascii_text in H.
    by rewrite H.
Qed.

(** Run on its own, [getOAuthLoginUrl] ends with what [login_url] makes of
    the verifier the store holds afterwards and of a nonce. *)
Lemma run_alone_getOAuthLoginUrl (SHA256 : string -> string)
    (new_URL : string -> URL.t + Exn) (w : World) :
  exists w' verifier nonce,
    run_alone w (getOAuthLoginUrl SHA256 new_URL) []
    = (w', settled (login_url SHA256 new_URL (this w) verifier nonce))
    /\ this w' = this w
    /\ localStorage w' !! "LOGIN_VERIFIER_KEY" = Some verifier
    /\ ascii_text nonce = true
    /\ (forall c v, localStorage w !! "LOGIN_VERIFIER_KEY" = Some (String c v) ->
                    verifier = String c v)
    /\ (localStorage w !! "LOGIN_VERIFIER_KEY" = None
        \/ localStorage w !! "LOGIN_VERIFIER_KEY" = Some EmptyString ->
        ascii_text verifier = true)
    /\ (draws_in_range (random w) ->
        verifier <> EmptyString
        /\ String.length nonce = 16%nat /\ alphanumeric nonce = true).
Proof.
  assert (Hnonce : forall w1 verifier,
    this w1 = this w ->
    exists w' nonce,
      run_alone w1
        (let* nonce := createRandomString 16 in
         Read (fun w =>
           match new_URL (baseUrl (this w) +:+ "/frontegg/oauth/authorize") with
           | inl loginUrl =>
               let loginUrl := URL.set "client_id" (clientId (this w)) loginUrl in
               let loginUrl := URL.set "redirect_uri" (redirectUri (this w)) loginUrl in
               let loginUrl := URL.set "response_type" "code" loginUrl in
               let loginUrl := URL.set "scope" "openid profile email" loginUrl in
               let loginUrl :=
                 URL.set "code_challenge" (hashedVerifier SHA256 verifier) loginUrl in
               let loginUrl := URL.set "code_challenge_method" "S256" loginUrl in
               let loginUrl := URL.set "nonce" nonce loginUrl in
               Return loginUrl
           | inr error => Throw error
           end)) []
      = (w', settled (login_url SHA256 new_URL (this w) verifier nonce))
      /\ this w' = this w
      /\ localStorage w' = localStorage w1
      /\ ascii_text nonce = true
      /\ (draws_in_range (random w1) ->
          String.length nonce = 16%nat /\ alphanumeric nonce = true)).
  { intros w1 verifier Hthis. unfold createRandomString.
    cbn [bind run_alone].
    pose proof (random_text_ascii 16 (random w1)) as Hascii.
    destruct (random_text 16 (random w1)) as [nonce draws'] eqn:R.
    cbn [bind run_alone this]. rewrite Hthis.
    eexists _, nonce. split.
    - unfold login_url.
      destruct (new_URL (baseUrl (this w) +:+ "/frontegg/oauth/authorize"));
        reflexivity.
    - split; [reflexivity|]. split; [reflexivity|]. split; [exact Hascii|].
      intros Hrange.
      destruct (random_text_spec 16 (random w1) Hrange) as (t & Ht & Hlen & Halnum).
      rewrite Ht in R. injection R as <- _. by split. }
  unfold getOAuthLoginUrl, getCodeVerifier. cbn [bind run_alone].
  destruct (localStorage w !! "LOGIN_VERIFIER_KEY") as [[|c v]|] eqn:Hstored.
  - unfold createRandomString at 1. cbn [bind run_alone].
    pose proof (random_text_ascii 16 (random w)) as Hascii.
    destruct (random_text 16 (random w)) as [text draws'] eqn:R.
    cbn [bind run_alone].
    destruct (Hnonce (with_localStorage (insert "LOGIN_VERIFIER_KEY" text)
                        (mkWorld (this w) (localStorage w) (clock w) draws')) text
                eq_refl) as (w' & nonce & Hrun & Hthis & Hstore & Hn & Hshape).
    exists w', text, nonce. split; [exact Hrun|]. split; [exact Hthis|].
    split; [rewrite Hstore; apply lookup_insert_eq|].
    split; [exact Hn|]. split; [discriminate|]. split; [intros _; exact Hascii|].
    intros Hrange.
    destruct (random_text_spec 16 (random w) Hrange) as (t & Ht & Hlen & Halnum).
    rewrite Ht in R. injection R as <- <-. split.
    + intros ->. discriminate Hlen.
    + apply Hshape. intros i. apply Hrange.
  - destruct (Hnonce w (String c v) eq_refl)
      as (w' & nonce & Hrun & Hthis & Hstore & Hn & Hshape).
    exists w', (String c v), nonce. split; [exact Hrun|]. split; [exact Hthis|].
    split; [by rewrite Hstore|]. split; [exact Hn|].
    split; [by intros ? ? [= -> ->]|]. split; [intros [|]; discriminate|].
    intros Hrange. split; [discriminate|by apply Hshape].
  - unfold createRandomString at 1. cbn [bind run_alone].
    pose proof (random_text_ascii 16 (random w)) as Hascii.
    destruct (random_text 16 (random w)) as [text draws'] eqn:R.
    cbn [bind run_alone].
    destruct (Hnonce (with_localStorage (insert "LOGIN_VERIFIER_KEY" text)
                        (mkWorld (this w) (localStorage w) (clock w) draws')) text
                eq_refl) as (w' & nonce & Hrun & Hthis & Hstore & Hn & Hshape).
    exists w', text, nonce. split; [exact Hrun|]. split; [exact Hthis|].
    split; [rewrite Hstore; apply lookup_insert_eq|].
    split; [exact Hn|]. split; [discriminate|]. split; [intros _; exact Hascii|].
    intros Hrange.
    destruct (random_text_spec 16 (random w) Hrange) as (t & Ht & Hlen & Halnum).
    rewrite Ht in R. injection R as <- <-. split.
    + intros ->. discriminate Hlen.
    + apply Hshape. intros i. apply Hrange.
Qed.

Lemma URL_set_query (name value : string) (url : URL.t) :
  URL.query (URL.set name value url)
  = Some (FormUrlEncoded.serialize (URL.searchParams (URL.set name value url))).
Proof.
  unfold URL.set. cbn [URL.query URL.searchParams].
  pose proof (searchParams_get_set_same name value (URL.searchParams url)) as H.
  by destruct (searchParams_set name value (URL.searchParams url)).
Qed.

Lemma login_url_searchParams (SHA256 : string -> string)
    (new_URL : string -> URL.t + Exn) (this : FronteggOAuthClient)
    (verifier nonce : string) (url : URL.t) :
  login_url SHA256 new_URL this verifier nonce = inl url ->
  exists address,
    new_URL (baseUrl this +:+ "/frontegg/oauth/authorize") = inl address
    /\ URL.origin_and_path url = URL.origin_and_path address
    /\ URL.fragment url = URL.fragment address
    /\ URL.query url = Some (FormUrlEncoded.serialize (URL.searchParams url))
    /\ URL.searchParams url
       = searchParams_set "nonce" nonce
           (searchParams_set "code_challenge_method" "S256"
              (searchParams_set "code_challenge" (hashedVerifier SHA256 verifier)
                 (searchParams_set "scope" "openid profile email"
                    (searchParams_set "response_type" "code"
                       (searchParams_set "redirect_uri" (redirectUri this)
                          (searchParams_set "client_id" (clientId this)
                             (URL.searchParams address))))))).
Proof.
  unfold login_url.
  destruct (new_URL (baseUrl this +:+ "/frontegg/oauth/authorize")) as [address|];
    [|discriminate].
  intros [= <-]. exists address. split; [reflexivity|].
  split; [reflexivity|]. split; [reflexivity|]. split; [|reflexivity].
  apply URL_set_query.
Qed.

(** A run of [getOAuthLoginUrl] that returns a URL returns the one
    [login_url] makes. *)
Lemma getOAuthLoginUrl_returns (SHA256 : string -> string)
    (new_URL : string -> URL.t + Exn) (w w' : World) (url : URL.t) :
  run_alone w (getOAuthLoginUrl SHA256 new_URL) [] = (w', Return url) ->
  exists verifier nonce,
    login_url SHA256 new_URL (this w) verifier nonce = inl url
    /\ localStorage w' !! "LOGIN_VERIFIER_KEY" = Some verifier
    /\ (draws_in_range (random w) -> verifier <> EmptyString).
Proof.
  intros Hrun.
  destruct (run_alone_getOAuthLoginUrl SHA256 new_URL w)
    as (w1 & verifier & nonce & Hrun' & _ & Hstored & _ & _ & _ & Hshape).
  rewrite Hrun' in Hrun. injection Hrun as <- Hurl.
  exists verifier, nonce.
  destruct (login_url SHA256 new_URL (this w) verifier nonce) as [made|e];
    [|discriminate Hurl].
  injection Hurl as <-. split; [reflexivity|]. split; [exact Hstored|].
  intros Hrange. apply (Hshape Hrange).
Qed.

(** X13: whatever query the configured base URL carries, the URL returned
    by [getOAuthLoginUrl] has each of the seven parameters [client_id],
    [redirect_uri], [response_type], [scope], [code_challenge],
    [code_challenge_method] and [nonce] exactly once, with the value the
    method sets, so that a base URL cannot override one of them; the
    parameters of other names are those of the URL object that [new URL]
    returned, and the query is the serialisation of the parameters.  This
    holds for every URL parser. *)
Theorem login_parameters_win (SHA256 : string -> string)
    (new_URL : string -> URL.t + Exn) (w w' : World) (url : URL.t) :
  run_alone w (getOAuthLoginUrl SHA256 new_URL) [] = (w', Return url) ->
  exists address verifier nonce,
    new_URL (baseUrl (this w) +:+ "/frontegg/oauth/authorize") = inl address
    /\ localStorage w' !! "LOGIN_VERIFIER_KEY" = Some verifier
    /\ (forall name value,
          In (name, value)
             (login_parameters (this w) (hashedVerifier SHA256 verifier) nonce) ->
          searchParams_get name (URL.searchParams url) = Some value
          /\ occurrences name (URL.searchParams url) = 1%nat)
    /\ (forall name,
          ~ In name (map fst (login_parameters (this w) EmptyString EmptyString)) ->
          searchParams_get name (URL.searchParams url)
          = searchParams_get name (URL.searchParams address)
          /\ occurrences name (URL.searchParams url)
             = occurrences name (URL.searchParams address))
    /\ URL.query url = Some (FormUrlEncoded.serialize (URL.searchParams url)).
Proof.
  intros Hrun.
  destruct (getOAuthLoginUrl_returns _ _ _ _ _ Hrun)
    as (verifier & nonce & Hurl & Hstored & _).
  destruct (login_url_searchParams _ _ _ _ _ _ Hurl)
    as (address & Hnew & _ & _ & Hquery & Hparams).
  exists address, verifier, nonce.
  split; [exact Hnew|]. split; [exact Hstored|].
  split; [|split; [|exact Hquery]].
  - intros name value Hin. rewrite Hparams. simpl in Hin.
    destruct Hin as [H|[H|[H|[H|[H|[H|[H|[]]]]]]]]; injection H as <- <-;
      (split;
       [ rewrite ?searchParams_get_set_other by discriminate;
         apply searchParams_get_set_same
       | rewrite ?occurrences_set_other by discriminate;
         apply occurrences_set_same ]).
  - intros name Hname. rewrite Hparams. simpl in Hname.
    split.
    + rewrite !searchParams_get_set_other; [reflexivity|..];
        intros ->; apply Hname; tauto.
    + rewrite !occurrences_set_other; [reflexivity|..];
        intros ->; apply Hname; tauto.
Qed.

Lemma login_parameters_win_witness :
  let config :=
    Config.mk "http://localhost:8080?client_id=other&nonce=fixed&foo=bar"
      "test-client-id" "http://localhost:3000/oauth/callback" "http://localhost:3000"
      None None None in
  let w := mkWorld (constructor config) {["LOGIN_VERIFIER_KEY" := "verifier"]}
             1700000000000 no_draws in
  let SHA256 := fun _ : string => "digest" in
  let params :=
    [("client_id", "test-client-id");
     ("nonce", "AAAAAAAAAAAAAAAA");
     ("foo", "bar/frontegg/oauth/authorize");
     ("redirect_uri", "http://localhost:3000/oauth/callback");
     ("response_type", "code");
     ("scope", "openid profile email");
     ("code_challenge", hashedVerifier SHA256 "verifier");
     ("code_challenge_method", "S256")] in
  let url :=
    URL.mk "http://localhost:8080/" (Some (FormUrlEncoded.serialize params)) params
      None in
  snd (run_alone w (getOAuthLoginUrl SHA256 plain_URL) []) = Return url
  /\ exists address verifier nonce,
       plain_URL
         "http://localhost:8080?client_id=other&nonce=fixed&foo=bar/frontegg/oauth/authorize"
       = inl address
       /\ searchParams_get "client_id" (URL.searchParams address) = Some "other"
       /\ In ("client_id", "test-client-id")
            (login_parameters (this w) (hashedVerifier SHA256 verifier) nonce)
       /\ searchParams_get "client_id" params = Some "test-client-id"
       /\ occurrences "client_id" params = 1%nat.
Proof.
  intros config w SHA256 params url.
  assert (Hsnd : snd (run_alone w (getOAuthLoginUrl SHA256 plain_URL) []) = Return url)
    by (vm_compute; reflexivity).
  split; [exact Hsnd|].
  destruct (login_parameters_win SHA256 plain_URL w
              (fst (run_alone w (getOAuthLoginUrl SHA256 plain_URL) [])) url
              (eq_trans (surjective_pairing _) (f_equal (pair _) Hsnd)))
    as (address & verifier & nonce & Hnew & _ & Hseven & _).
  exists address, verifier, nonce.
  split; [exact Hnew|].
  split; [injection Hnew as <-; reflexivity|].
  split; [left; reflexivity|].
  exact (Hseven "client_id" "test-client-id" (or_introl eq_refl)).
Defined.

(** X10: the code challenge of the login URL and the code exchange that
    follows the redirect are bound to one verifier.  After
    [getOAuthLoginUrl] returned a URL, [fetchAccessTokenByOAuthCode]
    called in any world whose store holds the same entry (the page loaded
    after the login) changes nothing up to its request, and that request
    is the one whose [code_verifier] is the verifier the challenge was
    computed from.  This holds for every URL parser. *)
Theorem pkce_binding (SHA256 : string -> string) (new_URL : string -> URL.t + Exn)
    (w w' later : World) (url : URL.t) (oauthCode : string) :
  draws_in_range (random w) ->
  run_alone w (getOAuthLoginUrl SHA256 new_URL) [] = (w', Return url) ->
  localStorage later !! "LOGIN_VERIFIER_KEY" = localStorage w' !! "LOGIN_VERIFIER_KEY" ->
  exists verifier,
    searchParams_get "code_challenge" (URL.searchParams url)
    = Some (hashedVerifier SHA256 verifier)
    /\ fst (run_alone later (fetchAccessTokenByOAuthCode oauthCode) []) = later
    /\ in_flight_request
         (snd (run_alone later (fetchAccessTokenByOAuthCode oauthCode) []))
       = Some (code_request (baseUrl (this later)) (redirectUri (this later))
                 oauthCode verifier).
Proof.
  intros Hrange Hrun Hsame.
  destruct (getOAuthLoginUrl_returns _ _ _ _ _ Hrun)
    as (verifier & nonce & Hurl & Hstored & Hne).
  specialize (Hne Hrange).
  destruct (login_url_searchParams _ _ _ _ _ _ Hurl)
    as (address & _ & _ & _ & _ & Hparams).
  exists verifier. split.
  - rewrite Hparams.
    rewrite !searchParams_get_set_other by discriminate.
    apply searchParams_get_set_same.
  - rewrite Hstored in Hsame.
    unfold fetchAccessTokenByOAuthCode, getCodeVerifier, fetchWithAssert.
    cbn [bind run_alone]. rewrite Hsame.
    destruct verifier as [|c v]; [done|].
    split; reflexivity.
Qed.

Lemma pkce_binding_witness :
  let config :=
    Config.mk "http://localhost:8080" "test-client-id"
      "http://localhost:3000/oauth/callback" "http://localhost:3000" None None None in
  let w := mkWorld (constructor config) {["LOGIN_VERIFIER_KEY" := "verifier"]}
             1700000000000 no_draws in
  let SHA256 := fun _ : string => "digest" in
  let params :=
    login_parameters (this w) (hashedVerifier SHA256 "verifier") "AAAAAAAAAAAAAAAA" in
  let url :=
    URL.mk "http://localhost:8080/frontegg/oauth/authorize"
      (Some (FormUrlEncoded.serialize params)) params None in
  let sent := run_alone w (fetchAccessTokenByOAuthCode "test-oauth-code") [] in
  snd (run_alone w (getOAuthLoginUrl SHA256 plain_URL) []) = Return url
  /\ exists verifier,
       searchParams_get "code_challenge" params = Some (hashedVerifier SHA256 verifier)
       /\ fst sent = w
       /\ in_flight_request (snd sent)
          = Some (code_request "http://localhost:8080"
                    "http://localhost:3000/oauth/callback" "test-oauth-code" verifier).
Proof.
  intros config w SHA256 params url sent.
  assert (Hsnd : snd (run_alone w (getOAuthLoginUrl SHA256 plain_URL) []) = Return url)
    by (vm_compute; reflexivity).
  split; [exact Hsnd|].
  exact (pkce_binding SHA256 plain_URL w
           (fst (run_alone w (getOAuthLoginUrl SHA256 plain_URL) [])) w url
           "test-oauth-code" no_draws_in_range
           (eq_trans (surjective_pairing _) (f_equal (pair _) Hsnd))
           ltac:(vm_compute; reflexivity)).
Defined.

(** X21: an error of [new URL] is not caught by the URL builders.  When
    the constructor throws on the address made of the base URL,
    [getOAuthLogoutUrl] throws that error, and [getOAuthLoginUrl] is
    rejected with it after the verifier has been obtained, so that the
    store holds a verifier all the same. *)
Theorem url_builders_rethrow (SHA256 : string -> string)
    (new_URL : string -> URL.t + Exn) (w : World) (e e' : Exn) :
  new_URL (baseUrl (this w) +:+ "/frontegg/oauth/logout") = inr e ->
  new_URL (baseUrl (this w) +:+ "/frontegg/oauth/authorize") = inr e' ->
  getOAuthLogoutUrl new_URL (this w) = inr e
  /\ exists w' verifier,
       run_alone w (getOAuthLoginUrl SHA256 new_URL) [] = (w', Throw e')
       /\ this w' = this w
       /\ localStorage w' !! "LOGIN_VERIFIER_KEY" = Some verifier.
Proof.
  intros Hlogout Hlogin. split.
  - unfold getOAuthLogoutUrl. by rewrite Hlogout.
  - destruct (run_alone_getOAuthLoginUrl SHA256 new_URL w)
      as (w' & verifier & nonce & Hrun & Hthis & Hstored & _).
    exists w', verifier. split; [|by split].
    rewrite Hrun. unfold login_url. by rewrite Hlogin.
Qed.

Lemma url_builders_rethrow_witness :
  let config :=
    Config.mk "frontegg-test-instance.local" "test-client-id"
      "http://localhost:3000/oauth/callback" "http://localhost:3000" None None None in
  let w := mkWorld (constructor config) ∅ 1700000000000 no_draws in
  let reject := fun _ : string => inr (TypeError "Invalid URL") : URL.t + Exn in
  getOAuthLogoutUrl reject (this w) = inr (TypeError "Invalid URL")
  /\ exists w' verifier,
       run_alone w (getOAuthLoginUrl (fun _ => "digest") reject) []
       = (w', Throw (TypeError "Invalid URL"))
       /\ this w' = this w
       /\ localStorage w' !! "LOGIN_VERIFIER_KEY" = Some verifier.
Proof.
  intros config w reject.
  exact (url_builders_rethrow (fun _ => "digest") reject w _ _ eq_refl eq_refl).
Defined.

(** ** The code challenge *)

Lemma base64url_digit_shape (n : nat) :
  (n < 64)%nat ->
  exists c, base64url_digit n = String c EmptyString /\ is_base64url_char c = true.
Proof.
  intros H. do 64 (destruct n as [|n]; [eexists; split; reflexivity|]). lia.
Qed.

Lemma sextets (a b c : ascii) :
  (nat_of_ascii a / 4 < 64
   /\ nat_of_ascii a mod 4 * 16 < 64
   /\ nat_of_ascii a mod 4 * 16 + nat_of_ascii b / 16 < 64
   /\ nat_of_ascii b mod 16 * 4 < 64
   /\ nat_of_ascii b mod 16 * 4 + nat_of_ascii c / 64 < 64
   /\ nat_of_ascii c mod 64 < 64)%nat.
Proof.
  pose proof (nat_ascii_bounded a). pose proof (nat_ascii_bounded b).
  pose proof (nat_ascii_bounded c).
  pose proof (Nat.mod_upper_bound (nat_of_ascii a) 4 ltac:(lia)).
  pose proof (Nat.mod_upper_bound (nat_of_ascii b) 16 ltac:(lia)).
  pose proof (Nat.mod_upper_bound (nat_of_ascii c) 64 ltac:(lia)).
  assert (nat_of_ascii a / 4 < 64)%nat
    by (apply Nat.Div0.div_lt_upper_bound; lia).
  assert (nat_of_ascii b / 16 < 16)%nat
    by (apply Nat.Div0.div_lt_upper_bound; lia).
  assert (nat_of_ascii c / 64 < 4)%nat
    by (apply Nat.Div0.div_lt_upper_bound; lia).
  lia.
Qed.

Ltac digit n :=
  let c := fresh "c" in
  let E := fresh "E" in
  let S := fresh "S" in
  destruct (base64url_digit_shape n) as (c & E & S); [assumption|];
  rewrite E; clear E.

Lemma base64url_shape (s : string) :
  String.length (base64url s) = base64url_length (String.length s)
  /\ string_forallb is_base64url_char (base64url s) = true.
Proof.
  assert (H : (String.length (base64url s) = base64url_length (String.length s)
               /\ string_forallb is_base64url_char (base64url s) = true)
              /\ (forall a,
                    String.length (base64url (String a s))
                    = base64url_length (S (String.length s))
                    /\ string_forallb is_base64url_char (base64url (String a s)) = true)
              /\ (forall a b,
                    String.length (base64url (String a (String b s)))
                    = base64url_length (S (S (String.length s)))
                    /\ string_forallb is_base64url_char
                         (base64url (String a (String b s))) = true)).
  { induction s as [|c s (IH0 & IH1 & IH2)].
    - split; [by split|]. split.
      + intros a. destruct (sextets a a a) as (H1 & H2 & _).
        cbn [base64url]. digit (nat_of_ascii a / 4)%nat.
        digit (nat_of_ascii a mod 4 * 16)%nat.
        rewrite !append_cons, !append_nil_l. simpl. by rewrite S, S0.
      + intros a b. destruct (sextets a b b) as (H1 & _ & H3 & H4 & _).
        cbn [base64url]. digit (nat_of_ascii a / 4)%nat.
        digit (nat_of_ascii a mod 4 * 16 + nat_of_ascii b / 16)%nat.
        digit (nat_of_ascii b mod 16 * 4)%nat.
        rewrite !append_cons, !append_nil_l. simpl. by rewrite S, S0, S1.
    - split; [apply IH1|]. split; [intros a; apply IH2|].
      intros a b. destruct (sextets a b c) as (H1 & _ & H3 & _ & H5 & H6).
      destruct IH0 as [Hlen Hchars].
      cbn [base64url]. digit (nat_of_ascii a / 4)%nat.
      digit (nat_of_ascii a mod 4 * 16 + nat_of_ascii b / 16)%nat.
      digit (nat_of_ascii b mod 16 * 4 + nat_of_ascii c / 64)%nat.
      digit (nat_of_ascii c mod 64)%nat.
      rewrite !append_cons, !append_nil_l.
      cbn [String.length string_forallb base64url_length].
      rewrite Hlen, S, S0, S1, S2, Hchars. by split. }
  apply H.
Qed.

(** X16: the code challenge that [getOAuthLoginUrl] computes has only
    letters, digits, [-] and [_] (no padding, nothing that a query would
    escape), and its length is fixed by the length of the digest: the 32
    bytes of a SHA-256 digest give the 43 characters that RFC 7636 asks
    of an [S256] challenge. *)
Theorem code_challenge_shape (SHA256 : string -> string) (codeVerifier : string) :
  String.length (hashedVerifier SHA256 codeVerifier)
  = base64url_length (String.length (SHA256 codeVerifier))
  /\ string_forallb is_base64url_char (hashedVerifier SHA256 codeVerifier) = true
  /\ (String.length (SHA256 codeVerifier) = 32%nat ->
      String.length (hashedVerifier SHA256 codeVerifier) = 43%nat).
Proof.
  rewrite hashedVerifier_base64url.
  destruct (base64url_shape (SHA256 codeVerifier)) as [Hlen Hchars].
  split; [exact Hlen|]. split; [exact Hchars|].
  intros H. rewrite Hlen, H. reflexivity.
Qed.

(** ** Reading the URLs back *)

Lemma split_at_app (c : ascii) (a b : string) :
  string_forallb (differs c) a = true ->
  split_at c (a +:+ String c b) = (a, Some b).
Proof.
  induction a as [|x a IH].
  - intros _. rewrite append_nil_l. cbn [split_at]. by rewrite Ascii.eqb_refl.
  - rewrite append_cons. cbn [split_at string_forallb]. unfold differs at 1.
    intros [Hx Ha]%andb_true_iff. apply negb_true_iff in Hx.
    by rewrite Hx, (IH Ha).
Qed.

Lemma split_all_absent (c : ascii) (a : string) :
  string_forallb (differs c) a = true -> split_all c a = [a].
Proof.
  induction a as [|x a IH]; [done|].
  cbn [split_all string_forallb]. unfold differs at 1.
  intros [Hx Ha]%andb_true_iff. apply negb_true_iff in Hx.
  by rewrite Hx, (IH Ha).
Qed.

Lemma split_all_app (c : ascii) (a b : string) :
  string_forallb (differs c) a = true ->
  split_all c (a +:+ String c b) = a :: split_all c b.
Proof.
  induction a as [|x a IH].
  - intros _. rewrite append_nil_l. cbn [split_all]. by rewrite Ascii.eqb_refl.
  - rewrite append_cons. cbn [split_all string_forallb]. unfold differs at 1.
    intros [Hx Ha]%andb_true_iff. apply negb_true_iff in Hx.
    by rewrite Hx, (IH Ha).
Qed.

Lemma string_forallb_impl (f g : ascii -> bool) (s : string) :
  (forall x, f x = true -> g x = true) ->
  string_forallb f s = true -> string_forallb g s = true.
Proof.
  intros Hfg. induction s as [|x s IH]; [done|]. simpl.
  intros [Hx Hs]%andb_true_iff. by rewrite (Hfg x Hx), (IH Hs).
Qed.

Lemma serialize_byte_encoded (c : ascii) :
  string_forallb encoded_char (FormUrlEncoded.serialize_byte c) = true.
Proof. destruct c as [[] [] [] [] [] [] [] []]; by vm_compute. Qed.

Lemma serialize_bytes_encoded (s : string) :
  string_forallb encoded_char (FormUrlEncoded.serialize_bytes s) = true.
Proof.
  induction s as [|c s IH]; [done|].
  cbn [FormUrlEncoded.serialize_bytes].
  by rewrite string_forallb_app, serialize_byte_encoded, IH.
Qed.

Lemma percent_decode_serialize_byte (c : ascii) (rest : string) :
  FormUrlEncoded.percent_decode
    (replace_all "+" " " (FormUrlEncoded.serialize_byte c +:+ rest))
  = String c (FormUrlEncoded.percent_decode (replace_all "+" " " rest)).
Proof.
  rewrite replace_all_app.
  generalize (replace_all "+" " " rest). intros decoded.
  destruct c as [[] [] [] [] [] [] [] []];
    match goal with
    | |- context [replace_all ?a ?b (FormUrlEncoded.serialize_byte ?c)] =>
        let text := eval vm_compute in (replace_all a b (FormUrlEncoded.serialize_byte c)) in
        change (replace_all a b (FormUrlEncoded.serialize_byte c)) with text
    end;
    rewrite ?append_cons, append_nil_l; reflexivity.
Qed.

Lemma percent_decode_serialize_bytes (s rest : string) :
  FormUrlEncoded.percent_decode
    (replace_all "+" " " (FormUrlEncoded.serialize_bytes s +:+ rest))
  = s +:+ FormUrlEncoded.percent_decode (replace_all "+" " " rest).
Proof.
  induction s as [|c s IH]; [done|].
  cbn [FormUrlEncoded.serialize_bytes].
  by rewrite append_assoc, percent_decode_serialize_byte, IH.
Qed.

(** Decoding undoes the encoding of a name or a value, whatever
    characters it has. *)
Lemma decode_serialize_bytes (s : string) :
  utf8_valid s = true ->
  FormUrlEncoded.decode (FormUrlEncoded.serialize_bytes s) = Some s.
Proof.
  intros Hvalid. unfold FormUrlEncoded.decode.
  rewrite <- (append_nil_r (FormUrlEncoded.serialize_bytes s)).
  rewrite percent_decode_serialize_bytes.
  change (FormUrlEncoded.percent_decode (replace_all "+" " " EmptyString))
    with EmptyString.
  by rewrite append_nil_r, Hvalid.
Qed.

Lemma utf8_valid_ascii (s : string) : ascii_text s = true -> utf8_valid s = true.
Proof.
  unfold ascii_text. induction s as [|c s IH]; [done|].
  cbn [string_forallb utf8_valid]. intros [Hc Hs]%andb_true_iff.
  rewrite Hc. by apply IH.
Qed.

Lemma base64url_char_ascii (c : ascii) :
  is_base64url_char c = true -> byte_in 0 127 c = true.
Proof. destruct c as [[] [] [] [] [] [] [] []]; vm_compute; congruence. Qed.

Lemma serialize_single (n v : string) :
  FormUrlEncoded.serialize [(n, v)]
  = FormUrlEncoded.serialize_bytes n +:+ String "=" (FormUrlEncoded.serialize_bytes v).
Proof. cbn [FormUrlEncoded.serialize]. by rewrite append_nil_r. Qed.

Lemma serialize_cons (n v : string) (p : string * string)
    (rest : list (string * string)) :
  FormUrlEncoded.serialize ((n, v) :: p :: rest)
  = (FormUrlEncoded.serialize_bytes n +:+ String "=" (FormUrlEncoded.serialize_bytes v))
    +:+ String "&" (FormUrlEncoded.serialize (p :: rest)).
Proof.
  change (FormUrlEncoded.serialize ((n, v) :: p :: rest))
    with (FormUrlEncoded.serialize_bytes n
          +:+ String "=" (FormUrlEncoded.serialize_bytes v
                          +:+ String "&" (FormUrlEncoded.serialize (p :: rest)))).
  by rewrite append_assoc, append_cons.
Qed.

Lemma pair_encoded (n v : string) :
  let sequence :=
    FormUrlEncoded.serialize_bytes n +:+ String "=" (FormUrlEncoded.serialize_bytes v) in
  string_forallb (differs "&") sequence = true
  /\ string_forallb plain_url_char sequence = true.
Proof.
  intros sequence. subst sequence.
  rewrite !string_forallb_app. cbn [string_forallb].
  pose proof (serialize_bytes_encoded n) as Hn.
  pose proof (serialize_bytes_encoded v) as Hv.
  split.
  - rewrite (string_forallb_impl encoded_char (differs "&") _ ltac:(
      unfold encoded_char; intros x [[_ H]%andb_true_iff _]%andb_true_iff; exact H) Hn).
    rewrite (string_forallb_impl encoded_char (differs "&") _ ltac:(
      unfold encoded_char; intros x [[_ H]%andb_true_iff _]%andb_true_iff; exact H) Hv).
    reflexivity.
  - rewrite (string_forallb_impl encoded_char plain_url_char _ ltac:(
      unfold encoded_char; intros x [[H _]%andb_true_iff _]%andb_true_iff; exact H) Hn).
    rewrite (string_forallb_impl encoded_char plain_url_char _ ltac:(
      unfold encoded_char; intros x [[H _]%andb_true_iff _]%andb_true_iff; exact H) Hv).
    reflexivity.
Qed.

Lemma parse_sequence (n v : string) (others : list string) :
  utf8_valid n = true -> utf8_valid v = true ->
  FormUrlEncoded.parse_sequences
    ((FormUrlEncoded.serialize_bytes n
      +:+ String "=" (FormUrlEncoded.serialize_bytes v)) :: others)
  = match FormUrlEncoded.parse_sequences others with
    | Some pairs => Some ((n, v) :: pairs)
    | None => None
    end.
Proof.
  intros Hn Hv. cbn [FormUrlEncoded.parse_sequences].
  destruct (FormUrlEncoded.serialize_bytes n
            +:+ String "=" (FormUrlEncoded.serialize_bytes v)) as [|a s] eqn:E.
  { apply (f_equal String.length) in E. rewrite string_length_app in E.
    simpl in E. lia. }
  rewrite <- E. rewrite split_at_app.
  2:{ apply (string_forallb_impl encoded_char); [|apply serialize_bytes_encoded].
      unfold encoded_char. by intros x [_ H]%andb_true_iff. }
  cbn [default from_option id].
  by rewrite !decode_serialize_bytes.
Qed.

(** Parsing a serialised list of parameters gives the list back. *)
Lemma parse_serialize (params : list (string * string)) :
  forallb (fun p => utf8_valid (fst p) && utf8_valid (snd p)) params = true ->
  FormUrlEncoded.parse (FormUrlEncoded.serialize params) = Some params.
Proof.
  induction params as [|[n v] rest IH]; [reflexivity|].
  cbn [forallb fst snd]. intros [[Hn Hv]%andb_true_iff Hrest]%andb_true_iff.
  specialize (IH Hrest).
  destruct rest as [|p rest].
  - rewrite serialize_single. unfold FormUrlEncoded.parse.
    rewrite split_all_absent by apply pair_encoded.
    by rewrite parse_sequence.
  - rewrite serialize_cons. unfold FormUrlEncoded.parse in *.
    rewrite split_all_app by apply pair_encoded.
    by rewrite parse_sequence, IH.
Qed.

Lemma serialize_plain (params : list (string * string)) :
  string_forallb plain_url_char (FormUrlEncoded.serialize params) = true.
Proof.
  induction params as [|[n v] rest IH]; [reflexivity|].
  destruct rest as [|p rest].
  - rewrite serialize_single. apply pair_encoded.
  - rewrite serialize_cons, string_forallb_app.
    rewrite (proj2 (pair_encoded n v)). cbn [string_forallb]. by rewrite IH.
Qed.

(** X14: whenever [new URL] gives a URL without parameters for
    [{baseUrl}/frontegg/oauth/logout], the string returned by
    [getOAuthLogoutUrl] is the address of that URL, a question mark, a
    query and the fragment of that URL, where the query has only
    characters that a URL parser leaves as they are, and read as
    [application/x-www-form-urlencoded] it gives back the single
    parameter [post_logout_redirect_uri] with exactly the configured
    logout redirect as its value, whatever characters that redirect has
    (the redirect being well-formed text).  This holds for every URL
    parser. *)
Theorem logout_url_round_trip (new_URL : string -> URL.t + Exn)
    (client : FronteggOAuthClient) (address : URL.t) :
  new_URL (baseUrl client +:+ "/frontegg/oauth/logout") = inl address ->
  URL.searchParams address = [] ->
  utf8_valid (logoutRedirectUri client) = true ->
  exists query,
    getOAuthLogoutUrl new_URL client
    = inl (URL.origin_and_path address +:+ "?" +:+ query +:+ fragment_text address)
    /\ string_forallb plain_url_char query = true
    /\ FormUrlEncoded.parse query
       = Some [("post_logout_redirect_uri", logoutRedirectUri client)].
Proof.
  intros Hnew Hempty Hvalid.
  exists (FormUrlEncoded.serialize
            [("post_logout_redirect_uri", logoutRedirectUri client)]).
  split; [|split].
  - unfold getOAuthLogoutUrl. rewrite Hnew.
    unfold URL.set, URL.toString, fragment_text. rewrite Hempty.
    cbn [searchParams_set URL.searchParams URL.query URL.fragment URL.origin_and_path].
    by rewrite !append_assoc.
  - apply serialize_plain.
  - apply parse_serialize. cbn [forallb fst snd]. by rewrite Hvalid.
Qed.

Lemma logout_url_round_trip_witness :
  let client :=
    constructor
      (Config.mk "http://localhost:8080" "test-client-id"
         "http://localhost:3000/oauth/callback" "http://localhost:3000/?a=b c&d#e"
         None None None) in
  exists query,
    getOAuthLogoutUrl plain_URL client
    = inl ("http://localhost:8080/frontegg/oauth/logout" +:+ "?" +:+ query
           +:+ EmptyString)
    /\ string_forallb plain_url_char query = true
    /\ FormUrlEncoded.parse query
       = Some [("post_logout_redirect_uri", "http://localhost:3000/?a=b c&d#e")].
Proof.
  intros client.
  exact (logout_url_round_trip plain_URL client
           (URL.mk "http://localhost:8080/frontegg/oauth/logout" None [] None)
           eq_refl eq_refl eq_refl).
Defined.

(** X15: whenever [new URL] gives a URL without parameters for
    [{baseUrl}/frontegg/oauth/authorize], [getOAuthLoginUrl] returns a URL
    whose string is the address of that URL, a question mark, a query
    and the fragment of that URL, where the query has only characters
    that a URL parser leaves as they are, and read as
    [application/x-www-form-urlencoded] it gives back exactly the
    parameters of the returned URL, with the same values (the client id
    and the redirect URI being well-formed text).  This holds for every
    URL parser and every digest function. *)
Theorem login_url_round_trip (SHA256 : string -> string)
    (new_URL : string -> URL.t + Exn) (w : World) (address : URL.t) :
  new_URL (baseUrl (this w) +:+ "/frontegg/oauth/authorize") = inl address ->
  URL.searchParams address = [] ->
  utf8_valid (clientId (this w)) = true ->
  utf8_valid (redirectUri (this w)) = true ->
  exists w' url query,
    run_alone w (getOAuthLoginUrl SHA256 new_URL) [] = (w', Return url)
    /\ URL.toString url
       = URL.origin_and_path address +:+ "?" +:+ query +:+ fragment_text address
    /\ string_forallb plain_url_char query = true
    /\ FormUrlEncoded.parse query = Some (URL.searchParams url).
Proof.
  intros Hnew Hempty Hclient Hredirect.
  destruct (run_alone_getOAuthLoginUrl SHA256 new_URL w)
    as (w' & verifier & nonce & Hrun & _ & _ & Hnonce & _).
  destruct (login_url SHA256 new_URL (this w) verifier nonce) as [url|e] eqn:Hurl.
  2:{ unfold login_url in Hurl. rewrite Hnew in Hurl. discriminate Hurl. }
  destruct (login_url_searchParams _ _ _ _ _ _ Hurl)
    as (address' & Haddress & Horigin & Hfragment & Hquery & Hparams).
  rewrite Hnew in Haddress. injection Haddress as <-.
  rewrite Hempty in Hparams.
  cbn [searchParams_set String.eqb Ascii.eqb Bool.eqb andb negb] in Hparams.
  exists w', url, (FormUrlEncoded.serialize (URL.searchParams url)).
  split; [exact Hrun|]. split; [|split].
  - unfold URL.toString, fragment_text. rewrite Hquery, Horigin, Hfragment.
    by rewrite !append_assoc.
  - apply serialize_plain.
  - apply parse_serialize. rewrite Hparams.
    cbn [forallb fst snd]. rewrite Hclient, Hredirect.
    rewrite (utf8_valid_ascii nonce Hnonce).
    rewrite (utf8_valid_ascii (hashedVerifier SHA256 verifier)).
    + reflexivity.
    + rewrite hashedVerifier_base64url. unfold ascii_text.
      apply (string_forallb_impl is_base64url_char); [apply base64url_char_ascii|].
      apply base64url_shape.
Qed.

Lemma login_url_round_trip_witness :
  let config :=
    Config.mk "http://localhost:8080" "test-client-id"
      "http://localhost:3000/oauth/callback" "http://localhost:3000" None None None in
  let w := mkWorld (constructor config) {["LOGIN_VERIFIER_KEY" := "verifier"]}
             1700000000000 no_draws in
  exists w' url query,
    run_alone w (getOAuthLoginUrl (fun _ => "digest") plain_URL) [] = (w', Return url)
    /\ URL.toString url
       = "http://localhost:8080/frontegg/oauth/authorize" +:+ "?" +:+ query
         +:+ EmptyString
    /\ string_forallb plain_url_char query = true
    /\ FormUrlEncoded.parse query = Some (URL.searchParams url).
Proof.
  intros config w.
  exact (login_url_round_trip (fun _ => "digest") plain_URL w
           (URL.mk "http://localhost:8080/frontegg/oauth/authorize" None [] None)
           eq_refl eq_refl eq_refl eq_refl).
Defined.

(** ** The profile request *)

(** X20: [fetchUserData] sends one [GET] request to the profile address
    with the access token as bearer, and from a successful response whose
    payload has the properties [id], [email], [name], [tenantId] and a
    picture URL that is a string, [null] or absent, it makes the profile:
    [externalUserId] is [id], [externalWorkspaceId] is [tenantId], and
    [accessToken] is the token that was passed, not a value of the
    payload.  It does not write the instance. *)
Theorem fetchUserData_contract (w : World) (userAccessToken : string) (now : Z)
    (r : Response.t) (fields : list (string * JSON))
    (id email name tenantId : string) (picture : Nullish string) :
  Response.ok r = true ->
  Response.json false r = inl (JObject fields) ->
  property "id" fields = Some (JString id) ->
  property "email" fields = Some (JString email) ->
  property "name" fields = Some (JString name) ->
  property "tenantId" fields = Some (JString tenantId) ->
  z_string_nullable_optional "profilePictureUrl" (property "profilePictureUrl" fields)
  = inl picture ->
  run_sync w (fetchUserData userAccessToken)
  = (w, snd (run_sync w (fetchUserData userAccessToken)))
  /\ in_flight_request (snd (run_sync w (fetchUserData userAccessToken)))
     = Some (profile_request (baseUrl (this w)) userAccessToken)
  /\ run_alone w (fetchUserData userAccessToken) [(now, Responded r)]
     = (with_clock now w,
        Return (UserData.mk id userAccessToken name email picture tenantId)).
Proof.
  intros Hok Hjson Hid Hemail Hname Htenant Hpicture.
  split; [reflexivity|]. split; [reflexivity|].
  unfold fetchUserData, fetchWithAssert.
  cbn -[String.append JSON_stringify GET_FRONTEGG_USER_DATA_RESPONSE_SCHEMA].
  rewrite Hok.
  cbn -[String.append JSON_stringify GET_FRONTEGG_USER_DATA_RESPONSE_SCHEMA].
  rewrite Hjson.
  cbn -[String.append JSON_stringify z_string_nullable_optional].
  rewrite Hid, Hemail, Hname, Htenant, Hpicture. reflexivity.
Qed.

Lemma fetchUserData_contract_witness :
  let w := mkWorld (constructor clientConfig) ∅ 1700000000000 no_draws in
  run_alone w (fetchUserData "test-access-token")
    [(1700000000200, Responded (HttpResponse_json FRONTEGG_USER_DATA))]
  = (with_clock 1700000000200 w, Return USER_DATA).
Proof.
  intros w.
  exact (proj2 (proj2 (fetchUserData_contract w "test-access-token" 1700000000200
                         (HttpResponse_json FRONTEGG_USER_DATA) _ _ _ _ _ _
                         eq_refl eq_refl eq_refl eq_refl eq_refl eq_refl eq_refl))).
Defined.
